(** * raylib.audio: sound loading and music streaming over OpenAL and stb_vorbis

    A shallow embedding of the audio module (the third unit of
    [src/examples/ex03b_input_mouse.c], lines 120-921) and the properties
    of its music streaming, resource scanning and loading paths.

    The module drives two libraries.  OpenAL is modelled here as a small
    state machine (sources with a buffer queue split into processed and
    pending buffers, named buffers holding PCM data, a sticky error flag).
    The Ogg decoder stb_vorbis, the [ResInfoHeader] layout and the helpers
    [GetExtension] and [DecompressData] are declared in files that are not
    part of the unit; they are taken as parameters (type classes below). *)

From Stdlib Require Import ZArith List String Ascii Lia QArith Strings.Byte.
From stdpp Require Import base gmap strings list fin_maps.

Open Scope Z_scope.

(** ** C integers *)

(** Value of a 32-bit [int] holding [z] modulo 2^32 (two's complement). *)
Definition int32 (z : Z) : Z := (z + 2^31) mod 2^32 - 2^31.

(** Value of a 16-bit [short] holding [z] modulo 2^16. *)
Definition int16 (z : Z) : Z := (z + 2^15) mod 2^16 - 2^15.

(** Value of a [char] (signed, 8 bits) holding [z] modulo 2^8. *)
Definition int8 (z : Z) : Z := (z + 2^7) mod 2^8 - 2^7.

Abbreviation ALuint := N.
Abbreviation byte := Byte.byte.

#[global] Instance byte_eq_decision : EqDecision byte := Byte.byte_eq_dec.

Definition byte_val (b : byte) : Z := Z.of_N (Byte.to_N b).

(** Little-endian unsigned value of a run of bytes. *)
Fixpoint le_unsigned (bs : list byte) : Z :=
  match bs with
  | [] => 0
  | b :: bs' => byte_val b + 256 * le_unsigned bs'
  end.

(** ** Defines and Macros *)

Definition MUSIC_STREAM_BUFFERS : Z := 2.
Definition MUSIC_BUFFER_SIZE : Z := 4096 * 8.
Arguments MUSIC_BUFFER_SIZE : simpl never.

(** ** Trace of the calls the module makes *)

Inductive TraceLogType := INFO | ERROR | WARNING | DEBUG | OTHER.

Inductive ALparam :=
  | AL_PITCH | AL_GAIN | AL_POSITION | AL_VELOCITY | AL_LOOPING | AL_BUFFER
  | AL_BUFFERS_QUEUED | AL_BUFFERS_PROCESSED | AL_SOURCE_STATE.

(** One entry per library call or log message, in program order.  A
    [TraceLog] entry keeps the level and the format string; the formatted
    arguments are not part of any decision and are left out. *)
Inductive event :=
  | EvTraceLog (lvl : TraceLogType) (fmt : string)
  | EvGenSources (names : list ALuint)
  | EvGenBuffers (names : list ALuint)
  | EvSourcef (source : ALuint) (p : ALparam) (v : Q)
  | EvSource3f (source : ALuint) (p : ALparam) (x y z : Q)
  | EvSourcei (source : ALuint) (p : ALparam) (v : Z)
  | EvGetSourcei (source : ALuint) (p : ALparam) (reported : Z)
  | EvBufferData (buffer : ALuint) (format : Z) (data : list (option Z))
                 (bytes : Z) (freq : Z)
  | EvSourceQueueBuffers (source : ALuint) (bufs : list ALuint)
  | EvSourceUnqueueBuffers (source : ALuint) (buffer : ALuint)
  | EvSourcePlay (source : ALuint)
  | EvSourcePause (source : ALuint)
  | EvSourceStop (source : ALuint)
  | EvDeleteSources (names : list ALuint)
  | EvDeleteBuffers (names : list ALuint)
  | EvVorbisOpen (fileName : string) (opened : bool)
  | EvVorbisSeekStart
  | EvVorbisClose
  | EvCloseContext.

(** ** OpenAL *)

Module AL.

Definition AL_NO_ERROR : Z := 0.
Definition AL_INVALID_NAME : Z := 0xA001.
Definition AL_INVALID_VALUE : Z := 0xA003.
Definition AL_INVALID_OPERATION : Z := 0xA004.

Definition AL_INITIAL : Z := 0x1011.
Definition AL_PLAYING : Z := 0x1012.
Definition AL_PAUSED : Z := 0x1013.
Definition AL_STOPPED : Z := 0x1014.

Definition AL_FORMAT_MONO8 : Z := 0x1100.
Definition AL_FORMAT_MONO16 : Z := 0x1101.
Definition AL_FORMAT_STEREO8 : Z := 0x1102.
Definition AL_FORMAT_STEREO16 : Z := 0x1103.

(** A source: its play state and its queue, the buffers already played
    (processed, oldest first) followed by those still to play. *)
Record source := Source {
  src_state : Z;
  src_processed : list ALuint;
  src_pending : list ALuint
}.

(** A buffer object and the data last uploaded to it.  A sample the
    program never wrote is [None]. *)
Record buffer := Buffer {
  buf_format : Z;
  buf_data : list (option Z);
  buf_bytes : Z;
  buf_freq : Z
}.

Record context := MkContext {
  sources : gmap N source;
  buffers : gmap N buffer;
  error : Z
}.

Definition queue (s : source) : list ALuint := src_processed s ++ src_pending s.

(** The error flag keeps the first error until [alGetError] reads it. *)
Definition raise (e : Z) (c : context) : context :=
  MkContext (sources c) (buffers c) (if error c =? AL_NO_ERROR then e else error c).

Definition with_source (name : ALuint) (s : source) (c : context) : context :=
  MkContext (<[name := s]> (sources c)) (buffers c) (error c).

Definition new_source : source := Source AL_INITIAL [] [].
Definition new_buffer : buffer := Buffer 0 [] 0 0.

(** Name 0 is never handed out: it is the null source and buffer. *)
Definition alGenSources (n : nat) (c : context) : list ALuint * context :=
  let names := fresh_list n ({[0%N]} ∪ dom (sources c)) in
  (names,
   MkContext (foldr (fun k m => <[k := new_source]> m) (sources c) names)
           (buffers c) (error c)).

Definition alGenBuffers (n : nat) (c : context) : list ALuint * context :=
  let names := fresh_list n ({[0%N]} ∪ dom (buffers c)) in
  (names,
   MkContext (sources c)
           (foldr (fun k m => <[k := new_buffer]> m) (buffers c) names)
           (error c)).

Definition alBufferData (b : ALuint) (format : Z) (data : list (option Z))
    (bytes freq : Z) (c : context) : context :=
  match buffers c !! b with
  | Some _ =>
      MkContext (sources c) (<[b := Buffer format data bytes freq]> (buffers c))
              (error c)
  | None => raise AL_INVALID_NAME c
  end.

(** Reads one integer property; [None] when the source name is invalid,
    in which case the caller's variable is left as it was. *)
Definition alGetSourcei (name : ALuint) (p : ALparam) (c : context)
    : option Z * context :=
  match sources c !! name with
  | Some s =>
      match p with
      | AL_BUFFERS_QUEUED => (Some (Z.of_nat (length (queue s))), c)
      | AL_BUFFERS_PROCESSED => (Some (Z.of_nat (length (src_processed s))), c)
      | AL_SOURCE_STATE => (Some (src_state s), c)
      | _ => (None, raise AL_INVALID_VALUE c)
      end
  | None => (None, raise AL_INVALID_NAME c)
  end.

Definition alSourceQueueBuffers (name : ALuint) (bufs : list ALuint)
    (c : context) : context :=
  match sources c !! name with
  | Some s =>
      if forallb (fun b => bool_decide (is_Some (buffers c !! b))) bufs
      then with_source name
             (Source (src_state s) (src_processed s) (src_pending s ++ bufs)) c
      else raise AL_INVALID_NAME c
  | None => raise AL_INVALID_NAME c
  end.

(** Removes one processed buffer from the head of the queue; a buffer
    that is still pending cannot be removed. *)
Definition alSourceUnqueueBuffers1 (name : ALuint) (c : context)
    : option ALuint * context :=
  match sources c !! name with
  | Some s =>
      match src_processed s with
      | b :: rest =>
          (Some b, with_source name (Source (src_state s) rest (src_pending s)) c)
      | [] => (None, raise AL_INVALID_VALUE c)
      end
  | None => (None, raise AL_INVALID_NAME c)
  end.

(** Play restarts the queue from its first buffer, except on a paused
    source, which resumes where it was. *)
Definition alSourcePlay (name : ALuint) (c : context) : context :=
  match sources c !! name with
  | Some s =>
      if src_state s =? AL_PAUSED
      then with_source name (Source AL_PLAYING (src_processed s) (src_pending s)) c
      else with_source name (Source AL_PLAYING [] (queue s)) c
  | None => raise AL_INVALID_NAME c
  end.

Definition alSourcePause (name : ALuint) (c : context) : context :=
  match sources c !! name with
  | Some s =>
      if src_state s =? AL_PLAYING
      then with_source name (Source AL_PAUSED (src_processed s) (src_pending s)) c
      else c
  | None => raise AL_INVALID_NAME c
  end.

(** Stop marks every queued buffer processed; on a source that was never
    played it does nothing. *)
Definition alSourceStop (name : ALuint) (c : context) : context :=
  match sources c !! name with
  | Some s =>
      if src_state s =? AL_INITIAL then c
      else with_source name (Source AL_STOPPED (queue s) []) c
  | None => raise AL_INVALID_NAME c
  end.

Definition alDeleteSources (names : list ALuint) (c : context) : context :=
  if forallb (fun k => bool_decide (is_Some (sources c !! k))) names
  then MkContext (foldr delete (sources c) names) (buffers c) (error c)
  else raise AL_INVALID_NAME c.

(** A buffer queued on some source cannot be deleted. *)
Definition in_use (b : ALuint) (c : context) : bool :=
  existsb (fun ks => bool_decide (b ∈ queue ks.2)) (map_to_list (sources c)).

Definition alDeleteBuffers (names : list ALuint) (c : context) : context :=
  if forallb (fun k => bool_decide (is_Some (buffers c !! k))) names
  then if existsb (fun k => in_use k c) names
       then raise AL_INVALID_OPERATION c
       else MkContext (sources c) (foldr delete (buffers c) names) (error c)
  else raise AL_INVALID_NAME c.

(** Attaching a buffer ([AL_BUFFER]) replaces the queue by that one
    buffer, or empties it for the null buffer; [AL_LOOPING] is not part
    of the model's state. *)
Definition alSourcei (name : ALuint) (p : ALparam) (v : Z) (c : context) : context :=
  match sources c !! name with
  | Some s =>
      match p with
      | AL_BUFFER =>
          if v =? 0 then with_source name (Source (src_state s) [] []) c
          else if bool_decide (is_Some (buffers c !! Z.to_N v))
          then with_source name (Source (src_state s) [] [Z.to_N v]) c
          else raise AL_INVALID_VALUE c
      | AL_LOOPING => c
      | _ => raise AL_INVALID_VALUE c
      end
  | None => raise AL_INVALID_NAME c
  end.

(** The names the next [alGenSources(1, ..)] and [alGenBuffers(2, ..)]
    hand out. *)
Definition next_source (c : context) : ALuint :=
  fresh ({[0%N]} ∪ dom (sources c)).

Definition next_buffers (c : context) : ALuint * ALuint :=
  let b0 := fresh ({[0%N]} ∪ dom (buffers c)) in
  (b0, fresh ({[b0]} ∪ ({[0%N]} ∪ dom (buffers c)))).

Definition alGetError (c : context) : Z * context :=
  (error c, MkContext (sources c) (buffers c) AL_NO_ERROR).

End AL.

(** ** stb_vorbis and the helpers of utils.h *)

Record stb_vorbis_info := VorbisInfo {
  info_channels : Z;
  info_sample_rate : Z
}.

(** The decoder entry points the module calls, over a decoder state [V]
    (what a non-null [stb_vorbis *] points to).  Opening takes the bytes of
    the file and fails with [None] (a null handle).  Reading takes the
    channel count and the room offered, in shorts, and gives back its
    return value (samples stored per channel), the shorts it wrote at the
    destination, and the advanced decoder. *)
Class StbVorbis (V : Type) := {
  stb_vorbis_open : list byte -> option V;
  stb_vorbis_get_info : V -> stb_vorbis_info;
  stb_vorbis_stream_length_in_samples : V -> Z;
  stb_vorbis_stream_length_in_seconds : V -> Q;
  stb_vorbis_seek_start : V -> V;
  stb_vorbis_get_samples_short_interleaved : V -> Z -> Z -> Z * list Z * V
}.

(** [GetExtension] gives the extension of a file name; [DecompressData]
    inflates a block of [compSize] bytes into [uncompSize] bytes (null on
    failure). *)
Class Utils := {
  GetExtension : string -> string;
  DecompressData : list byte -> Z -> Z -> option (list byte)
}.

(** ** Types and Structures Definition *)

(** Music type (file streaming from memory). *)
Record Music (V : Type) := MkMusic {
  stream : option V;
  buffers : ALuint * ALuint;
  source : ALuint;
  format : Z;
  channels : Z;
  sampleRate : Z;
  totalSamplesLeft : Z;
  loop : bool
}.
Arguments MkMusic {V}.
Arguments stream {V}.
Arguments buffers {V}.
Arguments source {V}.
Arguments format {V}.
Arguments channels {V}.
Arguments sampleRate {V}.
Arguments totalSamplesLeft {V}.
Arguments loop {V}.

(** A [void *] as the loaders use it: the null pointer, the address of a
    block obtained from [malloc] (with the bytes the block holds), or some
    other address, which is what a pointer that was never assigned holds
    when it is not null.  Nothing can be read through a wild pointer, and
    [free] does not take one. *)
Inductive pointer := NULL | Heap (block : list byte) | Wild.

#[global] Instance pointer_eq_decision : EqDecision pointer.
Proof. solve_decision. Defined.

(** Wave file data. *)
Record Wave := MkWave {
  wave_data : pointer;
  wave_dataSize : Z;
  wave_sampleRate : Z;
  wave_bitsPerSample : Z;
  wave_channels : Z
}.

Record Sound := MkSound {
  sound_source : ALuint;
  sound_buffer : ALuint
}.

(** ** Global Variables Definition, and the world around them *)

Record State (V : Type) := MkState {
  musicEnabled : bool;
  currentMusic : Music V;
  al : AL.context;
  files : gmap string (list byte);
  trace : list event
}.
Arguments MkState {V}.
Arguments musicEnabled {V}.
Arguments currentMusic {V}.
Arguments al {V}.
Arguments files {V}.
Arguments trace {V}.

(** Ways in which a call leaves defined behaviour. *)
Inductive fault := NullDereference | BufferOverrun | NonTermination | InvalidPointer.

Inductive Res (A : Type) :=
  | Ok (a : A)
  | Fault (f : fault).
Arguments Ok {A}.
Arguments Fault {A}.

(** Computations of the module: they read and write the globals and the
    libraries' state, append to the trace, and may fault. *)
Definition M (V A : Type) : Type := State V -> Res (A * State V).

#[global] Instance M_ret {V} : MRet (M V) := fun A a s => Ok (a, s).
#[global] Instance M_bind {V} : MBind (M V) := fun A B f m s =>
  match m s with
  | Ok (a, s') => f a s'
  | Fault e => Fault e
  end.

Definition raise_fault {V A} (e : fault) : M V A := fun _ => Fault e.
Definition gets {V A} (f : State V -> A) : M V A := fun s => Ok (f s, s).
Definition modify {V} (f : State V -> State V) : M V unit := fun s => Ok (tt, f s).
Definition when {V} (b : bool) (m : M V unit) : M V unit := if b then m else mret tt.

Definition set_musicEnabled {V} (b : bool) (s : State V) : State V :=
  MkState b (currentMusic s) (al s) (files s) (trace s).
Definition set_currentMusic {V} (m : Music V) (s : State V) : State V :=
  MkState (musicEnabled s) m (al s) (files s) (trace s).
Definition set_al {V} (c : AL.context) (s : State V) : State V :=
  MkState (musicEnabled s) (currentMusic s) c (files s) (trace s).
Definition record {V} (e : event) (s : State V) : State V :=
  MkState (musicEnabled s) (currentMusic s) (al s) (files s) (trace s ++ [e]).

Definition set_stream {V} (v : option V) (m : Music V) : Music V :=
  MkMusic v (buffers m) (source m) (format m) (channels m) (sampleRate m)
          (totalSamplesLeft m) (loop m).
Definition set_buffers {V} (b : ALuint * ALuint) (m : Music V) : Music V :=
  MkMusic (stream m) b (source m) (format m) (channels m) (sampleRate m)
          (totalSamplesLeft m) (loop m).
Definition set_source {V} (n : ALuint) (m : Music V) : Music V :=
  MkMusic (stream m) (buffers m) n (format m) (channels m) (sampleRate m)
          (totalSamplesLeft m) (loop m).
Definition set_format {V} (f : Z) (m : Music V) : Music V :=
  MkMusic (stream m) (buffers m) (source m) f (channels m) (sampleRate m)
          (totalSamplesLeft m) (loop m).
Definition set_channels {V} (c : Z) (m : Music V) : Music V :=
  MkMusic (stream m) (buffers m) (source m) (format m) c (sampleRate m)
          (totalSamplesLeft m) (loop m).
Definition set_sampleRate {V} (r : Z) (m : Music V) : Music V :=
  MkMusic (stream m) (buffers m) (source m) (format m) (channels m) r
          (totalSamplesLeft m) (loop m).
Definition set_totalSamplesLeft {V} (n : Z) (m : Music V) : Music V :=
  MkMusic (stream m) (buffers m) (source m) (format m) (channels m) (sampleRate m)
          n (loop m).
Definition set_loop {V} (b : bool) (m : Music V) : Music V :=
  MkMusic (stream m) (buffers m) (source m) (format m) (channels m) (sampleRate m)
          (totalSamplesLeft m) b.

Definition music {V A} (f : Music V -> A) : M V A := gets (fun s => f (currentMusic s)).
Definition assign {V} (f : Music V -> Music V) : M V unit :=
  modify (fun s => set_currentMusic (f (currentMusic s)) s).

(** *** The library calls, as the module sees them *)

Definition TraceLog {V} (lvl : TraceLogType) (fmt : string) : M V unit :=
  modify (record (EvTraceLog lvl fmt)).

Definition alGenSources {V} (n : nat) : M V (list ALuint) := fun s =>
  let '(names, c) := AL.alGenSources n (al s) in
  Ok (names, record (EvGenSources names) (set_al c s)).

Definition alGenBuffers {V} (n : nat) : M V (list ALuint) := fun s =>
  let '(names, c) := AL.alGenBuffers n (al s) in
  Ok (names, record (EvGenBuffers names) (set_al c s)).

(** The float and vector properties of a source (pitch, gain, position,
    velocity) are not part of the model's state; setting one only checks
    the source name. *)
Definition check_source (src : ALuint) (c : AL.context) : AL.context :=
  match AL.sources c !! src with
  | Some _ => c
  | None => AL.raise AL.AL_INVALID_NAME c
  end.

Definition alSourcef {V} (src : ALuint) (p : ALparam) (v : Q) : M V unit :=
  modify (fun s => record (EvSourcef src p v) (set_al (check_source src (al s)) s)).

Definition alSource3f {V} (src : ALuint) (p : ALparam) (x y z : Q) : M V unit :=
  modify (fun s => record (EvSource3f src p x y z) (set_al (check_source src (al s)) s)).

Definition alSourcei {V} (src : ALuint) (p : ALparam) (v : Z) : M V unit :=
  modify (fun s => record (EvSourcei src p v) (set_al (AL.alSourcei src p v (al s)) s)).

Definition alBufferData {V} (b : ALuint) (fmt : Z) (pcm : list (option Z))
    (bytes freq : Z) : M V unit :=
  modify (fun s => record (EvBufferData b fmt pcm bytes freq)
                     (set_al (AL.alBufferData b fmt pcm bytes freq (al s)) s)).

(** [alGetSourcei(src, p, &var)]: the result is the value of [var] after
    the call, which is its old value when the call fails. *)
Definition alGetSourcei {V} (src : ALuint) (p : ALparam) (var : Z) : M V Z := fun s =>
  let '(r, c) := AL.alGetSourcei src p (al s) in
  let v := default var r in
  Ok (v, record (EvGetSourcei src p v) (set_al c s)).

Definition alSourceQueueBuffers {V} (src : ALuint) (bufs : list ALuint) : M V unit :=
  modify (fun s => record (EvSourceQueueBuffers src bufs)
                     (set_al (AL.alSourceQueueBuffers src bufs (al s)) s)).

(** [alSourceUnqueueBuffers(src, 1, &var)]: the result is the value of
    [var] after the call. *)
Definition alSourceUnqueueBuffers {V} (src : ALuint) (var : ALuint) : M V ALuint := fun s =>
  let '(r, c) := AL.alSourceUnqueueBuffers1 src (al s) in
  let b := default var r in
  Ok (b, record (EvSourceUnqueueBuffers src b) (set_al c s)).

Definition alSourcePlay {V} (src : ALuint) : M V unit :=
  modify (fun s => record (EvSourcePlay src) (set_al (AL.alSourcePlay src (al s)) s)).

Definition alSourcePause {V} (src : ALuint) : M V unit :=
  modify (fun s => record (EvSourcePause src) (set_al (AL.alSourcePause src (al s)) s)).

Definition alSourceStop {V} (src : ALuint) : M V unit :=
  modify (fun s => record (EvSourceStop src) (set_al (AL.alSourceStop src (al s)) s)).

Definition alDeleteSources {V} (names : list ALuint) : M V unit :=
  modify (fun s => record (EvDeleteSources names)
                     (set_al (AL.alDeleteSources names (al s)) s)).

Definition alDeleteBuffers {V} (names : list ALuint) : M V unit :=
  modify (fun s => record (EvDeleteBuffers names)
                     (set_al (AL.alDeleteBuffers names (al s)) s)).

Definition alGetError {V} : M V Z := fun s =>
  let '(e, c) := AL.alGetError (al s) in Ok (e, set_al c s).

(** [stb_vorbis_open_filename(fileName, NULL, NULL)]. *)
Definition stb_vorbis_open_filename `{StbVorbis V} (fileName : string)
    : M V (option V) := fun s =>
  let r := files s !! fileName ≫= stb_vorbis_open in
  Ok (r, record (EvVorbisOpen fileName (bool_decide (is_Some r))) s).

(** Every other decoder entry point dereferences its handle. *)
Definition deref {V} (p : option V) : M V V :=
  match p with
  | Some v => mret v
  | None => raise_fault NullDereference
  end.

Definition stb_vorbis_close {V} (p : option V) : M V unit :=
  match p with
  | Some _ => modify (record EvVorbisClose)
  | None => mret tt
  end.

(** ** Module Functions Definition - Music loading and stream playing (.OGG) *)

Section MusicStream.

Context {V : Type} `{StbVorbis V} `{Utils}.

(** The local [short pcm[MUSIC_BUFFER_SIZE]] of [BufferMusicStream],
    before anything is written to it. *)
Definition pcm_uninit : list (option Z) :=
  replicate (Z.to_nat MUSIC_BUFFER_SIZE) None.

(** Writing [samples] at [pcm + off]; [None] when the destination is not
    wholly inside the array. *)
Definition pcm_store (pcm : list (option Z)) (off : Z) (samples : list Z)
    : option (list (option Z)) :=
  if (0 <=? off) && (off + Z.of_nat (length samples) <=? MUSIC_BUFFER_SIZE)
  then Some (take (Z.to_nat off) pcm ++ (Some <$> samples)
             ++ drop (Z.to_nat off + length samples) pcm)
  else None.

(** The array after [written] shorts have been stored from its start. *)
Definition pcm_after (written : list Z) : list (option Z) :=
  (Some <$> written)
  ++ replicate (Z.to_nat MUSIC_BUFFER_SIZE - length written) None.

(** Iterations granted to the decode loop: each one that goes round
    again has stored at least one short of the [MUSIC_BUFFER_SIZE]. *)
Definition decode_fuel : nat := Z.to_nat MUSIC_BUFFER_SIZE.
Arguments decode_fuel : simpl never.

(** The loop [while (size < MUSIC_BUFFER_SIZE)] of [BufferMusicStream]. *)
Fixpoint decode_loop (fuel : nat) (v : V) (nchan : Z) (pcm : list (option Z))
    (size : Z) : Res (Z * list (option Z) * V) :=
  if size <? MUSIC_BUFFER_SIZE then
    match fuel with
    | O => Fault NonTermination
    | S fuel' =>
        let '(streamedBytes, samples, v') :=
          stb_vorbis_get_samples_short_interleaved v nchan (MUSIC_BUFFER_SIZE - size) in
        match pcm_store pcm size samples with
        | None => Fault BufferOverrun
        | Some pcm' =>
            if 0 <? streamedBytes
            then decode_loop fuel' v' nchan pcm'
                   (int32 (size + int32 (streamedBytes * nchan)))
            else Ok (size, pcm', v')
        end
    end
  else Ok (size, pcm, v).

(** Fill music buffers with new data from music stream. *)
Definition BufferMusicStream (buffer : ALuint) : M V bool :=
  enabled ← gets musicEnabled;
  '(size, pcm) ←
    (if enabled : bool then
       p ← music stream;
       v ← deref p;
       nchan ← music channels;
       match decode_loop decode_fuel v nchan pcm_uninit 0 with
       | Fault e => raise_fault e
       | Ok (size, pcm, v') =>
           assign (set_stream (Some v'));;
           TraceLog DEBUG "Streaming music data to buffer. Bytes streamed: %i";;
           mret (size, pcm)
       end
     else mret (0, pcm_uninit));
  if 0 <? size then
    when (MUSIC_BUFFER_SIZE <? size) (raise_fault BufferOverrun);;
    fmt ← music format;
    rate ← music sampleRate;
    alBufferData buffer fmt (take (Z.to_nat size) pcm) (size * 2) rate;;
    left ← music totalSamplesLeft;
    assign (set_totalSamplesLeft (int32 (left - size)));;
    mret true
  else
    TraceLog WARNING "No more data obtained from stream";;
    mret false.

(** The state [BufferMusicStream buffer] leaves when music is enabled and
    the decode loop has stored [size] shorts in [pcm] and left the
    decoder at [v']. *)
Definition buffered (buffer : ALuint) (size : Z) (pcm : list (option Z)) (v' : V)
    (s : State V) : State V :=
  let m := set_stream (Some v') (currentMusic s) in
  let s1 :=
    record (EvTraceLog DEBUG "Streaming music data to buffer. Bytes streamed: %i")
           (set_currentMusic m s) in
  if 0 <? size then
    set_currentMusic (set_totalSamplesLeft (int32 (totalSamplesLeft m - size)) m)
      (record (EvBufferData buffer (format m) (take (Z.to_nat size) pcm)
                            (size * 2) (sampleRate m))
         (set_al (AL.alBufferData buffer (format m) (take (Z.to_nat size) pcm)
                                  (size * 2) (sampleRate m) (al s)) s1))
  else record (EvTraceLog WARNING "No more data obtained from stream") s1.

(** The loop [while (queued > 0)] of [EmptyMusicStream]; [buffer] is the
    local the unqueued name is written to. *)
Fixpoint unqueue_loop (queued : nat) (buffer : ALuint) : M V ALuint :=
  match queued with
  | O => mret buffer
  | S queued' =>
      src ← music source;
      buffer' ← alSourceUnqueueBuffers src buffer;
      unqueue_loop queued' buffer'
  end.

(** Empty music buffers. *)
Definition EmptyMusicStream : M V unit :=
  src ← music source;
  queued ← alGetSourcei src AL_BUFFERS_QUEUED 0;
  unqueue_loop (Z.to_nat queued) 0%N;;
  mret tt.

(** Stop music playing (close stream). *)
Definition StopMusicStream : M V unit :=
  enabled ← gets musicEnabled;
  when enabled
    (src ← music source;
     alSourceStop src;;
     EmptyMusicStream;;
     src ← music source;
     alDeleteSources [src];;
     bufs ← music buffers;
     alDeleteBuffers [bufs.1; bufs.2];;
     p ← music stream;
     stb_vorbis_close p);;
  modify (set_musicEnabled false).

(** The product [stb_vorbis_stream_length_in_samples(stream) * channels]
    (unsigned, modulo 2^32) once stored in an [int]. *)
Definition total_samples (v : V) (nchan : Z) : Z :=
  int32 (stb_vorbis_stream_length_in_samples v * nchan).

(** Start music playing (open stream). *)
Definition PlayMusicStream (fileName : string) : M V unit :=
  if String.eqb (GetExtension fileName) "ogg" then
    StopMusicStream;;
    p ← stb_vorbis_open_filename fileName;
    assign (set_stream p);;
    match p with
    | None => TraceLog WARNING "[%s] Could not open ogg audio file"
    | Some v =>
        let info := stb_vorbis_get_info v in
        assign (set_channels (info_channels info));;
        assign (set_sampleRate (info_sample_rate info));;
        TraceLog INFO "[%s] Ogg sample rate: %i";;
        TraceLog INFO "[%s] Ogg channels: %i";;
        TraceLog INFO "[%s] Temp memory required: %i";;
        assign (set_format (if info_channels info =? 2
                            then AL.AL_FORMAT_STEREO16 else AL.AL_FORMAT_MONO16));;
        assign (set_loop true);;
        modify (set_musicEnabled true);;
        names ← alGenSources 1;
        match names with
        | [n] => assign (set_source n)
        | _ => mret tt
        end;;
        src ← music source; alSourcef src AL_PITCH 1;;
        src ← music source; alSourcef src AL_GAIN 1;;
        src ← music source; alSource3f src AL_POSITION 0 0 0;;
        src ← music source; alSource3f src AL_VELOCITY 0 0 0;;
        names ← alGenBuffers 2;
        match names with
        | [b0; b1] => assign (set_buffers (b0, b1))
        | _ => mret tt
        end;;
        bufs ← music buffers; BufferMusicStream bufs.1;;
        bufs ← music buffers; BufferMusicStream bufs.2;;
        src ← music source;
        bufs ← music buffers;
        alSourceQueueBuffers src [bufs.1; bufs.2];;
        alSourcePlay src;;
        p ← music stream;
        v ← deref p;
        nchan ← music channels;
        assign (set_totalSamplesLeft (total_samples v nchan))
    end
  else TraceLog WARNING "[%s] Music extension not recognized, it can't be loaded".

(** Pause music playing. *)
Definition PauseMusicStream : M V unit :=
  src ← music source;
  alSourcePause src.

(** Check if music is playing.  [state] is the local the source state is
    read into; it is not initialised. *)
Definition MusicIsPlaying (state : Z) : M V bool :=
  src ← music source;
  state' ← alGetSourcei src AL_SOURCE_STATE state;
  mret (state' =? AL.AL_PLAYING).


(** Get current music time length (in seconds). *)
Definition GetMusicTimeLength : M V Q :=
  p ← music stream;
  v ← deref p;
  mret (stb_vorbis_stream_length_in_seconds v).

(** The integer [samplesPlayed] of [GetMusicTimePlayed]. *)
Definition samplesPlayed : M V Z :=
  p ← music stream;
  v ← deref p;
  nchan ← music channels;
  let totalSamples := total_samples v nchan in
  left ← music totalSamplesLeft;
  mret (int32 (totalSamples - left)).

(** Get current music time played (in seconds).  The quotient is given
    as an exact rational; the rounding of [float] is not modelled. *)
Definition GetMusicTimePlayed : M V Q :=
  played ← samplesPlayed;
  rate ← music sampleRate;
  nchan ← music channels;
  mret (inject_Z played / inject_Z (int32 (rate * nchan)))%Q.

(** One turn of the loop [while (processed > 0)] of [UpdateMusicStream]
    and the turns after it; [buffer] and [active] are the locals. *)
Fixpoint refill_loop (processed : nat) (buffer : ALuint) (active : bool)
    : M V (ALuint * bool) :=
  match processed with
  | O => mret (buffer, active)
  | S processed' =>
      src ← music source;
      buffer ← alSourceUnqueueBuffers src buffer;
      active ← BufferMusicStream buffer;
      looping ← music loop;
      active ←
        (if negb active && looping then
           looping ← music loop;
           if looping : bool then
             p ← music stream;
             v ← deref p;
             assign (set_stream (Some (stb_vorbis_seek_start v)));;
             modify (record EvVorbisSeekStart);;
             p ← music stream;
             v ← deref p;
             nchan ← music channels;
             assign (set_totalSamplesLeft (total_samples v nchan));;
             BufferMusicStream buffer
           else mret active
         else mret active);
      src ← music source;
      alSourceQueueBuffers src [buffer];;
      err ← alGetError;
      when (negb (err =? AL.AL_NO_ERROR))
        (TraceLog WARNING "Ogg playing, error buffering data...");;
      refill_loop processed' buffer active
  end.

(** Update (re-fill) music buffers if data already processed.  [state]
    is the uninitialised local the source state is read into. *)
Definition UpdateMusicStream (state : Z) : M V unit :=
  enabled ← gets musicEnabled;
  when enabled
    (src ← music source;
     processed ← alGetSourcei src AL_BUFFERS_PROCESSED 0;
     '(buffer, active) ← refill_loop (Z.to_nat processed) 0%N true;
     src ← music source;
     state' ← alGetSourcei src AL_SOURCE_STATE state;
     when (negb (state' =? AL.AL_PLAYING) && active)
       (src ← music source; alSourcePlay src);;
     when (negb active) StopMusicStream).

End MusicStream.

(** ** The refill of processed buffers, buffer by buffer *)

Section RefillOfProcessedBuffers.

Context {V : Type} `{StbVorbis V}.

(** The decoder seeked back to the start and the remaining-sample
    counter reset to the length of the stream. *)
Definition rewound (v : V) (s : State V) : State V :=
  let v0 := stb_vorbis_seek_start v in
  set_currentMusic
    (set_totalSamplesLeft (total_samples v0 (channels (currentMusic s)))
       (set_stream (Some v0) (currentMusic s)))
    (record EvVorbisSeekStart s).

(** [refills buffer s active s']: refilling [buffer] from the decoder
    takes [s] to [s'] and leaves the stream [active] or not.  Either the
    refill obtains data; or it obtains none and the stream loops, and
    the buffer is refilled once more after rewinding; or it obtains none
    and the stream does not loop. *)
Inductive refills (buffer : ALuint) (s : State V) : bool -> State V -> Prop :=
  | refills_data s1 :
      BufferMusicStream buffer s = Ok (true, s1) ->
      refills buffer s true s1
  | refills_from_start s1 v active s2 :
      BufferMusicStream buffer s = Ok (false, s1) ->
      loop (currentMusic s1) = true ->
      stream (currentMusic s1) = Some v ->
      BufferMusicStream buffer (rewound v s1) = Ok (active, s2) ->
      refills buffer s active s2
  | refills_nothing s1 :
      BufferMusicStream buffer s = Ok (false, s1) ->
      loop (currentMusic s1) = false ->
      refills buffer s false s1.

(** The buffer queued again on the source, and the error flag of the
    library read (and logged when set). *)
Definition requeued (src buffer : ALuint) (s : State V) : State V :=
  let s1 := record (EvSourceQueueBuffers src [buffer])
                   (set_al (AL.alSourceQueueBuffers src [buffer] (al s)) s) in
  let s2 := set_al (AL.alGetError (al s1)).2 s1 in
  if (AL.alGetError (al s1)).1 =? AL.AL_NO_ERROR then s2
  else record (EvTraceLog WARNING "Ogg playing, error buffering data...") s2.

(** [refill_all src bs s flags s']: each buffer of [bs], in turn, is
    handed back by the library as the next processed buffer of [src], is
    refilled, and is queued again; [flags] keeps, buffer by buffer,
    whether the stream was left active. *)
Inductive refill_all (src : ALuint)
    : list ALuint -> State V -> list bool -> State V -> Prop :=
  | refill_all_nil s :
      refill_all src [] s [] s
  | refill_all_cons b bs s c active s1 flags s' :
      AL.alSourceUnqueueBuffers1 src (al s) = (Some b, c) ->
      refills b (record (EvSourceUnqueueBuffers src b) (set_al c s)) active s1 ->
      refill_all src bs (requeued src b s1) flags s' ->
      refill_all src (b :: bs) s (active :: flags) s'.

(** The state of a running stream: music is enabled on an open decoder
    [v] of [nchan] channels, and the library knows the music source, in
    state [state] with the buffers [processed] played and not yet
    unqueued. *)
Definition streaming (src : ALuint) (state : Z) (processed : list ALuint)
    (nchan : Z) (looping : bool) (v : V) (s : State V) : Prop :=
  musicEnabled s = true
  /\ stream (currentMusic s) = Some v
  /\ channels (currentMusic s) = nchan
  /\ loop (currentMusic s) = looping
  /\ source (currentMusic s) = src
  /\ exists pending,
       AL.sources (al s) !! src = Some (AL.Source state processed pending).

(** What a buffer holds once [BufferMusicStream] has run on it with the
    decoder yielding [chunk]: the chunk, or nothing when it is empty. *)
Definition uploaded (fmt rate : Z) (chunk : list Z) : AL.buffer :=
  match chunk with
  | [] => AL.new_buffer
  | _ => AL.Buffer fmt (Some <$> chunk) (Z.of_nat (length chunk) * 2) rate
  end.

(** The trace of that call. *)
Definition fill_events (b : ALuint) (fmt rate : Z) (chunk : list Z) : list event :=
  EvTraceLog DEBUG "Streaming music data to buffer. Bytes streamed: %i"
  :: match chunk with
     | [] => [EvTraceLog WARNING "No more data obtained from stream"]
     | _ => [EvBufferData b fmt (Some <$> chunk) (Z.of_nat (length chunk) * 2) rate]
     end.

(** [takes v nchan chunk v']: the decode loop of one call of
    [BufferMusicStream], run on the decoder [v], stores the shorts
    [chunk] and leaves the decoder at [v']. *)
Definition takes (v : V) (nchan : Z) (chunk : list Z) (v' : V) : Prop :=
  decode_loop decode_fuel v nchan pcm_uninit 0
  = Ok (Z.of_nat (length chunk), pcm_after chunk, v').

(** The remaining-sample counter once [chunk] has been uploaded. *)
Definition counted (left : Z) (chunk : list Z) : Z :=
  match chunk with
  | [] => left
  | _ => int32 (left - Z.of_nat (length chunk))
  end.

(** What queueing a buffer again adds to the trace: the call, and the
    warning when the library had an error pending, [err]. *)
Definition requeue_events (src b : ALuint) (err : Z) : list event :=
  EvSourceQueueBuffers src [b]
  :: (if err =? AL.AL_NO_ERROR then []
      else [EvTraceLog WARNING "Ogg playing, error buffering data..."]).

(** [refilled src fmt rate nchan looping bs v left err flags evs v' left']:
    what the refill of the processed buffers [bs], in turn, is to be,
    told from the decoder alone.  Starting with the decoder at [v], the
    counter at [left] and the error flag of the library at [err], each
    buffer is unqueued, receives the next chunk of the decoder and is
    queued again, which reads and clears the error flag; when the
    decoder yields nothing and the stream loops, the decoder is rewound,
    the counter is reset to the length of the stream and the buffer
    receives the chunk read from the start.  [evs] is what this adds to
    the trace, [flags] tells buffer by buffer whether data was obtained
    in the end, [v'] and [left'] are the decoder and the counter
    afterwards. *)
Inductive refilled (src : ALuint) (fmt rate nchan : Z) (looping : bool)
    : list ALuint -> V -> Z -> Z -> list bool -> list event -> V -> Z -> Prop :=
  | refilled_nil v left err :
      refilled src fmt rate nchan looping [] v left err [] [] v left
  | refilled_data b bs v left err chunk v1 flags evs v' left' :
      takes v nchan chunk v1 ->
      chunk <> [] ->
      refilled src fmt rate nchan looping bs v1 (counted left chunk)
               AL.AL_NO_ERROR flags evs v' left' ->
      refilled src fmt rate nchan looping (b :: bs) v left err (true :: flags)
        (EvSourceUnqueueBuffers src b :: fill_events b fmt rate chunk
         ++ requeue_events src b err ++ evs) v' left'
  | refilled_from_start b bs v left err v1 chunk v2 flags evs v' left' :
      looping = true ->
      takes v nchan [] v1 ->
      takes (stb_vorbis_seek_start v1) nchan chunk v2 ->
      refilled src fmt rate nchan looping bs v2
        (counted (total_samples (stb_vorbis_seek_start v1) nchan) chunk)
        AL.AL_NO_ERROR flags evs v' left' ->
      refilled src fmt rate nchan looping (b :: bs) v left err
        (bool_decide (chunk <> []) :: flags)
        (EvSourceUnqueueBuffers src b :: fill_events b fmt rate []
         ++ EvVorbisSeekStart :: fill_events b fmt rate chunk
         ++ requeue_events src b err ++ evs) v' left'
  | refilled_nothing b bs v left err v1 flags evs v' left' :
      looping = false ->
      takes v nchan [] v1 ->
      refilled src fmt rate nchan looping bs v1 left AL.AL_NO_ERROR
               flags evs v' left' ->
      refilled src fmt rate nchan looping (b :: bs) v left err (false :: flags)
        (EvSourceUnqueueBuffers src b :: fill_events b fmt rate []
         ++ requeue_events src b err ++ evs) v' left'.

(** The buffers of the library once the uploads of a trace have been
    made, oldest first. *)
Definition uploads_of (evs : list event) (bufs : gmap N AL.buffer)
    : gmap N AL.buffer :=
  foldl (fun bufs e =>
           match e with
           | EvBufferData b fmt data bytes rate =>
               <[b := AL.Buffer fmt data bytes rate]> bufs
           | _ => bufs
           end) bufs evs.

(** A state of the refill: the decoder at [v'], the counter at [left'],
    the music source as [entry] tells, the error flag of the library at
    [err'], the uploads of [evs] made and [evs] added to the trace. *)
Definition refilled_state (src : ALuint) (entry : AL.source) (err' : Z)
    (evs : list event) (v' : V) (left' : Z) (s : State V) : State V :=
  MkState (musicEnabled s)
    (set_totalSamplesLeft left' (set_stream (Some v') (currentMusic s)))
    (AL.MkContext (<[src := entry]> (AL.sources (al s)))
                  (uploads_of evs (AL.buffers (al s)))
                  err')
    (files s) (trace s ++ evs).

(** A running stream: music is enabled on the decoder [v] with the
    counter at [left], the music source is [src], known to the library
    as [entry], and the error flag of the library is [err]. *)
Definition refilling (src : ALuint) (entry : AL.source) (v : V) (left err : Z)
    (s : State V) : Prop :=
  musicEnabled s = true
  /\ stream (currentMusic s) = Some v
  /\ totalSamplesLeft (currentMusic s) = left
  /\ source (currentMusic s) = src
  /\ AL.sources (al s) !! src = Some entry
  /\ AL.error (al s) = err.

(** The buffer holds decoded data. *)
Definition holds_decoded_data (b : ALuint) (s : State V) : Prop :=
  exists buf, AL.buffers (al s) !! b = Some buf /\ AL.buf_data buf <> [].

(** Shorts handed to audio buffers by the calls of a trace. *)
Definition shorts_buffered (tr : list event) : Z :=
  foldr (fun e n =>
           match e with
           | EvBufferData _ _ pcm _ _ => Z.of_nat (length pcm) + n
           | _ => n
           end) 0 tr.

(** The state [UpdateMusicStream] ends in when the stream is still
    active: the source state [st] has been read, and playback restarted
    unless the source was found playing. *)
Definition kept_playing (src : ALuint) (st : Z) (s1 : State V) : State V :=
  let s2 := record (EvGetSourcei src AL_SOURCE_STATE st) s1 in
  if st =? AL.AL_PLAYING then s2
  else record (EvSourcePlay src) (set_al (AL.alSourcePlay src (al s2)) s2).

(** The source is known to the library and is playing. *)
Definition source_playing (src : ALuint) (s : State V) : Prop :=
  exists processed pending,
    AL.sources (al s) !! src = Some (AL.Source AL.AL_PLAYING processed pending).

End RefillOfProcessedBuffers.

(** ** The calls of the music API *)

Section MusicCalls.

Context {V : Type} `{StbVorbis V} `{Utils}.








End MusicCalls.

(** ** Files *)

(** An open [FILE *]: the bytes of the file and the read position. *)
Record FILE := MkFILE {
  f_bytes : list byte;
  f_pos : Z
}.

(** [fread(&obj, size, 1, f)]: the bytes available, up to [size], replace
    the first bytes of the object; the rest of it stays as it was. *)
Definition fread (size : nat) (obj : list byte) (f : FILE) : list byte * FILE :=
  let got := take size (drop (Z.to_nat (f_pos f)) (f_bytes f)) in
  (got ++ take (size - length got) (drop (length got) obj),
   MkFILE (f_bytes f) (f_pos f + Z.of_nat (length got))).

(** [fseek(f, off, SEEK_CUR)]; a seek before the start of the file fails
    and leaves the position where it was. *)
Definition fseek_cur (off : Z) (f : FILE) : FILE :=
  if 0 <=? f_pos f + off then MkFILE (f_bytes f) (f_pos f + off) else f.

Definition fopen {V} (fileName : string) : M V (option FILE) :=
  gets (fun s => (fun bs => MkFILE bs 0) <$> files s !! fileName).

(** Field of an object read from a file: [n] bytes at offset [off],
    little-endian. *)
Definition field (off n : nat) (obj : list byte) : Z :=
  le_unsigned (take n (drop off obj)).

Definition chars (off n : nat) (obj : list byte) : list byte := take n (drop off obj).

(** ** Resource records *)

(** Size and fields of [ResInfoHeader], whose declaration is in raylib.h:
    the unit reads [id], [type], [size] and [srcSize] of a header object. *)
Class ResInfoHeaderLayout := {
  sizeof_ResInfoHeader : nat;
  infoHeader_id : list byte -> Z;
  infoHeader_type : list byte -> Z;
  infoHeader_size : list byte -> Z;
  infoHeader_srcSize : list byte -> Z
}.

(** What the locals that the loading functions do not initialise hold on
    entry, and what a freshly allocated block of a given size holds. *)
Record Indeterminate := MkIndeterminate {
  ind_sound : Sound;
  ind_wave : Wave;
  ind_riffHeader : list byte;
  ind_waveFormat : list byte;
  ind_waveData : list byte;
  ind_id : list byte;
  ind_version : list byte;
  ind_useless : list byte;
  ind_numRes : list byte;
  ind_infoHeader : list byte;
  ind_sampleRate : list byte;
  ind_bps : list byte;
  ind_channels : list byte;
  ind_reserved : list byte;
  ind_malloc : nat -> list byte
}.

(** ** Module Functions Definition - Sounds loading and playing (.WAV) *)

Section SoundLoading.

Context {V : Type} `{StbVorbis V} `{Utils} `{ResInfoHeaderLayout}.

(** The OpenAL format worked out from the number of channels and the
    bits per sample; 0 when neither test matches. *)
Definition wave_format (wave : Wave) : Z :=
  if wave_channels wave =? 1 then
    if wave_bitsPerSample wave =? 8 then AL.AL_FORMAT_MONO8
    else if wave_bitsPerSample wave =? 16 then AL.AL_FORMAT_MONO16
    else 0
  else if wave_channels wave =? 2 then
    if wave_bitsPerSample wave =? 8 then AL.AL_FORMAT_STEREO8
    else if wave_bitsPerSample wave =? 16 then AL.AL_FORMAT_STEREO16
    else 0
  else 0.

(** The data of a wave as OpenAL sees it, one element per byte. *)
Definition wave_samples (wave : Wave) : list (option Z) :=
  match wave_data wave with
  | Heap block => (fun b => Some (byte_val b)) <$> block
  | _ => []
  end.

(** Unload Wave data: [free(wave.data)].  The null pointer and a block
    of the heap are accepted; the heap itself is not part of the state. *)
Definition UnloadWave (wave : Wave) : M V unit :=
  match wave_data wave with
  | Wild => raise_fault InvalidPointer
  | _ => mret tt
  end.

(** The block shared by [LoadSound] and [LoadSoundFromRES]: create an
    audio source, convert the wave to an OpenAL buffer, attach it.  The
    size and the rate, [unsigned int] in the wave, are passed as
    [ALsizei], a signed [int]; the library reads [size] bytes through
    the data pointer when that many are asked for. *)
Definition wave_to_sound (wave : Wave) : M V Sound :=
  let format := wave_format wave in
  names ← alGenSources 1;
  let source := default 0%N (head names) in
  alSourcef source AL_PITCH 1;;
  alSourcef source AL_GAIN 1;;
  alSource3f source AL_POSITION 0 0 0;;
  alSource3f source AL_VELOCITY 0 0 0;;
  alSourcei source AL_LOOPING 0;;
  names ← alGenBuffers 1;
  let buffer := default 0%N (head names) in
  let size := int32 (wave_dataSize wave) in
  let freq := int32 (wave_sampleRate wave) in
  when (bool_decide (wave_data wave = Wild) && (0 <? size))
    (raise_fault InvalidPointer);;
  alBufferData buffer format (wave_samples wave) size freq;;
  alSourcei source AL_BUFFER (Z.of_N buffer);;
  UnloadWave wave;;
  mret (MkSound source buffer).

Definition is_tag (tag : string) (cs : list byte) : bool :=
  bool_decide (cs = list_byte_of_string tag).

(** Load WAV file into Wave structure.  [long] is 4 bytes wide and the
    three header structs have no padding (12, 24 and 8 bytes), as on the
    32-bit Windows targets of raylib 1.0; integers are little-endian. *)
Definition LoadWAV (u : Indeterminate) (fileName : string) : M V Wave :=
  let wave := ind_wave u in
  wavFile ← fopen fileName;
  match wavFile with
  | None => TraceLog WARNING "[%s] Could not open WAV file";; mret wave
  | Some wavFile =>
      let '(riffHeader, wavFile) := fread 12 (ind_riffHeader u) wavFile in
      if negb (is_tag "RIFF" (chars 0 4 riffHeader))
         || negb (is_tag "WAVE" (chars 8 4 riffHeader))
      then TraceLog WARNING "[%s] Invalid RIFF or WAVE Header";; mret wave
      else
        let '(waveFormat, wavFile) := fread 24 (ind_waveFormat u) wavFile in
        if negb (is_tag "fmt " (chars 0 4 waveFormat))
        then TraceLog WARNING "[%s] Invalid Wave format";; mret wave
        else
          let wavFile :=
            if 16 <? int32 (field 4 4 waveFormat) then fseek_cur 2 wavFile
            else wavFile in
          let '(waveData, wavFile) := fread 8 (ind_waveData u) wavFile in
          if negb (is_tag "data" (chars 0 4 waveData))
          then TraceLog WARNING "[%s] Invalid data header";; mret wave
          else
            let subChunkSize := field 4 4 waveData in
            let '(block, wavFile) :=
              fread (Z.to_nat subChunkSize)
                    (ind_malloc u (Z.to_nat subChunkSize)) wavFile in
            TraceLog INFO "[%s] Wave file loaded successfully";;
            mret (MkWave (Heap block) subChunkSize (field 12 4 waveFormat)
                         (int16 (field 22 2 waveFormat))
                         (int16 (field 10 2 waveFormat)))
  end.

(** The two bytes of a short, low byte first. *)
Definition short_bytes (z : Z) : list byte :=
  let n := Z.to_N (z mod 2^16) in
  [default Byte.x00 (Byte.of_N (n mod 256)); default Byte.x00 (Byte.of_N (n / 256))].

(** Load OGG file into Wave structure.  The handle is used without a
    null test. *)
Definition LoadOGG (u : Indeterminate) (fileName : string) : M V Wave :=
  oggFile ← stb_vorbis_open_filename fileName;
  v ← deref oggFile;
  let info := stb_vorbis_get_info v in
  TraceLog DEBUG "[%s] Ogg sample rate: %i";;
  TraceLog DEBUG "[%s] Ogg channels: %i";;
  let totalSamplesLength :=
    int32 (stb_vorbis_stream_length_in_samples v * info_channels info) in
  let dataSize := (totalSamplesLength * 2) mod 2^32 in
  TraceLog DEBUG "[%s] Samples length: %i";;
  let totalSeconds := stb_vorbis_stream_length_in_seconds v in
  TraceLog DEBUG "[%s] Total seconds: %f";;
  when (if Qlt_le_dec 10 totalSeconds then true else false)
    (TraceLog WARNING "[%s] Ogg audio lenght is larger than 10 seconds (%f), that's a big file in memory, consider music streaming");;
  TraceLog DEBUG "[%s] Total samples calculated: %i";;
  let block := ind_malloc u (Z.to_nat dataSize) in
  let '(samplesObtained, samples, v') :=
    stb_vorbis_get_samples_short_interleaved v (info_channels info) totalSamplesLength in
  let written := concat (short_bytes <$> samples) in
  when (negb (bool_decide (length written ≤ length block)%nat))
    (raise_fault BufferOverrun);;
  TraceLog DEBUG "[%s] Samples obtained: %i";;
  stb_vorbis_close (Some v');;
  mret (MkWave (Heap (written ++ drop (length written) block)) dataSize
               ((info_sample_rate info) mod 2^32) 16 (int16 (info_channels info))).

(** Load sound to memory. *)
Definition LoadSound (u : Indeterminate) (fileName : string) : M V Sound :=
  let sound := ind_sound u in
  wave ←
    (if String.eqb (GetExtension fileName) "wav" then LoadWAV u fileName
     else if String.eqb (GetExtension fileName) "ogg" then LoadOGG u fileName
     else TraceLog WARNING "[%s] Sound extension not recognized, it can't be loaded";;
          mret (ind_wave u));
  if negb (bool_decide (wave_data wave = NULL)) then
    sound ← wave_to_sound wave;
    TraceLog INFO "[%s] Sound file loaded successfully";;
    TraceLog INFO "[%s] Sample rate: %i - Channels: %i";;
    mret sound
  else mret sound.

(** Bytes of parameters skipped for a record of the given type. *)
Definition skipped_parameters (type : Z) (rresFile : FILE) : FILE :=
  match type with
  | 0 => fseek_cur 6 rresFile
  | 1 => fseek_cur 6 rresFile
  | 2 => fseek_cur 5 rresFile
  | 3 => rresFile
  | 4 => rresFile
  | _ => rresFile
  end.

(** The SOUND branch of the scan: read the parameters and the data of
    the record at the file position and make a sound of them. *)
Definition load_sound_record (u : Indeterminate) (infoHeader : list byte)
    (rresFile : FILE) : M V (Sound * FILE) :=
  let '(sampleRate, rresFile) := fread 2 (ind_sampleRate u) rresFile in
  let '(bps, rresFile) := fread 2 (ind_bps u) rresFile in
  let '(channels, rresFile) := fread 1 (ind_channels u) rresFile in
  let '(reserved, rresFile) := fread 1 (ind_reserved u) rresFile in
  let size := Z.to_nat (infoHeader_size infoHeader) in
  let '(block, rresFile) := fread size (ind_malloc u size) rresFile in
  let wave :=
    MkWave (from_option Heap NULL
              (DecompressData block (infoHeader_size infoHeader)
                              (infoHeader_srcSize infoHeader)))
           (infoHeader_srcSize infoHeader)
           (int16 (le_unsigned sampleRate) mod 2^32)
           (int16 (le_unsigned bps))
           (int8 (le_unsigned channels)) in
  sound ← wave_to_sound wave;
  TraceLog INFO "[%s] Sound loaded successfully from resource, sample rate: %i";;
  mret (sound, rresFile).

(** The loop [for (i = 0; i < numRes; i++)] of [LoadSoundFromRES], with
    the locals it reads and writes. *)
Fixpoint scan_resources (count : nat) (u : Indeterminate) (resId : Z)
    (rresFile : FILE) (infoHeader : list byte) (found : bool) (sound : Sound)
    : M V (FILE * list byte * bool * Sound) :=
  match count with
  | O => mret (rresFile, infoHeader, found, sound)
  | S count' =>
      let '(infoHeader, rresFile) := fread sizeof_ResInfoHeader infoHeader rresFile in
      '(rresFile, found, sound) ←
        (if infoHeader_id infoHeader =? resId then
           if infoHeader_type infoHeader =? 1 then
             '(sound, rresFile) ← load_sound_record u infoHeader rresFile;
             mret (rresFile, true, sound)
           else
             TraceLog WARNING "[%s] Required resource do not seem to be a valid SOUND resource";;
             mret (rresFile, true, sound)
         else
           let rresFile := skipped_parameters (infoHeader_type infoHeader) rresFile in
           mret (fseek_cur (int32 (infoHeader_size infoHeader)) rresFile, found, sound));
      scan_resources count' u resId rresFile infoHeader found sound
  end.

(** The test of the file identifier, as written: all four comparisons
    joined by [&&]. *)
Definition id_rejected (id : list byte) : bool :=
  negb (bool_decide (id !! 0%nat = Some "r"%byte))
  && negb (bool_decide (id !! 1%nat = Some "R"%byte))
  && negb (bool_decide (id !! 2%nat = Some "E"%byte))
  && negb (bool_decide (id !! 3%nat = Some "S"%byte)).

(** Load sound to memory from rRES file (raylib Resource).  The result
    carries, besides the sound, the file as the scan left it ([None]
    when it was not opened or not scanned). *)
Definition LoadSoundFromRES_scan (u : Indeterminate) (rresName : string) (resId : Z)
    : M V (Sound * option FILE) :=
  let sound := ind_sound u in
  let found := false in
  rresFile ← fopen rresName;
  '(sound, found, scanned) ←
    match rresFile with
    | None =>
        TraceLog WARNING "[%s] Could not open raylib resource file";;
        mret (sound, found, None)
    | Some rresFile =>
        let '(id0, rresFile) := fread 1 (take 1 (ind_id u)) rresFile in
        let '(id1, rresFile) := fread 1 (take 1 (drop 1 (ind_id u))) rresFile in
        let '(id2, rresFile) := fread 1 (take 1 (drop 2 (ind_id u))) rresFile in
        let '(id3, rresFile) := fread 1 (take 1 (drop 3 (ind_id u))) rresFile in
        let '(version, rresFile) := fread 1 (ind_version u) rresFile in
        let '(useless, rresFile) := fread 1 (ind_useless u) rresFile in
        if id_rejected (id0 ++ id1 ++ id2 ++ id3) then
          TraceLog WARNING "[%s] This is not a valid raylib resource file";;
          mret (sound, found, None)
        else
          let '(numRes, rresFile) := fread 2 (ind_numRes u) rresFile in
          '(rresFile, _, found, sound) ←
            scan_resources (Z.to_nat (int16 (le_unsigned numRes))) u resId
                           rresFile (ind_infoHeader u) found sound;
          mret (sound, found, Some rresFile)
    end;
  when (negb found)
    (TraceLog WARNING "[%s] Required resource id [%i] could not be found in the raylib resource file");;
  mret (sound, scanned).

Definition LoadSoundFromRES (u : Indeterminate) (rresName : string) (resId : Z)
    : M V Sound :=
  r ← LoadSoundFromRES_scan u rresName resId;
  mret r.1.

End SoundLoading.

(** ** Resource archives *)

Section ResourceArchives.

Context `{ResInfoHeaderLayout}.

(** One record of an archive: its header object, the bytes of its
    parameters, its data. *)
Record res_record := MkResRecord {
  rec_header : list byte;
  rec_params : list byte;
  rec_data : list byte
}.

(** Bytes of parameters by record type: 6 for IMAGE (0) and SOUND (1),
    5 for MODEL (2), none for TEXT (3) and RAW (4). *)
Definition parameter_bytes (type : Z) : Z :=
  if (type =? 0) || (type =? 1) then 6
  else if type =? 2 then 5
  else 0.

(** A record is well formed when its header has the size of the struct
    and tells the truth about the type and the size of what follows. *)
Definition well_formed (r : res_record) : Prop :=
  length (rec_header r) = sizeof_ResInfoHeader
  /\ 0 <= infoHeader_type (rec_header r) <= 4
  /\ Z.of_nat (length (rec_params r)) = parameter_bytes (infoHeader_type (rec_header r))
  /\ Z.of_nat (length (rec_data r)) = infoHeader_size (rec_header r)
  /\ infoHeader_size (rec_header r) < 2^31.

Definition record_bytes (r : res_record) : list byte :=
  rec_header r ++ rec_params r ++ rec_data r.

(** The file: identifier, version, reserved byte, record count, records. *)
Definition archive_bytes (version reserved : byte) (recs : list res_record)
    : list byte :=
  list_byte_of_string "rRES" ++ [version; reserved]
  ++ short_bytes (Z.of_nat (length recs))
  ++ concat (record_bytes <$> recs).

(** Offset, in the file, of the header that follows the records [pre]. *)
Definition offset_after (pre : list res_record) : Z :=
  8 + Z.of_nat (length (concat (record_bytes <$> pre))).

End ResourceArchives.

(** ** A reference decoder and layout

    A decoder over raw interleaved PCM, used to run the module on concrete
    files: the first byte of a file is the channel count, the second the
    sample rate in kHz, every further byte one sample.  Its reads follow
    the documented behaviour of stb_vorbis: as many whole frames as fit in
    the room offered, fewer at the end of the stream, none after it. *)

Module RawPcm.

Record decoder := Decoder {
  d_channels : Z;
  d_rate : Z;
  d_samples : list Z;
  d_pos : Z
}.

Definition frames (d : decoder) : Z :=
  Z.of_nat (length (d_samples d)) `quot` d_channels d.

Definition open (bs : list byte) : option decoder :=
  match bs with
  | c :: r :: rest =>
      if 0 <? byte_val c
      then Some (Decoder (byte_val c) (byte_val r * 1000) (byte_val <$> rest) 0)
      else None
  | _ => None
  end.

Definition get_samples (d : decoder) (nchan num_shorts : Z) : Z * list Z * decoder :=
  let len := num_shorts `quot` nchan in
  let k := Z.max 0 (Z.min len (frames d - d_pos d)) in
  (k,
   take (Z.to_nat (k * nchan)) (drop (Z.to_nat (d_pos d * d_channels d)) (d_samples d)
                                ++ replicate (Z.to_nat (k * nchan)) 0),
   Decoder (d_channels d) (d_rate d) (d_samples d) (d_pos d + k)).

#[global] Instance vorbis : StbVorbis decoder := {|
  stb_vorbis_open := open;
  stb_vorbis_get_info d := VorbisInfo (d_channels d) (d_rate d);
  stb_vorbis_stream_length_in_samples := frames;
  stb_vorbis_stream_length_in_seconds d := (inject_Z (frames d) / inject_Z (d_rate d))%Q;
  stb_vorbis_seek_start d := Decoder (d_channels d) (d_rate d) (d_samples d) 0;
  stb_vorbis_get_samples_short_interleaved := get_samples
|}.

(** The text after the last dot of a file name. *)
Fixpoint extension (acc : option string) (name : string) : string :=
  match name with
  | EmptyString => default EmptyString acc
  | String c rest =>
      if Ascii.eqb c "."%char then extension (Some EmptyString) rest
      else extension ((fun e => (e +:+ String c EmptyString)%string) <$> acc) rest
  end.

#[global] Instance utils : Utils := {|
  GetExtension := extension None;
  DecompressData bs _ srcSize := Some (take (Z.to_nat srcSize) bs)
|}.

(** [ResInfoHeader] as a packed little-endian struct of 12 bytes:
    id (2), type (1), comp (1), size (4), srcSize (4). *)
#[global] Instance layout : ResInfoHeaderLayout := {|
  sizeof_ResInfoHeader := 12;
  infoHeader_id := field 0 2;
  infoHeader_type := field 2 1;
  infoHeader_size := field 4 4;
  infoHeader_srcSize := field 8 4
|}.

(** A mono stream of five samples at 44 kHz, and a stream without any
    sample. *)
Definition tune : list byte := [Byte.x01; Byte.x2c; "a"; "b"; "c"; "d"; "e"]%byte.
Definition silence : list byte := [Byte.x01; Byte.x2c]%byte.

(** Two resource files of the layout above.  [pack] holds an IMAGE
    record (id 1, one byte of data after its 6 bytes of parameters) and a
    MODEL record (id 2, no data after its 5 bytes of parameters).
    [mislabelled] holds one TEXT record (id 7, two bytes of data) behind
    an identifier of which only the first byte is right. *)
Definition pack : list byte :=
  ["r"; "R"; "E"; "S"; Byte.x01; Byte.x00; Byte.x02; Byte.x00;
   Byte.x01; Byte.x00; Byte.x00; Byte.x00;
   Byte.x01; Byte.x00; Byte.x00; Byte.x00; Byte.x01; Byte.x00; Byte.x00; Byte.x00;
   "p"; "p"; "p"; "p"; "p"; "p"; "d";
   Byte.x02; Byte.x00; Byte.x02; Byte.x00;
   Byte.x00; Byte.x00; Byte.x00; Byte.x00; Byte.x00; Byte.x00; Byte.x00; Byte.x00;
   "q"; "q"; "q"; "q"; "q"]%byte.

(** The records of [pack]. *)
Definition pack_records : list res_record :=
  [MkResRecord [Byte.x01; Byte.x00; Byte.x00; Byte.x00;
                Byte.x01; Byte.x00; Byte.x00; Byte.x00;
                Byte.x01; Byte.x00; Byte.x00; Byte.x00]%byte
               ["p"; "p"; "p"; "p"; "p"; "p"]%byte ["d"]%byte;
   MkResRecord [Byte.x02; Byte.x00; Byte.x02; Byte.x00;
                Byte.x00; Byte.x00; Byte.x00; Byte.x00;
                Byte.x00; Byte.x00; Byte.x00; Byte.x00]%byte
               ["q"; "q"; "q"; "q"; "q"]%byte []].

Definition mislabelled : list byte :=
  ["r"; "X"; "X"; "X"; Byte.x01; Byte.x00; Byte.x01; Byte.x00;
   Byte.x07; Byte.x00; Byte.x03; Byte.x00;
   Byte.x02; Byte.x00; Byte.x00; Byte.x00; Byte.x02; Byte.x00; Byte.x00; Byte.x00;
   "h"; "i"]%byte.

Definition disk : gmap string (list byte) :=
  <["tune.ogg"%string := tune]>
    (<["silence.ogg"%string := silence]>
       (<["pack.rres"%string := pack]>
          (<["mislabelled.rres"%string := mislabelled]> ∅))).

(** The state of the module before any call: zeroed statics, an audio
    context without sources or buffers. *)
Definition boot : State decoder :=
  MkState false (MkMusic None (0, 0)%N 0%N 0 0 0 0 false)
          (AL.MkContext ∅ ∅ AL.AL_NO_ERROR) disk [].

Definition junk : Indeterminate :=
  MkIndeterminate (MkSound 0 0) (MkWave NULL 0 0 0 0)
    [] [] [] [] [] [] [] [] [] [] [] [] (fun n => replicate n Byte.x00).

Definition state_of {A} (r : Res (A * State decoder)) : State decoder :=
  match r with
  | Ok (_, s) => s
  | Fault _ => boot
  end.

(** The module after [PlayMusicStream("tune.ogg")] on the state [boot];
    the same once the source has played both buffers and stopped for
    want of data; and after [PlayMusicStream("silence.ogg")], with both
    (empty) buffers played. *)
Definition started : State decoder :=
  Eval vm_compute in state_of (PlayMusicStream "tune.ogg" boot).

Definition starved : State decoder :=
  Eval vm_compute in set_al (AL.alSourceStop 1 (al started)) started.

Definition silent : State decoder :=
  Eval vm_compute in
    let s := state_of (PlayMusicStream "silence.ogg" boot) in
    set_al (AL.alSourceStop 1 (al s)) s.

(** The decoder of [tune] after its five samples have been read. *)
Definition tune_read : decoder := Decoder 1 44000 [97; 98; 99; 100; 101] 5.

Definition silence_read : decoder := Decoder 1 44000 [] 0.

End RawPcm.

(** ** What the decoder is relied on for *)

Section DecoderContract.

Context {V : Type} `{StbVorbis V}.

Definition read_count (v : V) (nchan room : Z) : Z :=
  (stb_vorbis_get_samples_short_interleaved v nchan room).1.1.
Definition read_samples (v : V) (nchan room : Z) : list Z :=
  (stb_vorbis_get_samples_short_interleaved v nchan room).1.2.
Definition read_next (v : V) (nchan room : Z) : V :=
  (stb_vorbis_get_samples_short_interleaved v nchan room).2.

(** A read stores whole frames, as many as it returns, and no more
    shorts than the room it was offered. *)
Definition stores_within_room : Prop :=
  ∀ (v : V) (nchan room : Z), 1 ≤ nchan → 0 ≤ room →
    0 ≤ read_count v nchan room
    ∧ Z.of_nat (length (read_samples v nchan room)) = read_count v nchan room * nchan
    ∧ read_count v nchan room * nchan ≤ room.

(** Once a read into an empty array of [MUSIC_BUFFER_SIZE] shorts
    returns nothing, so does the next. *)
Definition end_is_final : Prop :=
  ∀ (v : V) (nchan : Z),
    read_count v nchan MUSIC_BUFFER_SIZE ≤ 0 →
    read_count (read_next v nchan MUSIC_BUFFER_SIZE) nchan MUSIC_BUFFER_SIZE ≤ 0.

(** Seeking to the start forgets the reads and seeks made before. *)
Definition rewinds_to_start : Prop :=
  (∀ (v : V) (nchan room : Z),
     stb_vorbis_seek_start (read_next v nchan room) = stb_vorbis_seek_start v)
  ∧ (∀ v : V,
       stb_vorbis_seek_start (stb_vorbis_seek_start v) = stb_vorbis_seek_start v).

End DecoderContract.


(** ** Module Functions Definition - Sounds playing *)

Section SoundPlaying.

Context {V : Type}.

(** Unload sound. *)
Definition UnloadSound (sound : Sound) : M V unit :=
  alDeleteSources [sound_source sound];;
  alDeleteBuffers [sound_buffer sound].

(** Play a sound. *)
Definition PlaySound (sound : Sound) : M V unit :=
  alSourcePlay (sound_source sound);;
  TraceLog INFO "Playing sound".

(** Pause a sound. *)
Definition PauseSound (sound : Sound) : M V unit :=
  alSourcePause (sound_source sound).

(** Stop reproducing a sound. *)
Definition StopSound (sound : Sound) : M V unit :=
  alSourceStop (sound_source sound).

(** Check if a sound is playing.  [state] is the local the source state
    is read into; it is not initialised. *)
Definition SoundIsPlaying (state : Z) (sound : Sound) : M V bool :=
  let playing := false in
  state' ← alGetSourcei (sound_source sound) AL_SOURCE_STATE state;
  mret (if state' =? AL.AL_PLAYING then true else playing).

(** Set volume for a sound. *)
Definition SetSoundVolume (sound : Sound) (volume : Q) : M V unit :=
  alSourcef (sound_source sound) AL_GAIN volume.

(** Set pitch for a sound. *)
Definition SetSoundPitch (sound : Sound) (pitch : Q) : M V unit :=
  alSourcef (sound_source sound) AL_PITCH pitch.

End SoundPlaying.

(** ** Files being read *)

(** An open file of which [pre] has been read and [rest] is still to read. *)
Definition file_at (pre rest : list byte) : FILE :=
  MkFILE (pre ++ rest) (Z.of_nat (length pre)).

(** ** WAV files *)

(** The [n] low bytes of [z], low byte first. *)
Fixpoint le_bytes (n : nat) (z : Z) : list byte :=
  match n with
  | O => []
  | S n' => default Byte.x00 (Byte.of_N (Z.to_N (z mod 256))) :: le_bytes n' (z / 256)
  end.

(** A file laid out as [LoadWAV] reads it: the RIFF header, the format
    chunk, the bytes [wav_skipped] between the 24 bytes read as the format
    chunk and the data header, the data header, the data, and whatever
    follows. *)
Record wav_file := MkWav {
  wav_riffSize : Z;
  wav_fmtSize : Z;
  wav_audioFormat : Z;
  wav_numChannels : Z;
  wav_sampleRate : Z;
  wav_byteRate : Z;
  wav_blockAlign : Z;
  wav_bitsPerSample : Z;
  wav_skipped : list byte;
  wav_data : list byte;
  wav_trailer : list byte
}.

Definition wav_riff (w : wav_file) : list byte :=
  list_byte_of_string "RIFF" ++ le_bytes 4 (wav_riffSize w)
  ++ list_byte_of_string "WAVE".

Definition wav_fmt (w : wav_file) : list byte :=
  list_byte_of_string "fmt " ++ le_bytes 4 (wav_fmtSize w)
  ++ le_bytes 2 (wav_audioFormat w) ++ le_bytes 2 (wav_numChannels w)
  ++ le_bytes 4 (wav_sampleRate w) ++ le_bytes 4 (wav_byteRate w)
  ++ le_bytes 2 (wav_blockAlign w) ++ le_bytes 2 (wav_bitsPerSample w).

Definition wav_datahdr (w : wav_file) : list byte :=
  list_byte_of_string "data" ++ le_bytes 4 (Z.of_nat (length (wav_data w))).

Definition wav_bytes (w : wav_file) : list byte :=
  wav_riff w ++ wav_fmt w ++ wav_skipped w ++ wav_datahdr w
  ++ wav_data w ++ wav_trailer w.

(** The ranges of the fields [LoadWAV] keeps, and the two bytes it skips
    when the format chunk says it is longer than 16 bytes. *)
Definition wav_well_formed (w : wav_file) : Prop :=
  0 <= wav_fmtSize w < 2^31
  /\ 0 <= wav_numChannels w < 2^15
  /\ 0 <= wav_sampleRate w < 2^32
  /\ 0 <= wav_bitsPerSample w < 2^15
  /\ Z.of_nat (length (wav_data w)) < 2^31
  /\ length (wav_skipped w) = (if 16 <? wav_fmtSize w then 2%nat else 0%nat).

(** ** Consistency of the library's objects *)

(** Every buffer queued on a source is a buffer the library knows. *)
Definition queues_known (c : AL.context) : Prop :=
  forall k src b,
    AL.sources c !! k = Some src -> b ∈ AL.queue src -> is_Some (AL.buffers c !! b).

(** The four failure messages of [LoadWAV]. *)
Definition LoadWAV_warnings : list string :=
  ["[%s] Could not open WAV file"; "[%s] Invalid RIFF or WAVE Header";
   "[%s] Invalid Wave format"; "[%s] Invalid data header"]%string.

(** The bytes a block holds once the shorts [samples] have been stored
    from its start. *)
Definition shorts_in_block (samples : list Z) (block : list byte) : list byte :=
  concat (short_bytes <$> samples) ++ drop (2 * length samples) block.

(** ** A sound made of a wave *)

Section SoundsLoaded.

Context {V : Type}.

(** The names the library hands to the next sound. *)
Definition sound_of (c : AL.context) : Sound :=
  MkSound (AL.next_source c) (AL.next_buffers c).1.

(** The buffer a wave is uploaded to; the size and the rate are those
    of the wave read as signed 32-bit integers. *)
Definition wave_buffer (wave : Wave) : AL.buffer :=
  AL.Buffer (wave_format wave) (wave_samples wave) (int32 (wave_dataSize wave))
            (int32 (wave_sampleRate wave)).

(** The library calls that make [sound] of [wave], in order. *)
Definition sound_events (sound : Sound) (wave : Wave) : list event :=
  let source := sound_source sound in
  let buffer := sound_buffer sound in
  [EvGenSources [source];
   EvSourcef source AL_PITCH 1; EvSourcef source AL_GAIN 1;
   EvSource3f source AL_POSITION 0 0 0; EvSource3f source AL_VELOCITY 0 0 0;
   EvSourcei source AL_LOOPING 0;
   EvGenBuffers [buffer];
   EvBufferData buffer (wave_format wave) (wave_samples wave)
                (int32 (wave_dataSize wave)) (int32 (wave_sampleRate wave));
   EvSourcei source AL_BUFFER (Z.of_N buffer)].

(** The state once they are made: a new source with the one buffer
    attached, the buffer holding the wave. *)
Definition with_sound (sound : Sound) (wave : Wave) (s : State V) : State V :=
  MkState (musicEnabled s) (currentMusic s)
    (AL.MkContext
       (<[sound_source sound := AL.Source AL.AL_INITIAL [] [sound_buffer sound]]>
          (AL.sources (al s)))
       (<[sound_buffer sound := wave_buffer wave]> (AL.buffers (al s)))
       (AL.error (al s)))
    (files s) (trace s ++ sound_events sound wave).

End SoundsLoaded.

(** The wave [LoadWAV] makes of a file. *)
Definition wav_wave (w : wav_file) : Wave :=
  MkWave (Heap (wav_data w)) (Z.of_nat (length (wav_data w)))
         (wav_sampleRate w) (wav_bitsPerSample w) (wav_numChannels w).

(** Data the library takes: mono or stereo, 8 or 16 bits, a positive rate
    that fits an [ALsizei], whole sample frames. *)
Definition wav_playable (w : wav_file) : Prop :=
  (wav_numChannels w = 1 \/ wav_numChannels w = 2)
  /\ (wav_bitsPerSample w = 8 \/ wav_bitsPerSample w = 16)
  /\ 0 < wav_sampleRate w < 2^31
  /\ (wav_numChannels w * (wav_bitsPerSample w / 8) | Z.of_nat (length (wav_data w))).

(** ** SOUND records *)

Section SoundRecords.

Context `{Utils} `{ResInfoHeaderLayout}.


End SoundRecords.

(** ** The calls of the sound API *)

Section SoundCalls.

Context {V : Type} `{StbVorbis V} `{Utils} `{ResInfoHeaderLayout}.

(** A call of one of the functions of the sound section of the module,
    with its arguments and, where the function has locals it does not
    initialise, what they hold on entry. *)
Inductive sound_call :=
  | CallLoadSound (u : Indeterminate) (fileName : string)
  | CallLoadSoundFromRES (u : Indeterminate) (rresName : string) (resId : Z)
  | CallUnloadSound (sound : Sound)
  | CallPlaySound (sound : Sound)
  | CallPauseSound (sound : Sound)
  | CallStopSound (sound : Sound)
  | CallSoundIsPlaying (state : Z) (sound : Sound)
  | CallSetSoundVolume (sound : Sound) (volume : Q)
  | CallSetSoundPitch (sound : Sound) (pitch : Q).

(** The call, its result dropped. *)
Definition run_sound_call (c : sound_call) : M V unit :=
  match c with
  | CallLoadSound u fileName => LoadSound u fileName;; mret tt
  | CallLoadSoundFromRES u rresName resId => LoadSoundFromRES u rresName resId;; mret tt
  | CallUnloadSound sound => UnloadSound sound
  | CallPlaySound sound => PlaySound sound
  | CallPauseSound sound => PauseSound sound
  | CallStopSound sound => StopSound sound
  | CallSoundIsPlaying state sound => SoundIsPlaying state sound;; mret tt
  | CallSetSoundVolume sound volume => SetSoundVolume sound volume
  | CallSetSoundPitch sound pitch => SetSoundPitch sound pitch
  end.

Fixpoint run_sound_calls (cs : list sound_call) : M V unit :=
  match cs with
  | [] => mret tt
  | c :: cs' => run_sound_call c;; run_sound_calls cs'
  end.

(** [leaves_music m]: a run of [m] that returns leaves the music flag,
    the music record and the files as they were. *)
Definition leaves_music {A} (m : M V A) : Prop :=
  forall s r s',
    m s = Ok (r, s') ->
    musicEnabled s' = musicEnabled s
    /\ currentMusic s' = currentMusic s
    /\ files s' = files s.

End SoundCalls.

(** ** Sample files for the reference decoder and layout *)

Module Samples.

(** A mono 8-bit WAV file of four bytes of data at 8 kHz. *)
Definition beep : wav_file :=
  MkWav 40 16 1 1 8000 8000 1 8 [] ["a"; "b"; "c"; "d"]%byte [].

(** An archive of three records: an IMAGE (id 1), a SOUND (id 2: 8 kHz,
    8 bits, mono, four bytes of data) and a TEXT (id 7). *)
Definition chime : res_record :=
  MkResRecord [Byte.x02; Byte.x00; Byte.x01; Byte.x00;
               Byte.x04; Byte.x00; Byte.x00; Byte.x00;
               Byte.x04; Byte.x00; Byte.x00; Byte.x00]%byte
              [Byte.x40; Byte.x1f; Byte.x08; Byte.x00; Byte.x01; Byte.x00]%byte
              ["w"; "x"; "y"; "z"]%byte.

Definition picture : res_record :=
  MkResRecord [Byte.x01; Byte.x00; Byte.x00; Byte.x00;
               Byte.x01; Byte.x00; Byte.x00; Byte.x00;
               Byte.x01; Byte.x00; Byte.x00; Byte.x00]%byte
              ["p"; "p"; "p"; "p"; "p"; "p"]%byte ["d"]%byte.

Definition words : res_record :=
  MkResRecord [Byte.x07; Byte.x00; Byte.x03; Byte.x00;
               Byte.x02; Byte.x00; Byte.x00; Byte.x00;
               Byte.x02; Byte.x00; Byte.x00; Byte.x00]%byte
              [] ["h"; "i"]%byte.

Definition model : res_record :=
  MkResRecord [Byte.x02; Byte.x00; Byte.x02; Byte.x00;
               Byte.x00; Byte.x00; Byte.x00; Byte.x00;
               Byte.x00; Byte.x00; Byte.x00; Byte.x00]%byte
              ["q"; "q"; "q"; "q"; "q"]%byte [].

Definition sounds : list byte :=
  archive_bytes Byte.x01 Byte.x00 [picture; chime; words].

(** A file with none of the four identifying bytes, and an archive whose
    record count has its top bit set. *)
Definition bad : list byte :=
  ["X"; "Y"; "Z"; "W"; Byte.x01; Byte.x00; Byte.x01; Byte.x00]%byte.

Definition odd : list byte :=
  list_byte_of_string "rRES" ++ [Byte.x01; Byte.x00] ++ le_bytes 2 65535
  ++ record_bytes chime.

(** An archive of one SOUND record (id 3) of 44100 Hz, 16 bits, stereo:
    the rate takes the two bytes 44 AC. *)
Definition disc : res_record :=
  MkResRecord [Byte.x03; Byte.x00; Byte.x01; Byte.x00;
               Byte.x04; Byte.x00; Byte.x00; Byte.x00;
               Byte.x04; Byte.x00; Byte.x00; Byte.x00]%byte
              [Byte.x44; Byte.xac; Byte.x10; Byte.x00; Byte.x02; Byte.x00]%byte
              ["l"; "L"; "r"; "R"]%byte.

Definition discs : list byte := archive_bytes Byte.x01 Byte.x00 [disc].

(** A well-formed archive of two records, the TEXT (id 7) and then the
    IMAGE (id 1). *)
Definition texts : list byte :=
  archive_bytes Byte.x01 Byte.x00 [words; picture].

(** A stereo stream of three sample frames at 44 kHz, and its decoder
    once the three frames have been read. *)
Definition duet : list byte :=
  [Byte.x02; Byte.x2c; "a"; "b"; "c"; "d"; "e"; "f"]%byte.

Definition duet_read : RawPcm.decoder :=
  RawPcm.Decoder 2 44000 [97; 98; 99; 100; 101; 102] 3.

Definition disk : gmap string (list byte) :=
  <["beep.wav"%string := wav_bytes beep]>
    (<["sounds.rres"%string := sounds]>
       (<["bad.rres"%string := bad]>
          (<["odd.rres"%string := odd]>
             (<["texts.rres"%string := texts]>
                (<["discs.rres"%string := discs]>
                   (<["duet.ogg"%string := duet]> RawPcm.disk)))))).

(** The module before any call, with these files; and once
    [LoadSound("beep.wav")] has been run. *)
Definition boot : State RawPcm.decoder :=
  MkState false (currentMusic RawPcm.boot) (al RawPcm.boot) disk [].

Definition loaded : State RawPcm.decoder :=
  Eval vm_compute in RawPcm.state_of (LoadSound RawPcm.junk "beep.wav" boot).

(** The module after [PlayMusicStream("tune.ogg")], once the source has
    played the first of its two buffers. *)
Definition half_played : State RawPcm.decoder :=
  Eval vm_compute in
    set_al (AL.with_source 1 (AL.Source AL.AL_PLAYING [1%N] [2%N])
                           (al RawPcm.started))
           RawPcm.started.

(** The module at the point where [UpdateMusicStream] refills a buffer
    a second time: [PlayMusicStream] has read the whole stream and the
    decoder has been rewound.  Once on the mono stream "tune.ogg", once
    on the stereo stream "duet.ogg". *)
Definition replayed : State RawPcm.decoder :=
  Eval vm_compute in rewound RawPcm.tune_read RawPcm.started.

Definition duet_replayed : State RawPcm.decoder :=
  Eval vm_compute in
    rewound duet_read (RawPcm.state_of (PlayMusicStream "duet.ogg" boot)).

(** Locals that hold anything but zeroes: the wave has a data pointer
    that is neither null nor the address of a block, a size and a rate
    above 2^31. *)
Definition garbage : Indeterminate :=
  MkIndeterminate (MkSound 7 9) (MkWave Wild 3000000000 4294945860 16 2)
    [] [] [] [] [] [] [] [] [] [] [] [] (fun n => replicate n Byte.x00).

End Samples.

(** * Properties *)

(** ** C integers and lists *)

Lemma int32_small (z : Z) : - 2^31 <= z < 2^31 -> int32 z = z.
Proof.
  intros Hz. unfold int32.
  rewrite Z.mod_small by lia. lia.
Qed.

Lemma replicate_split {A} (n m : nat) (x : A) :
  (m <= n)%nat -> replicate n x = replicate m x ++ replicate (n - m) x.
Proof.
  intros Hle. rewrite <- replicate_add. f_equal. lia.
Qed.

Lemma last_all_false (l : list bool) :
  Forall (eq false) l -> l <> [] -> last l = Some false.
Proof.
  induction 1 as [|x l <- _ IH]; [congruence|].
  intros _. destruct l as [|y l']; [reflexivity|].
  rewrite last_cons, IH by discriminate. reflexivity.
Qed.

(** ** OpenAL *)

Lemma unqueue_head (src : ALuint) (st : Z) (b : ALuint) (bs pending : list ALuint)
    (c : AL.context) :
  AL.sources c !! src = Some (AL.Source st (b :: bs) pending) ->
  AL.alSourceUnqueueBuffers1 src c
  = (Some b, AL.with_source src (AL.Source st bs pending) c).
Proof.
  intros Hlook. unfold AL.alSourceUnqueueBuffers1. rewrite Hlook. reflexivity.
Qed.

Lemma in_use_false (b : ALuint) (c : AL.context) :
  (forall k other, AL.sources c !! k = Some other -> b ∉ AL.queue other) ->
  AL.in_use b c = false.
Proof.
  intros Hfree. unfold AL.in_use.
  destruct (existsb _ _) eqn:Hex; [|reflexivity].
  apply existsb_exists in Hex as ([k other] & Hin & Hb).
  apply list_elem_of_In, elem_of_map_to_list in Hin.
  apply bool_decide_eq_true in Hb.
  exfalso. exact (Hfree k other Hin Hb).
Qed.

Lemma delete_unused_buffers (b0 b1 : ALuint) (c : AL.context) :
  is_Some (AL.buffers c !! b0) ->
  is_Some (AL.buffers c !! b1) ->
  (forall k other, AL.sources c !! k = Some other ->
                   (b0 ∉ AL.queue other) /\ (b1 ∉ AL.queue other)) ->
  AL.buffers (AL.alDeleteBuffers [b0; b1] c) = delete b0 (delete b1 (AL.buffers c)).
Proof.
  intros H0 H1 Hfree. unfold AL.alDeleteBuffers. cbn [forallb existsb].
  rewrite !bool_decide_eq_true_2 by assumption. cbn [andb].
  rewrite !in_use_false by (intros k other Hk; apply (Hfree k other Hk)).
  reflexivity.
Qed.

(** ** The decode loop of BufferMusicStream *)

Section DecodeLoop.

Context {V : Type} `{StbVorbis V}.

Lemma pcm_after_nil : pcm_after [] = pcm_uninit.
Proof.
  unfold pcm_after, pcm_uninit. cbn [fmap list_fmap length app].
  rewrite Nat.sub_0_r. reflexivity.
Qed.

Lemma pcm_store_after (written samples : list Z) :
  Z.of_nat (length written) + Z.of_nat (length samples) <= MUSIC_BUFFER_SIZE ->
  pcm_store (pcm_after written) (Z.of_nat (length written)) samples
  = Some (pcm_after (written ++ samples)).
Proof.
  intros Hfit. unfold pcm_store.
  assert ((0 <=? Z.of_nat (length written)) = true) as -> by (apply Z.leb_le; lia).
  assert ((Z.of_nat (length written) + Z.of_nat (length samples)
           <=? MUSIC_BUFFER_SIZE) = true) as -> by (apply Z.leb_le; lia).
  cbn [andb]. f_equal. unfold pcm_after.
  rewrite Nat2Z.id.
  assert (length (Some <$> written) = length written) as Hlen
    by apply length_fmap.
  rewrite take_app_length' by (symmetry; exact Hlen).
  rewrite drop_app_ge by (rewrite Hlen; lia).
  rewrite Hlen, drop_replicate.
  rewrite fmap_app, <- app_assoc, length_app.
  do 3 f_equal. lia.
Qed.

Lemma decode_loop_within (Hroom : stores_within_room) (nchan : Z) :
  1 <= nchan ->
  forall (fuel : nat) (v : V) (written : list Z),
    Z.of_nat (length written) <= MUSIC_BUFFER_SIZE ->
    MUSIC_BUFFER_SIZE - Z.of_nat (length written) <= Z.of_nat fuel ->
    exists (more : list Z) (v' : V),
      decode_loop fuel v nchan (pcm_after written) (Z.of_nat (length written))
      = Ok (Z.of_nat (length (written ++ more)), pcm_after (written ++ more), v')
      /\ Z.of_nat (length (written ++ more)) <= MUSIC_BUFFER_SIZE
      /\ (Z.of_nat (length written) < MUSIC_BUFFER_SIZE ->
          let room := MUSIC_BUFFER_SIZE - Z.of_nat (length written) in
          (read_count v nchan room <= 0 -> more = [] /\ v' = read_next v nchan room)
          /\ (0 < read_count v nchan room -> more <> []))
      /\ (rewinds_to_start -> stb_vorbis_seek_start v' = stb_vorbis_seek_start v).
Proof.
  intros Hchan fuel.
  induction fuel as [|fuel IH]; intros v written Hsize Hfuel.
  - exists [], v. rewrite app_nil_r.
    split; [|split; [exact Hsize | split; [lia | reflexivity]]].
    simpl. assert ((Z.of_nat (length written) <? MUSIC_BUFFER_SIZE) = false) as ->
      by (apply Z.ltb_ge; lia).
    reflexivity.
  - simpl decode_loop.
    destruct (Z.ltb_spec (Z.of_nat (length written)) MUSIC_BUFFER_SIZE) as [Hlt|Hge].
    + pose proof (Hroom v nchan (MUSIC_BUFFER_SIZE - Z.of_nat (length written))
                    Hchan ltac:(lia)) as (Hk & Hlen & Hfit).
      unfold read_count, read_samples, read_next in *.
      destruct (stb_vorbis_get_samples_short_interleaved v nchan
                  (MUSIC_BUFFER_SIZE - Z.of_nat (length written)))
        as [[k samples] v1] eqn:Hread.
      cbn [fst snd] in *.
      rewrite pcm_store_after by lia.
      destruct (Z.ltb_spec 0 k) as [Hpos|Hzero].
      * assert (int32 (Z.of_nat (length written) + int32 (k * nchan))
                = Z.of_nat (length (written ++ samples))) as ->.
        { rewrite length_app, Nat2Z.inj_add, Hlen.
          unfold MUSIC_BUFFER_SIZE in *.
          rewrite (int32_small (k * nchan)) by lia.
          apply int32_small. lia. }
        destruct (IH v1 (written ++ samples)) as (more & v' & Hrun & Hbound & _ & Hrw).
        { rewrite length_app, Nat2Z.inj_add. lia. }
        { rewrite length_app, Nat2Z.inj_add. nia. }
        exists (samples ++ more), v'.
        rewrite app_assoc.
        split; [assumption | split; [assumption | split]].
        -- intros _. split; [lia|]. intros _ Hnil.
           apply app_eq_nil in Hnil as [-> _]. simpl in Hlen. nia.
        -- intros Hcontract. rewrite (Hrw Hcontract).
           replace v1 with (read_next v nchan
                              (MUSIC_BUFFER_SIZE - Z.of_nat (length written)))
             by (unfold read_next; rewrite Hread; reflexivity).
           apply Hcontract.
      * assert (samples = []) as -> by (apply length_zero_iff_nil; nia).
        exists [], v1. rewrite !app_nil_r.
        split; [reflexivity | split; [exact Hsize | split]].
        -- intros _. split; [auto | lia].
        -- intros Hcontract.
           replace v1 with (read_next v nchan
                              (MUSIC_BUFFER_SIZE - Z.of_nat (length written)))
             by (unfold read_next; rewrite Hread; reflexivity).
           apply Hcontract.
    + exists [], v. rewrite app_nil_r.
      split; [reflexivity | split; [exact Hsize | split; [lia | reflexivity]]].
Qed.

Lemma decode_fuel_enough : Z.of_nat decode_fuel = MUSIC_BUFFER_SIZE.
Proof.
  unfold decode_fuel. apply Z2Nat.id. unfold MUSIC_BUFFER_SIZE. lia.
Qed.

(** From an untouched array the loop ends with some [written] shorts
    stored, none exactly when the first read returns nothing. *)
Lemma decode_loop_total (Hroom : stores_within_room) (v : V) (nchan : Z) :
  1 <= nchan ->
  exists (written : list Z) (v' : V),
    decode_loop decode_fuel v nchan pcm_uninit 0
    = Ok (Z.of_nat (length written), pcm_after written, v')
    /\ Z.of_nat (length written) <= MUSIC_BUFFER_SIZE
    /\ (read_count v nchan MUSIC_BUFFER_SIZE <= 0 ->
        written = [] /\ v' = read_next v nchan MUSIC_BUFFER_SIZE)
    /\ (0 < read_count v nchan MUSIC_BUFFER_SIZE -> written <> [])
    /\ (rewinds_to_start -> stb_vorbis_seek_start v' = stb_vorbis_seek_start v).
Proof.
  intros Hchan.
  destruct (decode_loop_within Hroom nchan Hchan decode_fuel v [])
    as (more & v' & Hrun & Hbound & Hfirst & Hrw).
  - unfold MUSIC_BUFFER_SIZE. simpl. lia.
  - rewrite decode_fuel_enough. simpl. lia.
  - exists more, v'. rewrite pcm_after_nil in Hrun.
    cbn [app length] in *. change (Z.of_nat 0) with 0 in *.
    rewrite Z.sub_0_r in Hfirst.
    split; [exact Hrun | split; [exact Hbound|]].
    destruct Hfirst as [Hnone Hsome]; [unfold MUSIC_BUFFER_SIZE; lia|].
    auto.
Qed.

End DecodeLoop.

(** ** BufferMusicStream *)

Ltac norm_state :=
  cbv beta iota zeta delta
    [record set_al set_currentMusic set_musicEnabled set_stream set_buffers
     set_source set_format set_channels set_sampleRate set_totalSamplesLeft
     set_loop musicEnabled currentMusic al files trace stream buffers source
     format channels sampleRate totalSamplesLeft loop].

Ltac unfold_monad :=
  unfold mbind, M_bind, mret, M_ret, gets, music, assign, modify, when,
         TraceLog, raise_fault, deref in *.

Section BufferMusicStreamProperties.

Context {V : Type} `{StbVorbis V}.

Lemma BufferMusicStream_run (buffer : ALuint) (s : State V) (v v' : V)
    (size : Z) (pcm : list (option Z)) :
  musicEnabled s = true ->
  stream (currentMusic s) = Some v ->
  decode_loop decode_fuel v (channels (currentMusic s)) pcm_uninit 0
  = Ok (size, pcm, v') ->
  size <= MUSIC_BUFFER_SIZE ->
  BufferMusicStream buffer s = Ok (0 <? size, buffered buffer size pcm v' s).
Proof.
  intros Hen Hstream Hrun Hsize.
  unfold BufferMusicStream, buffered, mbind, M_bind, gets, music, deref.
  rewrite Hen. cbn [gets]. rewrite Hstream. cbn [mret M_ret].
  rewrite Hrun.
  cbv beta iota delta [assign modify TraceLog alBufferData when mret M_ret raise_fault].
  destruct (Z.ltb_spec 0 size) as [Hpos|Hzero]; [|reflexivity].
  assert ((MUSIC_BUFFER_SIZE <? size) = false) as -> by (apply Z.ltb_ge; exact Hsize).
  reflexivity.
Qed.

(** With a decoder that stores within the room it is offered, the call
    returns, having stored [written] shorts in all. *)
Lemma BufferMusicStream_total (Hroom : stores_within_room) (buffer : ALuint)
    (s : State V) (v : V) :
  musicEnabled s = true ->
  stream (currentMusic s) = Some v ->
  1 <= channels (currentMusic s) ->
  exists (written : list Z) (v' : V),
    decode_loop decode_fuel v (channels (currentMusic s)) pcm_uninit 0
    = Ok (Z.of_nat (length written), pcm_after written, v')
    /\ Z.of_nat (length written) <= MUSIC_BUFFER_SIZE
    /\ BufferMusicStream buffer s
       = Ok (0 <? Z.of_nat (length written),
             buffered buffer (Z.of_nat (length written)) (pcm_after written) v' s)
    /\ (read_count v (channels (currentMusic s)) MUSIC_BUFFER_SIZE <= 0 ->
        written = []
        /\ v' = read_next v (channels (currentMusic s)) MUSIC_BUFFER_SIZE)
    /\ (0 < read_count v (channels (currentMusic s)) MUSIC_BUFFER_SIZE ->
        written <> [])
    /\ (rewinds_to_start -> stb_vorbis_seek_start v' = stb_vorbis_seek_start v).
Proof.
  intros Hen Hstream Hchan.
  destruct (decode_loop_total Hroom v (channels (currentMusic s)) Hchan)
    as (written & v' & Hrun & Hbound & Hnone & Hsome & Hrw).
  exists written, v'.
  split; [exact Hrun | split; [exact Hbound | split; [|auto]]].
  eapply BufferMusicStream_run; eassumption.
Qed.

(** What a call changes: the decoder, the counter, the trace, and the
    data of the buffer; nothing else. *)
Lemma buffered_frame (buffer : ALuint) (size : Z) (pcm : list (option Z)) (v' : V)
    (s : State V) :
  let s' := buffered buffer size pcm v' s in
  musicEnabled s' = musicEnabled s
  /\ stream (currentMusic s') = Some v'
  /\ channels (currentMusic s') = channels (currentMusic s)
  /\ loop (currentMusic s') = loop (currentMusic s)
  /\ source (currentMusic s') = source (currentMusic s)
  /\ buffers (currentMusic s') = buffers (currentMusic s)
  /\ format (currentMusic s') = format (currentMusic s)
  /\ sampleRate (currentMusic s') = sampleRate (currentMusic s)
  /\ files s' = files s
  /\ AL.sources (al s') = AL.sources (al s)
  /\ totalSamplesLeft (currentMusic s')
     = (if 0 <? size then int32 (totalSamplesLeft (currentMusic s) - size)
        else totalSamplesLeft (currentMusic s)).
Proof.
  unfold buffered. destruct (0 <? size); cbn; repeat split; try reflexivity.
  unfold AL.alBufferData. destruct (AL.buffers (al s) !! buffer); reflexivity.
Qed.

End BufferMusicStreamProperties.

(** ** The refill loop of UpdateMusicStream *)

Section RefillLoop.

Context {V : Type} `{StbVorbis V}.

Lemma requeue_run {A} (b : ALuint) (k : M V A) (s : State V) :
  (src ← music source;
   alSourceQueueBuffers src [b];;
   err ← alGetError;
   when (negb (err =? AL.AL_NO_ERROR))
     (TraceLog WARNING "Ogg playing, error buffering data...");;
   k) s
  = k (requeued (source (currentMusic s)) b s).
Proof.
  unfold requeued.
  cbv beta iota delta [mbind M_bind music gets alSourceQueueBuffers modify
                        alGetError when TraceLog mret M_ret].
  cbn [al set_al record fst snd].
  unfold AL.alGetError. cbn [fst snd].
  destruct (AL.error (AL.alSourceQueueBuffers (source (currentMusic s)) [b] (al s))
            =? AL.AL_NO_ERROR); reflexivity.
Qed.

(** One turn of the loop, by its effect on the state. *)
Lemma refill_loop_turn (n : nat) (buffer : ALuint) (active : bool) (s : State V) :
  refill_loop (S n) buffer active s =
  let src := source (currentMusic s) in
  let b := default buffer (AL.alSourceUnqueueBuffers1 src (al s)).1 in
  let s0 := record (EvSourceUnqueueBuffers src b)
                   (set_al (AL.alSourceUnqueueBuffers1 src (al s)).2 s) in
  match BufferMusicStream b s0 with
  | Fault e => Fault e
  | Ok (a, s1) =>
      match
        (if negb a && loop (currentMusic s1) then
           match stream (currentMusic s1) with
           | None => Fault NullDereference
           | Some v => BufferMusicStream b (rewound v s1)
           end
         else Ok (a, s1))
      with
      | Fault e => Fault e
      | Ok (a', s2) => refill_loop n b a' (requeued (source (currentMusic s2)) b s2)
      end
  end.
Proof.
  cbn [refill_loop].
  unfold mbind at 1 2. unfold M_bind at 1 2. unfold music at 1. unfold gets at 1.
  unfold alSourceUnqueueBuffers at 1.
  destruct (AL.alSourceUnqueueBuffers1 (source (currentMusic s)) (al s)) as [r c].
  cbn [fst snd].
  unfold mbind at 1. unfold M_bind at 1.
  destruct (BufferMusicStream (default buffer r)
              (record (EvSourceUnqueueBuffers (source (currentMusic s)) (default buffer r))
                      (set_al c s))) as [[a s1]|e]; [|reflexivity].
  unfold mbind at 1 2. unfold M_bind at 1 2. unfold music at 1. unfold gets at 1.
  destruct a; cbn [negb andb].
  - unfold mret at 1. unfold M_ret at 1. apply requeue_run.
  - destruct (loop (currentMusic s1)) eqn:Hloop.
    + unfold mbind at 1 2. unfold M_bind at 1 2. unfold music at 1. unfold gets at 1.
      rewrite Hloop.
      unfold mbind at 1 2 3. unfold M_bind at 1 2 3. unfold music at 1. unfold gets at 1.
      destruct (stream (currentMusic s1)) as [v|] eqn:Hstream; [|reflexivity].
      cbn [deref]. unfold mret at 1. unfold M_ret at 1.
      transitivity
        (match BufferMusicStream (default buffer r) (rewound v s1) with
         | Ok (a, s') =>
             (src ← music source;
              alSourceQueueBuffers src [default buffer r];;
              err ← alGetError;
              when (negb (err =? AL.AL_NO_ERROR))
                (TraceLog WARNING "Ogg playing, error buffering data...");;
              refill_loop n (default buffer r) a) s'
         | Fault e => Fault e
         end); [reflexivity|].
      destruct (BufferMusicStream (default buffer r) (rewound v s1)) as [[a s2]|e];
        [apply requeue_run | reflexivity].
    + unfold mret at 1. unfold M_ret at 1. apply requeue_run.
Qed.

Lemma streaming_unqueued src st b bs nchan looping (v : V) s :
  streaming src st (b :: bs) nchan looping v s ->
  AL.alSourceUnqueueBuffers1 src (al s)
  = (Some b, (AL.alSourceUnqueueBuffers1 src (al s)).2)
  /\ streaming src st bs nchan looping v
       (record (EvSourceUnqueueBuffers src b)
               (set_al (AL.alSourceUnqueueBuffers1 src (al s)).2 s)).
Proof.
  intros (Hen & Hstream & Hchan & Hloop & Hsrc & pending & Hlook).
  unfold AL.alSourceUnqueueBuffers1. rewrite Hlook. cbn.
  split; [reflexivity|].
  repeat split; try assumption.
  exists pending. apply lookup_insert_eq.
Qed.

Lemma streaming_buffered src st bs nchan looping (v v' : V) s b size pcm :
  streaming src st bs nchan looping v s ->
  streaming src st bs nchan looping v' (buffered b size pcm v' s).
Proof.
  intros (Hen & Hstream & Hchan & Hloop & Hsrc & pending & Hlook).
  destruct (buffered_frame b size pcm v' s)
    as (Hen' & Hstream' & Hchan' & Hloop' & Hsrc' & _ & _ & _ & _ & Hal & _).
  unfold streaming. rewrite Hen', Hstream', Hchan', Hloop', Hsrc', Hal.
  repeat split; try assumption. exists pending. assumption.
Qed.

Lemma streaming_rewound src st bs nchan looping (v : V) s :
  streaming src st bs nchan looping v s ->
  streaming src st bs nchan looping (stb_vorbis_seek_start v) (rewound v s).
Proof.
  intros (Hen & Hstream & Hchan & Hloop & Hsrc & pending & Hlook).
  repeat split; try assumption. exists pending. assumption.
Qed.

Lemma streaming_requeued src st bs nchan looping (v : V) s b :
  streaming src st bs nchan looping v s ->
  streaming src st bs nchan looping v (requeued src b s).
Proof.
  intros (Hen & Hstream & Hchan & Hloop & Hsrc & pending & Hlook).
  assert (exists pending',
            AL.sources (AL.alSourceQueueBuffers src [b] (al s)) !! src
            = Some (AL.Source st bs pending')) as (pending' & Hlook').
  { unfold AL.alSourceQueueBuffers. rewrite Hlook.
    destruct (forallb _ _); cbn.
    - eexists. apply lookup_insert_eq.
    - exists pending. assumption. }
  unfold requeued. cbn [AL.alGetError fst snd].
  destruct (_ =? _); cbn; repeat split; try assumption;
    exists pending'; assumption.
Qed.

(** The loop hands back, refills and queues again each processed buffer
    of the source, and returns. *)
Lemma refill_loop_spec (Hroom : stores_within_room) src st nchan looping :
  1 <= nchan ->
  forall (bs : list ALuint) (s : State V) (v : V) (buffer : ALuint) (active : bool),
    streaming src st bs nchan looping v s ->
    exists (flags : list bool) (s1 : State V) (v1 : V),
      refill_all src bs s flags s1
      /\ length flags = length bs
      /\ refill_loop (length bs) buffer active s
         = Ok ((default buffer (last bs), default active (last flags)), s1)
      /\ streaming src st [] nchan looping v1 s1.
Proof.
  intros Hchan bs.
  induction bs as [|b bs IH]; intros s v buffer active Hs.
  - exists [], s, v.
    split; [apply refill_all_nil|]. split; [reflexivity|].
    split; [reflexivity | assumption].
  - destruct (streaming_unqueued _ _ _ _ _ _ _ _ Hs) as (Hunq & Hs0).
    destruct (AL.alSourceUnqueueBuffers1 src (al s)) as [r c] eqn:Hcall.
    cbn [snd] in Hunq, Hs0. injection Hunq as ->. rename Hcall into Hunq.
    set (s0 := record (EvSourceUnqueueBuffers src b) (set_al c s)) in *.
    assert (source (currentMusic s) = src) as Hsrc by apply Hs.
    destruct Hs0 as (Hen0 & Hstream0 & Hchan0 & Hloop0 & Hsrc0 & Hlook0).
    destruct (BufferMusicStream_total Hroom b s0 v Hen0 Hstream0)
      as (written & v' & _ & _ & Hbuf & _); [lia|].
    set (s1 := buffered b (Z.of_nat (length written)) (pcm_after written) v' s0) in *.
    assert (streaming src st bs nchan looping v' s1) as Hs1
      by (apply streaming_buffered with (v := v); repeat split; assumption).
    assert (forall a' s3 v3,
               refills b s0 a' s3 ->
               streaming src st bs nchan looping v3 s3 ->
               exists flags s2 v1,
                 refill_all src (b :: bs) s flags s2
                 /\ length flags = S (length bs)
                 /\ refill_loop (length bs) b a'
                      (requeued (source (currentMusic s3)) b s3)
                    = Ok ((default buffer (last (b :: bs)),
                           default active (last flags)), s2)
                 /\ streaming src st [] nchan looping v1 s2) as Hfinish.
    { intros a' s3 v3 Hrefill Hs3.
      assert (source (currentMusic s3) = src) as -> by apply Hs3.
      destruct (IH (requeued src b s3) v3 b a')
        as (flags & s' & v1 & Hall & Hlen & Hrun & Hs').
      { apply streaming_requeued. assumption. }
      exists (a' :: flags), s', v1.
      split; [|split; [|split; [|exact Hs']]].
      - econstructor; [exact Hunq | exact Hrefill | exact Hall].
      - cbn. congruence.
      - rewrite Hrun. f_equal. f_equal. f_equal; rewrite !last_cons;
          [destruct (last bs) | destruct (last flags)]; reflexivity. }
    cbn [length]. rewrite refill_loop_turn. cbv zeta.
    rewrite Hsrc, Hunq. cbn [fst snd default from_option id]. fold s0.
    rewrite Hbuf.
    destruct (0 <? Z.of_nat (length written)) eqn:Hgot; cbn [negb andb].
    + apply Hfinish with (v3 := v'); [|exact Hs1].
      apply refills_data. exact Hbuf.
    + destruct (loop (currentMusic s1)) eqn:Hloop1.
      * assert (stream (currentMusic s1) = Some v') as Hstream1 by apply Hs1.
        rewrite Hstream1.
        pose proof (streaming_rewound _ _ _ _ _ _ _ Hs1) as Hs2.
        destruct Hs2 as (Hen2 & Hstream2 & Hchan2 & Hloop2 & Hsrc2 & Hlook2).
        destruct (BufferMusicStream_total Hroom b (rewound v' s1)
                    (stb_vorbis_seek_start v') Hen2 Hstream2)
          as (written2 & v2 & _ & _ & Hbuf2 & _); [lia|].
        rewrite Hbuf2.
        apply Hfinish with (v3 := v2).
        -- eapply refills_from_start; eassumption.
        -- apply streaming_buffered with (v := stb_vorbis_seek_start v').
           repeat split; assumption.
      * apply Hfinish with (v3 := v'); [|exact Hs1].
        apply refills_nothing; assumption.
Qed.

(** What one refill tells about the decoder. *)
Lemma refills_inv (Hroom : stores_within_room) src st bs nchan looping
    (v : V) s b a s1 :
  1 <= nchan ->
  streaming src st bs nchan looping v s ->
  refills b s a s1 ->
  exists v1 : V,
    streaming src st bs nchan looping v1 s1
    /\ (a = false -> read_count v nchan MUSIC_BUFFER_SIZE <= 0)
    /\ (looping = false -> read_count v nchan MUSIC_BUFFER_SIZE <= 0 ->
        a = false /\ v1 = read_next v nchan MUSIC_BUFFER_SIZE)
    /\ (looping = true -> a = false ->
        read_count (stb_vorbis_seek_start (read_next v nchan MUSIC_BUFFER_SIZE))
                   nchan MUSIC_BUFFER_SIZE <= 0)
    /\ (rewinds_to_start -> stb_vorbis_seek_start v1 = stb_vorbis_seek_start v).
Proof.
  intros Hchan Hs Hrefill.
  pose proof Hs as (Hen & Hstream & Hnchan & Hloop & Hsrc & Hlook).
  destruct (BufferMusicStream_total Hroom b s v Hen Hstream)
    as (written & v' & _ & _ & Hbuf & Hnone & Hsome & Hrw); [lia|].
  rewrite Hnchan in Hnone, Hsome.
  pose proof (streaming_buffered _ _ _ _ _ _ v' _ b (Z.of_nat (length written))
                (pcm_after written) Hs) as Hs1.
  assert ((0 <? Z.of_nat (length written)) = false ->
          read_count v nchan MUSIC_BUFFER_SIZE <= 0
          /\ v' = read_next v nchan MUSIC_BUFFER_SIZE) as Hempty.
  { intros Hz. apply Z.ltb_ge in Hz.
    assert (written = []) as Hnil by (apply length_zero_iff_nil; lia).
    destruct (Z_le_gt_dec (read_count v nchan MUSIC_BUFFER_SIZE) 0) as [Hle|Hgt].
    - split; [exact Hle | apply Hnone; exact Hle].
    - exfalso. apply Hsome; [lia | exact Hnil]. }
  assert (read_count v nchan MUSIC_BUFFER_SIZE <= 0 ->
          (0 <? Z.of_nat (length written)) = false) as Hfull.
  { intros Hle. destruct (Hnone Hle) as [-> _]. reflexivity. }
  inversion Hrefill as [s1' Hcall | s1' v0 a' s2 Hcall Hloop1 Hstream1 Hcall2
                        | s1' Hcall Hloop1]; subst.
  - rewrite Hbuf in Hcall. injection Hcall as Hgot <-.
    exists v'. split; [exact Hs1|]. split; [discriminate|]. split; [|split; [discriminate|exact Hrw]].
    intros _ Hle. rewrite (Hfull Hle) in Hgot. discriminate.
  - rewrite Hbuf in Hcall. injection Hcall as Hgot <-.
    destruct (Hempty Hgot) as [Hle ->].
    assert (v0 = read_next v (channels (currentMusic s)) MUSIC_BUFFER_SIZE) as ->.
    { destruct Hs1 as (_ & Hst & _). rewrite Hst in Hstream1. congruence. }
    pose proof (streaming_rewound _ _ _ _ _ _ _ Hs1) as Hs2.
    pose proof Hs2 as (Hen2 & Hstream2 & Hnchan2 & Hloop2 & _).
    destruct (BufferMusicStream_total Hroom b _ _ Hen2 Hstream2)
      as (written2 & v2 & _ & _ & Hbuf2 & _ & Hsome2 & Hrw2); [lia|].
    rewrite Hbuf2 in Hcall2. injection Hcall2 as <- <-.
    exists v2. split.
    { eapply streaming_buffered. exact Hs2. }
    split; [intros _; exact Hle|]. split.
    { intros Hfalse. destruct Hs1 as (_ & _ & _ & Hl & _). congruence. }
    split.
    + intros _ Hz. apply Z.ltb_ge in Hz.
      destruct (Z_le_gt_dec (read_count (stb_vorbis_seek_start
                  (read_next v (channels (currentMusic s)) MUSIC_BUFFER_SIZE))
                  (channels (currentMusic s)) MUSIC_BUFFER_SIZE) 0) as [Hle2|Hgt2];
        [exact Hle2|].
      exfalso. rewrite Hnchan2 in Hsome2. apply Hsome2; [lia|].
      apply length_zero_iff_nil. lia.
    + intros Hcontract. rewrite (Hrw2 Hcontract).
      destruct Hcontract as [Hread Hidem]. rewrite Hidem. apply Hread.
  - rewrite Hbuf in Hcall. injection Hcall as Hgot <-.
    destruct (Hempty Hgot) as [Hle ->].
    eexists. split; [exact Hs1|]. split; [intros _; exact Hle|].
    split; [intros _ _; split; reflexivity|]. split.
    + intros Htrue. destruct Hs1 as (_ & _ & _ & Hl & _). congruence.
    + intros Hcontract. apply Hcontract.
Qed.

(** Without looping, an exhausted decoder leaves every refill empty. *)
Lemma refill_all_exhausted (Hroom : stores_within_room) (Hfinal : end_is_final)
    src st nchan bs s flags s' :
  1 <= nchan ->
  refill_all src bs s flags s' ->
  forall (v : V) processed,
    streaming src st processed nchan false v s ->
    read_count v nchan MUSIC_BUFFER_SIZE <= 0 ->
    Forall (eq false) flags.
Proof.
  intros Hchan Hall.
  induction Hall as [s | b bs s c a s1 flags s' Hunq Hrefill Hall IH];
    intros v processed Hs Hle; [constructor|].
  assert (exists rest, streaming src st rest nchan false v
                         (record (EvSourceUnqueueBuffers src b) (set_al c s)))
    as (rest & Hs0).
  { destruct Hs as (Hen & Hstream & Hnchan & Hloop & Hsrc & pending & Hlook).
    unfold AL.alSourceUnqueueBuffers1 in Hunq. rewrite Hlook in Hunq.
    destruct processed as [|b' rest]; [discriminate|].
    injection Hunq as <- <-. exists rest.
    repeat split; try assumption. exists pending. apply lookup_insert_eq. }
  destruct (refills_inv Hroom _ _ _ _ _ _ _ _ _ _ Hchan Hs0 Hrefill)
    as (v1 & Hs1 & _ & Hstop & _).
  destruct (Hstop eq_refl Hle) as [-> ->].
  constructor; [reflexivity|].
  eapply IH.
  - apply streaming_requeued. exact Hs1.
  - apply Hfinal. exact Hle.
Qed.

(** Without looping, once a refill obtains nothing the last one obtains
    nothing either. *)
Lemma refill_all_sticky (Hroom : stores_within_room) (Hfinal : end_is_final)
    src st nchan bs s flags s' :
  1 <= nchan ->
  refill_all src bs s flags s' ->
  forall (v : V) processed,
    streaming src st processed nchan false v s ->
    false ∈ flags ->
    last flags = Some false.
Proof.
  intros Hchan Hall.
  induction Hall as [s | b bs s c a s1 flags s' Hunq Hrefill Hall IH];
    intros v processed Hs Hin; [inversion Hin|].
  assert (exists rest, streaming src st rest nchan false v
                         (record (EvSourceUnqueueBuffers src b) (set_al c s)))
    as (rest & Hs0).
  { destruct Hs as (Hen & Hstream & Hnchan & Hloop & Hsrc & pending & Hlook).
    unfold AL.alSourceUnqueueBuffers1 in Hunq. rewrite Hlook in Hunq.
    destruct processed as [|b' rest]; [discriminate|].
    injection Hunq as <- <-. exists rest.
    repeat split; try assumption. exists pending. apply lookup_insert_eq. }
  destruct (refills_inv Hroom _ _ _ _ _ _ _ _ _ _ Hchan Hs0 Hrefill)
    as (v1 & Hs1 & Hfalse & Hstop & _).
  destruct a.
  - apply elem_of_cons in Hin as [Hin|Hin]; [discriminate|].
    rewrite last_cons.
    rewrite (IH v1 rest (streaming_requeued _ _ _ _ _ _ _ b Hs1) Hin).
    reflexivity.
  - assert (Forall (eq false) (false :: flags)) as Hallf.
    { apply (refill_all_exhausted Hroom Hfinal src st nchan (b :: bs) s
               (false :: flags) s' Hchan) with (v := v) (processed := processed).
      - econstructor; eassumption.
      - exact Hs.
      - apply Hfalse. reflexivity. }
    apply last_all_false; [exact Hallf | discriminate].
Qed.

(** With looping, a stream that yields samples from its start leaves
    every refill with data. *)
Lemma refill_all_loops (Hroom : stores_within_room) (Hrw : rewinds_to_start)
    src st nchan bs s flags s' :
  1 <= nchan ->
  refill_all src bs s flags s' ->
  forall (v : V) processed,
    streaming src st processed nchan true v s ->
    0 < read_count (stb_vorbis_seek_start v) nchan MUSIC_BUFFER_SIZE ->
    Forall (eq true) flags.
Proof.
  intros Hchan Hall.
  induction Hall as [s | b bs s c a s1 flags s' Hunq Hrefill Hall IH];
    intros v processed Hs Hdata; [constructor|].
  assert (exists rest, streaming src st rest nchan true v
                         (record (EvSourceUnqueueBuffers src b) (set_al c s)))
    as (rest & Hs0).
  { destruct Hs as (Hen & Hstream & Hnchan & Hloop & Hsrc & pending & Hlook).
    unfold AL.alSourceUnqueueBuffers1 in Hunq. rewrite Hlook in Hunq.
    destruct processed as [|b' rest]; [discriminate|].
    injection Hunq as <- <-. exists rest.
    repeat split; try assumption. exists pending. apply lookup_insert_eq. }
  destruct (refills_inv Hroom _ _ _ _ _ _ _ _ _ _ Hchan Hs0 Hrefill)
    as (v1 & Hs1 & _ & _ & Hloop & Hsame).
  constructor.
  - destruct a; [reflexivity|]. exfalso.
    specialize (Hloop eq_refl eq_refl).
    destruct Hrw as [Hread Hidem]. rewrite Hread in Hloop. lia.
  - eapply IH.
    + apply streaming_requeued. exact Hs1.
    + rewrite (Hsame Hrw). exact Hdata.
Qed.

End RefillLoop.

(** ** StopMusicStream *)

Section StopMusicStreamProperties.

Context {V : Type} `{StbVorbis V}.

Lemma unqueue_loop_ok (n : nat) :
  forall (buffer : ALuint) (s : State V),
    exists b' s',
      unqueue_loop n buffer s = Ok (b', s')
      /\ musicEnabled s' = musicEnabled s
      /\ currentMusic s' = currentMusic s
      /\ files s' = files s.
Proof.
  induction n as [|n IH]; intros buffer s.
  - exists buffer, s. repeat split.
  - cbn [unqueue_loop].
    cbv beta iota delta [mbind M_bind music gets alSourceUnqueueBuffers].
    destruct (AL.alSourceUnqueueBuffers1 (source (currentMusic s)) (al s)) as [r c].
    destruct (IH (default buffer r)
                 (record (EvSourceUnqueueBuffers (source (currentMusic s)) (default buffer r))
                         (set_al c s))) as (b' & s' & Hrun & Hen & Hmusic & Hfiles).
    exists b', s'. split; [exact Hrun|]. repeat split; assumption.
Qed.

(** The call always returns, with music disabled and the music record
    and the files untouched. *)
Lemma StopMusicStream_ok (s : State V) :
  exists s',
    StopMusicStream s = Ok (tt, s')
    /\ musicEnabled s' = false
    /\ currentMusic s' = currentMusic s
    /\ files s' = files s.
Proof.
  unfold StopMusicStream.
  cbv beta iota delta [mbind M_bind gets when].
  destruct (musicEnabled s) eqn:Hen.
  - cbv beta iota delta [mbind M_bind music gets modify alSourceStop EmptyMusicStream
                          alGetSourcei alDeleteSources alDeleteBuffers mret M_ret].
    cbn [al set_al record currentMusic].
    match goal with
    | |- context [AL.alGetSourcei ?a ?b ?c] => destruct (AL.alGetSourcei a b c) as [r c0]
    end.
    match goal with
    | |- context [unqueue_loop ?n ?b ?s0] =>
        destruct (unqueue_loop_ok n b s0) as (b' & s1 & -> & _ & Hmusic & Hfiles)
    end.
    rewrite !Hmusic. cbn [currentMusic set_al record].
    destruct (stream (currentMusic s)); cbn; eexists; repeat split;
      cbn; rewrite ?Hmusic, ?Hfiles; reflexivity.
  - eexists. repeat split.
Qed.

(** On a source whose processed buffers are [bs], the loop of
    [EmptyMusicStream] run [length bs] times unqueues them all. *)
Lemma unqueue_loop_drains (src : ALuint) (st : Z) (pending : list ALuint) :
  forall (bs : list ALuint) (buffer : ALuint) (s : State V),
    source (currentMusic s) = src ->
    AL.sources (al s) !! src = Some (AL.Source st bs pending) ->
    exists s',
      unqueue_loop (length bs) buffer s = Ok (default buffer (last bs), s')
      /\ trace s' = trace s ++ (EvSourceUnqueueBuffers src <$> bs)
      /\ AL.sources (al s') = <[src := AL.Source st [] pending]> (AL.sources (al s))
      /\ AL.buffers (al s') = AL.buffers (al s)
      /\ AL.error (al s') = AL.error (al s)
      /\ musicEnabled s' = musicEnabled s
      /\ currentMusic s' = currentMusic s
      /\ files s' = files s.
Proof.
  induction bs as [|b bs IH]; intros buffer s Hsrc Hlook.
  - exists s. cbn. rewrite app_nil_r, insert_id by exact Hlook. repeat split.
  - cbn [length unqueue_loop].
    cbv beta iota delta [mbind M_bind music gets alSourceUnqueueBuffers].
    rewrite Hsrc, (unqueue_head _ _ _ _ _ _ Hlook).
    cbv beta iota zeta. cbn [default from_option id].
    destruct (IH b (record (EvSourceUnqueueBuffers src b)
                      (set_al (AL.with_source src (AL.Source st bs pending) (al s)) s)))
      as (s' & Hrun & Htrace & Hsources & Hbuffers & Herror & Hen & Hmusic & Hfiles).
    { exact Hsrc. }
    { cbn. apply lookup_insert_eq. }
    exists s'. split.
    { rewrite Hrun, last_cons. destruct (last bs); reflexivity. }
    split.
    { rewrite Htrace. cbn. rewrite <- app_assoc. reflexivity. }
    split.
    { rewrite Hsources. cbn. apply insert_insert_eq. }
    repeat split; assumption.
Qed.

(** C4.  While music is enabled, [StopMusicStream] stops the source,
    unqueues every buffer still queued on it (the library reports
    [length queue] of them, and each unqueue call hands one back),
    deletes the source and the two buffers, closes the decoder and clears
    the flag; the two names stop being buffers when no other source
    holds them.  When music is not enabled the call changes nothing, so
    a second consecutive call releases nothing. *)
Theorem StopMusicStream_releases (s : State V) :
  (forall (v : V) (state : Z) (processed pending : list ALuint),
     musicEnabled s = true ->
     stream (currentMusic s) = Some v ->
     AL.sources (al s) !! source (currentMusic s)
     = Some (AL.Source state processed pending) ->
     state <> AL.AL_INITIAL ->
     let src := source (currentMusic s) in
     let bufs := buffers (currentMusic s) in
     let queue := processed ++ pending in
     exists s',
       StopMusicStream s = Ok (tt, s')
       /\ trace s'
          = trace s
            ++ [EvSourceStop src;
                EvGetSourcei src AL_BUFFERS_QUEUED (Z.of_nat (length queue))]
            ++ (EvSourceUnqueueBuffers src <$> queue)
            ++ [EvDeleteSources [src]; EvDeleteBuffers [bufs.1; bufs.2];
                EvVorbisClose]
       /\ AL.sources (al s') !! src = None
       /\ (is_Some (AL.buffers (al s) !! bufs.1) ->
           is_Some (AL.buffers (al s) !! bufs.2) ->
           (forall k other, k <> src -> AL.sources (al s) !! k = Some other ->
                            (bufs.1 ∉ AL.queue other) /\ (bufs.2 ∉ AL.queue other)) ->
           AL.buffers (al s') !! bufs.1 = None
           /\ AL.buffers (al s') !! bufs.2 = None)
       /\ musicEnabled s' = false)
  /\ (musicEnabled s = false -> StopMusicStream s = Ok (tt, s))
  /\ (forall s', StopMusicStream s = Ok (tt, s') -> StopMusicStream s' = Ok (tt, s')).
Proof.
  assert (forall t : State V, musicEnabled t = false -> StopMusicStream t = Ok (tt, t))
    as Hidle.
  { intros t Ht. unfold StopMusicStream.
    cbv beta iota delta [mbind M_bind gets when modify mret M_ret].
    rewrite Ht. destruct t. cbn in *. subst. reflexivity. }
  split; [|split; [apply Hidle|]].
  - intros v state processed pending Hen Hstream Hlook Hstate src bufs queue.
    unfold StopMusicStream.
    cbv beta iota delta [mbind M_bind gets when].
    rewrite Hen.
    cbv beta iota delta [mbind M_bind music gets modify alSourceStop EmptyMusicStream
                          alGetSourcei alDeleteSources alDeleteBuffers mret M_ret].
    cbn [al set_al record currentMusic].
    fold src. fold bufs.
    assert (AL.alSourceStop src (al s)
            = AL.with_source src (AL.Source AL.AL_STOPPED queue []) (al s)) as ->.
    { unfold AL.alSourceStop. fold src in Hlook. rewrite Hlook. cbn.
      destruct (Z.eqb_spec state AL.AL_INITIAL); [contradiction | reflexivity]. }
    assert (AL.alGetSourcei src AL_BUFFERS_QUEUED
              (AL.with_source src (AL.Source AL.AL_STOPPED queue []) (al s))
            = (Some (Z.of_nat (length queue)),
               AL.with_source src (AL.Source AL.AL_STOPPED queue []) (al s))) as ->.
    { unfold AL.alGetSourcei. cbn. rewrite lookup_insert_eq.
      unfold AL.queue. cbn. rewrite app_nil_r. reflexivity. }
    cbv beta iota zeta. cbn [default from_option id]. rewrite Nat2Z.id.
    match goal with
    | |- context [unqueue_loop _ ?b ?s0] =>
        destruct (unqueue_loop_drains src AL.AL_STOPPED [] queue b s0)
          as (s1 & -> & Htrace & Hsources & Hbuffers & Herror & _ & Hmusic & Hfiles)
    end.
    { reflexivity. }
    { cbn. apply lookup_insert_eq. }
    cbn in Htrace, Hsources, Hbuffers, Hmusic.
    rewrite insert_insert_eq in Hsources.
    rewrite !Hmusic. fold src. fold bufs. rewrite Hstream.
    cbn [stb_vorbis_close modify].
    eexists. split; [reflexivity|].
    assert (AL.sources (AL.alDeleteSources [src] (al s1))
            = delete src (AL.sources (al s))) as Hgone.
    { unfold AL.alDeleteSources. cbn [forallb]. rewrite Hsources.
      rewrite lookup_insert_eq. cbn. apply delete_insert_eq. }
    assert (AL.buffers (AL.alDeleteSources [src] (al s1)) = AL.buffers (al s)) as Hkept.
    { unfold AL.alDeleteSources. cbn [forallb]. rewrite Hsources.
      rewrite lookup_insert_eq. cbn. exact Hbuffers. }
    cbn [trace al musicEnabled set_musicEnabled record set_al].
    split; [|split; [|split; [|reflexivity]]].
    + rewrite Htrace. rewrite <- !app_assoc. reflexivity.
    + assert (AL.sources (AL.alDeleteBuffers [bufs.1; bufs.2]
                            (AL.alDeleteSources [src] (al s1)))
              = delete src (AL.sources (al s))) as ->.
      { rewrite <- Hgone. unfold AL.alDeleteBuffers.
        destruct (forallb _ _); [destruct (existsb _ _)|]; reflexivity. }
      apply lookup_delete_eq.
    + intros Hb0 Hb1 Hfree.
      rewrite delete_unused_buffers.
      * rewrite Hkept. split; [apply lookup_delete_eq|].
        destruct (decide (bufs.1 = bufs.2)) as [->|Hne];
          [apply lookup_delete_eq|].
        rewrite lookup_delete_ne by exact Hne. apply lookup_delete_eq.
      * rewrite Hkept. exact Hb0.
      * rewrite Hkept. exact Hb1.
      * intros k other Hk. rewrite Hgone in Hk.
        apply lookup_delete_Some in Hk as [Hne Hk].
        exact (Hfree k other (not_eq_sym Hne) Hk).
  - intros s' Hrun.
    destruct (StopMusicStream_ok s) as (s'' & Hrun' & Hoff & _).
    rewrite Hrun in Hrun'. injection Hrun' as <-.
    apply Hidle. exact Hoff.
Qed.

End StopMusicStreamProperties.

(** ** UpdateMusicStream *)

Section UpdateMusicStreamProperties.

Context {V : Type} `{StbVorbis V}.

Lemma get_source_state (src : ALuint) (st : Z) (bs pending : list ALuint)
    (c : AL.context) :
  AL.sources c !! src = Some (AL.Source st bs pending) ->
  AL.alGetSourcei src AL_SOURCE_STATE c = (Some st, c)
  /\ AL.alGetSourcei src AL_BUFFERS_PROCESSED c = (Some (Z.of_nat (length bs)), c).
Proof.
  intros Hlook. unfold AL.alGetSourcei. rewrite Hlook. split; reflexivity.
Qed.

(** The whole call on a running stream. *)
Lemma UpdateMusicStream_run (Hroom : stores_within_room) src st bs nchan looping
    (v : V) (s : State V) (state : Z) :
  1 <= nchan ->
  streaming src st bs nchan looping v s ->
  exists (flags : list bool) (s1 : State V) (v1 : V),
    refill_all src bs
      (record (EvGetSourcei src AL_BUFFERS_PROCESSED (Z.of_nat (length bs))) s)
      flags s1
    /\ length flags = length bs
    /\ streaming src st [] nchan looping v1 s1
    /\ UpdateMusicStream state s
       = if default true (last flags)
         then Ok (tt, kept_playing src st s1)
         else StopMusicStream (record (EvGetSourcei src AL_SOURCE_STATE st) s1).
Proof.
  intros Hchan Hs.
  pose proof Hs as (Hen & Hstream & Hnchan & Hloop & Hsrc & pending & Hlook).
  set (s0 := record (EvGetSourcei src AL_BUFFERS_PROCESSED (Z.of_nat (length bs))) s).
  assert (streaming src st bs nchan looping v s0) as Hs0.
  { repeat split; try assumption. exists pending. exact Hlook. }
  destruct (refill_loop_spec Hroom src st nchan looping Hchan bs s0 v 0%N true Hs0)
    as (flags & s1 & v1 & Hall & Hlen & Hrun & Hs1).
  exists flags, s1, v1.
  split; [exact Hall | split; [exact Hlen | split; [exact Hs1|]]].
  pose proof Hs1 as (Hen1 & Hstream1 & Hnchan1 & Hloop1 & Hsrc1 & pending1 & Hlook1).
  unfold UpdateMusicStream.
  cbv beta iota delta [mbind M_bind gets when]. rewrite Hen.
  cbv beta iota delta [mbind M_bind music gets alGetSourcei].
  rewrite Hsrc.
  destruct (get_source_state _ _ _ _ _ Hlook) as [_ ->].
  cbv beta iota zeta. cbn [default from_option id]. rewrite Nat2Z.id.
  change (record (EvGetSourcei src AL_BUFFERS_PROCESSED (Z.of_nat (length bs)))
            (set_al (al s) s)) with s0.
  rewrite Hrun. rewrite Hsrc1.
  destruct (get_source_state _ _ _ _ _ Hlook1) as [-> _].
  cbv beta iota zeta. cbn [default from_option id].
  unfold kept_playing.
  change (record (EvGetSourcei src AL_SOURCE_STATE st) (set_al (al s1) s1))
    with (record (EvGetSourcei src AL_SOURCE_STATE st) s1).
  destruct (default true (last flags)); destruct (st =? AL.AL_PLAYING);
    cbn [negb andb]; cbv beta iota delta [mret M_ret when mbind M_bind music gets
                                           alSourcePlay modify].
  - reflexivity.
  - cbn [currentMusic record]. rewrite Hsrc1. reflexivity.
  - destruct (StopMusicStream _) as [[[] ?]|]; reflexivity.
  - destruct (StopMusicStream _) as [[[] ?]|]; reflexivity.
Qed.

Lemma kept_playing_plays src st nchan looping (v : V) s1 :
  streaming src st [] nchan looping v s1 ->
  musicEnabled (kept_playing src st s1) = true
  /\ source_playing src (kept_playing src st s1)
  /\ loop (currentMusic (kept_playing src st s1)) = looping
  /\ (st <> AL.AL_PLAYING ->
      trace (kept_playing src st s1)
      = trace s1 ++ [EvGetSourcei src AL_SOURCE_STATE st; EvSourcePlay src]).
Proof.
  intros (Hen & Hstream & Hnchan & Hloop & Hsrc & pending & Hlook).
  unfold kept_playing, source_playing.
  destruct (Z.eqb_spec st AL.AL_PLAYING) as [->|Hne].
  - cbn. repeat split; try assumption; [|contradiction].
    exists [], pending. exact Hlook.
  - cbn. repeat split; try assumption.
    + unfold AL.alSourcePlay. rewrite Hlook. cbn.
      destruct (st =? AL.AL_PAUSED); cbn; eexists _, _; apply lookup_insert_eq.
    + intros _. rewrite <- app_assoc. reflexivity.
Qed.

(** C3, amended.  A call made while music is enabled either stops the
    music stream, which it does exactly when the refill of the last
    processed buffer left no decoded data (also after the rewind, when
    the stream loops), or leaves the source playing: when the source is
    found not playing and the stream is still active, the call ends by
    restarting playback.  A looping stream that yields samples from its
    start is always left active. *)
Theorem UpdateMusicStream_keeps_source_playing
    (Hroom : stores_within_room)
    (s : State V) (state : Z) (v : V) (st : Z) (processed pending : list ALuint) :
  musicEnabled s = true ->
  stream (currentMusic s) = Some v ->
  1 <= channels (currentMusic s) ->
  AL.sources (al s) !! source (currentMusic s) = Some (AL.Source st processed pending) ->
  let src := source (currentMusic s) in
  exists (flags : list bool) (s1 s' : State V),
    refill_all src processed
      (record (EvGetSourcei src AL_BUFFERS_PROCESSED (Z.of_nat (length processed))) s)
      flags s1
    /\ UpdateMusicStream state s = Ok (tt, s')
    /\ musicEnabled s' = default true (last flags)
    /\ (if default true (last flags) then s' = kept_playing src st s1
        else StopMusicStream (record (EvGetSourcei src AL_SOURCE_STATE st) s1)
             = Ok (tt, s'))
    /\ (musicEnabled s' = true ->
        source_playing src s'
        /\ (st <> AL.AL_PLAYING ->
            trace s'
            = trace s1 ++ [EvGetSourcei src AL_SOURCE_STATE st; EvSourcePlay src]))
    /\ (rewinds_to_start ->
        loop (currentMusic s) = true ->
        0 < read_count (stb_vorbis_seek_start v) (channels (currentMusic s))
                       MUSIC_BUFFER_SIZE ->
        musicEnabled s' = true).
Proof.
  intros Hen Hstream Hchan Hlook src.
  assert (streaming src st processed (channels (currentMusic s))
                    (loop (currentMusic s)) v s) as Hs.
  { repeat split; try assumption. exists pending. exact Hlook. }
  destruct (UpdateMusicStream_run Hroom _ _ _ _ _ _ _ state Hchan Hs)
    as (flags & s1 & v1 & Hall & Hlen & Hs1 & Hrun).
  destruct (kept_playing_plays _ _ _ _ _ _ Hs1) as (Hon & Hplaying & _ & Htrace).
  assert (exists s', UpdateMusicStream state s = Ok (tt, s')
                     /\ musicEnabled s' = default true (last flags)
                     /\ (default true (last flags) = true ->
                         s' = kept_playing src st s1)
                     /\ (if default true (last flags)
                         then s' = kept_playing src st s1
                         else StopMusicStream
                                (record (EvGetSourcei src AL_SOURCE_STATE st) s1)
                              = Ok (tt, s')))
    as (s' & Hrun' & Hflag & Hkept & Htie).
  { rewrite Hrun. destruct (default true (last flags)).
    - eexists. split; [reflexivity|]. split; [exact Hon|].
      split; reflexivity.
    - destruct (StopMusicStream_ok
                  (record (EvGetSourcei src AL_SOURCE_STATE st) s1))
        as (s' & Hstop & Hoff & _).
      exists s'. split; [exact Hstop|]. split; [exact Hoff|].
      split; [discriminate | exact Hstop]. }
  exists flags, s1, s'.
  split; [exact Hall | split; [exact Hrun' | split; [exact Hflag |
    split; [exact Htie | split]]]].
  - intros Hstill. rewrite Hflag in Hstill. rewrite (Hkept Hstill).
    split; assumption.
  - intros Hrw Hloops Hdata. rewrite Hflag.
    rewrite Hloops in Hs.
    assert (streaming src st processed (channels (currentMusic s)) true v
              (record (EvGetSourcei src AL_BUFFERS_PROCESSED
                                    (Z.of_nat (length processed))) s)) as Hs0.
    { destruct Hs as (? & ? & ? & ? & ? & ?). repeat split; assumption. }
    pose proof (refill_all_loops Hroom Hrw _ _ _ _ _ _ _ Hchan Hall _ _ Hs0 Hdata)
      as Htrue.
    destruct (last flags) as [a|] eqn:Hlast; [|reflexivity].
    cbn. apply last_Some_elem_of in Hlast.
    rewrite Forall_forall in Htrue. symmetry. apply Htrue. exact Hlast.
Qed.


End UpdateMusicStreamProperties.

(** ** The reference decoder meets the contract *)

Lemma RawPcm_stores_within_room : @stores_within_room RawPcm.decoder RawPcm.vorbis.
Proof.
  intros d nchan room Hchan Hroom.
  unfold read_count, read_samples. cbn [stb_vorbis_get_samples_short_interleaved
    RawPcm.vorbis RawPcm.get_samples fst snd].
  set (k := Z.max 0 (Z.min (room `quot` nchan) (RawPcm.frames d - RawPcm.d_pos d))).
  assert (0 <= room `quot` nchan) as Hq by (apply Z.quot_pos; lia).
  assert (nchan * (room `quot` nchan) <= room) as Hmul
    by (apply Z.mul_quot_le; lia).
  assert (0 <= k <= room `quot` nchan) as Hk by (unfold k; lia).
  split; [lia|]. split; [|nia].
  rewrite length_take, length_app, length_replicate. nia.
Qed.

Lemma RawPcm_end_is_final : @end_is_final RawPcm.decoder RawPcm.vorbis.
Proof.
  intros d nchan. unfold read_count, read_next.
  cbn [stb_vorbis_get_samples_short_interleaved RawPcm.vorbis RawPcm.get_samples
       fst snd].
  unfold RawPcm.frames. cbn [RawPcm.d_samples RawPcm.d_channels RawPcm.d_pos]. lia.
Qed.


Section PcmBounds.

Context {V : Type} `{StbVorbis V}.

(** C8.  For a stream of 1 or 2 channels, read through a decoder that
    stores no more shorts than the room it is offered, the decode loop of
    [BufferMusicStream] ends, every store falls inside [pcm] (the loop
    does not fault), and what it leaves is [written] shorts stored from
    the start of the array and the rest of the [MUSIC_BUFFER_SIZE] cells
    untouched: the shorts written, accumulated over the loop, are the
    final [size], at most [MUSIC_BUFFER_SIZE].  The call then returns. *)
Theorem BufferMusicStream_writes_within_pcm (Hroom : stores_within_room)
    (s : State V) (buffer : ALuint) (v : V) :
  musicEnabled s = true ->
  stream (currentMusic s) = Some v ->
  channels (currentMusic s) = 1 \/ channels (currentMusic s) = 2 ->
  exists (written : list Z) (v' : V),
    decode_loop decode_fuel v (channels (currentMusic s)) pcm_uninit 0
    = Ok (Z.of_nat (length written), pcm_after written, v')
    /\ Z.of_nat (length written) <= MUSIC_BUFFER_SIZE
    /\ Z.of_nat (length (pcm_after written)) = MUSIC_BUFFER_SIZE
    /\ BufferMusicStream buffer s
       = Ok (0 <? Z.of_nat (length written),
             buffered buffer (Z.of_nat (length written)) (pcm_after written) v' s).
Proof.
  intros Hen Hstream Hchan.
  destruct (BufferMusicStream_total Hroom buffer s v Hen Hstream)
    as (written & v' & Hrun & Hbound & Hcall & _); [lia|].
  exists written, v'.
  split; [exact Hrun | split; [exact Hbound | split; [|exact Hcall]]].
  unfold pcm_after. rewrite length_app, length_fmap, length_replicate.
  unfold MUSIC_BUFFER_SIZE in *. lia.
Qed.

End PcmBounds.

(** The decode loop on the stereo stream [duet], read from its start:
    the three frames are stored as six shorts. *)
Lemma duet_decoded :
  match decode_loop decode_fuel (stb_vorbis_seek_start Samples.duet_read) 2
                    pcm_uninit 0 with
  | Ok (size, _, v') => (size, v')
  | Fault _ => (0, Samples.duet_read)
  end = (6, Samples.duet_read).
Proof. vm_compute. reflexivity. Qed.

Lemma BufferMusicStream_writes_within_pcm_witness :
  musicEnabled Samples.duet_replayed = true
  /\ stream (currentMusic Samples.duet_replayed)
     = Some (stb_vorbis_seek_start Samples.duet_read)
  /\ channels (currentMusic Samples.duet_replayed) = 2
  /\ exists (written : list Z) (v' : RawPcm.decoder),
       decode_loop decode_fuel (stb_vorbis_seek_start Samples.duet_read) 2 pcm_uninit 0
       = Ok (Z.of_nat (length written), pcm_after written, v')
       /\ Z.of_nat (length written) = 6
       /\ Z.of_nat (length written) <= MUSIC_BUFFER_SIZE
       /\ BufferMusicStream 1 Samples.duet_replayed
          = Ok (true, buffered 1 6 (pcm_after written) v' Samples.duet_replayed).
Proof.
  assert (musicEnabled Samples.duet_replayed = true) as Hen by reflexivity.
  assert (stream (currentMusic Samples.duet_replayed)
          = Some (stb_vorbis_seek_start Samples.duet_read)) as Hstream
    by (vm_compute; reflexivity).
  assert (channels (currentMusic Samples.duet_replayed) = 2) as Hchan by reflexivity.
  repeat (split; [assumption|]).
  destruct (BufferMusicStream_writes_within_pcm RawPcm_stores_within_room
              Samples.duet_replayed 1%N (stb_vorbis_seek_start Samples.duet_read)
              Hen Hstream (or_intror Hchan))
    as (written & v' & Hrun & Hbound & _ & Hcall).
  change (channels (currentMusic Samples.duet_replayed)) with 2 in Hrun.
  assert (Z.of_nat (length written) = 6) as Hlen.
  { pose proof duet_decoded as Hsize. rewrite Hrun in Hsize.
    injection Hsize as Hsize _. exact Hsize. }
  exists written, v'.
  split; [exact Hrun | split; [exact Hlen | split; [exact Hbound|]]].
  rewrite Hlen in Hcall. exact Hcall.
Defined.

(** ** Runs on the reference decoder *)

Lemma started_by_PlayMusicStream :
  PlayMusicStream "tune.ogg" RawPcm.boot = Ok (tt, RawPcm.started).
Proof. vm_compute. reflexivity. Qed.

(** C2, as stated, fails on a stream shorter than one buffer: the five
    samples of [tune] all go to the first buffer, and the second one is
    queued without ever being given data. *)
Lemma PlayMusicStream_second_buffer_unfilled :
  GetExtension "tune.ogg" = "ogg"%string
  /\ PlayMusicStream "tune.ogg" RawPcm.boot = Ok (tt, RawPcm.started)
  /\ musicEnabled RawPcm.started = true
  /\ buffers (currentMusic RawPcm.started) = (1%N, 2%N)
  /\ AL.sources (al RawPcm.started) !! 1%N
     = Some (AL.Source AL.AL_PLAYING [] [1%N; 2%N])
  /\ ~ holds_decoded_data 2%N RawPcm.started.
Proof.
  split; [reflexivity|]. split; [exact started_by_PlayMusicStream|].
  split; [reflexivity|]. split; [reflexivity|]. split; [reflexivity|].
  intros (buf & Hlook & Hdata).
  vm_compute in Hlook. injection Hlook as <-.
  apply Hdata. reflexivity.
Qed.


(** C3, as stated, fails on the same stream: music is enabled and the
    stream loops, the source is found stopped with both buffers
    processed, and the call returns with the music source deleted, not
    playing. *)
Lemma UpdateMusicStream_leaves_empty_looping_stream_silent :
  musicEnabled RawPcm.silent = true
  /\ loop (currentMusic RawPcm.silent) = true
  /\ AL.sources (al RawPcm.silent) !! source (currentMusic RawPcm.silent)
     = Some (AL.Source AL.AL_STOPPED [1%N; 2%N] [])
  /\ exists s',
       UpdateMusicStream 0 RawPcm.silent = Ok (tt, s')
       /\ AL.sources (al s') !! source (currentMusic RawPcm.silent) = None
       /\ ~ source_playing (source (currentMusic RawPcm.silent)) s'.
Proof.
  split; [reflexivity|]. split; [reflexivity|]. split; [reflexivity|].
  eexists. split; [vm_compute; reflexivity|].
  split; [reflexivity|].
  intros (processed & pending & Hlook). vm_compute in Hlook. discriminate Hlook.
Qed.

(** C10.  After [PlayMusicStream] on the five-sample stream [tune], five
    shorts have been handed to the first buffer, yet the counter holds the
    full length of the stream, 5, where the claim requires 5 - 5 = 0; and
    [GetMusicTimePlayed] works from 0 samples played. *)
Theorem PlayMusicStream_counter_misses_first_buffers :
  PlayMusicStream "tune.ogg" RawPcm.boot = Ok (tt, RawPcm.started)
  /\ stream (currentMusic RawPcm.started) = Some RawPcm.tune_read
  /\ total_samples RawPcm.tune_read (channels (currentMusic RawPcm.started)) = 5
  /\ shorts_buffered (trace RawPcm.started) = 5
  /\ totalSamplesLeft (currentMusic RawPcm.started) = 5
  /\ samplesPlayed RawPcm.started = Ok (0, RawPcm.started).
Proof.
  split; [exact started_by_PlayMusicStream|].
  repeat split; vm_compute; reflexivity.
Qed.

(** C5.  [LoadSound] on the name of an .ogg file that does not exist:
    [LoadOGG] hands the null handle to the decoder, and the call faults
    before any message is logged. *)
Theorem LoadSound_missing_ogg_faults :
  files RawPcm.boot !! "missing.ogg"%string = None
  /\ GetExtension "missing.ogg" = "ogg"%string
  /\ LoadSound RawPcm.junk "missing.ogg" RawPcm.boot = Fault NullDereference.
Proof.
  repeat split; vm_compute; reflexivity.
Qed.

(** C6.  A file whose identifier is "rXXX": three of the four bytes
    differ from the magic, yet the file is not reported as invalid; the
    record count is read and the record scanned (the file ends up at
    offset 22, past the record), and the only message is that the
    resource was not found. *)
Theorem LoadSoundFromRES_accepts_wrong_identifier :
  take 4 RawPcm.mislabelled = ["r"; "X"; "X"; "X"]%byte
  /\ LoadSoundFromRES_scan RawPcm.junk "mislabelled.rres" 9 RawPcm.boot
     = Ok ((ind_sound RawPcm.junk, Some (MkFILE RawPcm.mislabelled 22)),
           record (EvTraceLog WARNING "[%s] Required resource id [%i] could not be found in the raylib resource file")
                  RawPcm.boot).
Proof.
  split; vm_compute; reflexivity.
Qed.

(** ** PlayMusicStream *)

Section PlayMusicStreamProperties.

Context {V : Type} `{StbVorbis V} `{Utils}.

Lemma take_pcm_after (written : list Z) :
  take (length written) (pcm_after written) = Some <$> written.
Proof.
  unfold pcm_after. apply take_app_length'. rewrite length_fmap. reflexivity.
Qed.

Lemma gen_one_source (c : AL.context) :
  AL.alGenSources 1 c
  = ([AL.next_source c],
     AL.MkContext (<[AL.next_source c := AL.new_source]> (AL.sources c))
                  (AL.buffers c) (AL.error c)).
Proof. reflexivity. Qed.

Lemma gen_two_buffers (c : AL.context) :
  AL.alGenBuffers 2 c
  = ([(AL.next_buffers c).1; (AL.next_buffers c).2],
     AL.MkContext (AL.sources c)
       (<[(AL.next_buffers c).1 := AL.new_buffer]>
          (<[(AL.next_buffers c).2 := AL.new_buffer]> (AL.buffers c)))
       (AL.error c)).
Proof. reflexivity. Qed.

Lemma check_source_valid (src : ALuint) (c : AL.context) :
  is_Some (AL.sources c !! src) -> check_source src c = c.
Proof.
  intros [x Hx]. unfold check_source. rewrite Hx. reflexivity.
Qed.

(** The state after a call of [BufferMusicStream], field by field. *)
Lemma buffered_fields (b : ALuint) (chunk : list Z) (v' : V) (s : State V) :
  buffered b (Z.of_nat (length chunk)) (pcm_after chunk) v' s
  = MkState (musicEnabled s)
      (MkMusic (Some v') (buffers (currentMusic s)) (source (currentMusic s))
         (format (currentMusic s)) (channels (currentMusic s))
         (sampleRate (currentMusic s))
         (match chunk with
          | [] => totalSamplesLeft (currentMusic s)
          | _ => int32 (totalSamplesLeft (currentMusic s) - Z.of_nat (length chunk))
          end)
         (loop (currentMusic s)))
      (match chunk with
       | [] => al s
       | _ => AL.alBufferData b (format (currentMusic s)) (Some <$> chunk)
                (Z.of_nat (length chunk) * 2) (sampleRate (currentMusic s)) (al s)
       end)
      (files s)
      (trace s ++ fill_events b (format (currentMusic s))
                    (sampleRate (currentMusic s)) chunk).
Proof.
  unfold buffered. rewrite Nat2Z.id, take_pcm_after.
  destruct chunk as [|x chunk].
  - change (0 <? Z.of_nat (length [])) with false. cbv iota.
    destruct s as [en m c fs tr]. destruct m. norm_state. unfold fill_events.
    rewrite <- app_assoc. reflexivity.
  - change (0 <? Z.of_nat (length (x :: chunk))) with true. cbv iota.
    destruct s as [en m c fs tr]. destruct m. norm_state. unfold fill_events.
    rewrite <- app_assoc. reflexivity.
Qed.

Lemma next_names_fresh (c : AL.context) :
  AL.sources c !! AL.next_source c = None
  /\ AL.buffers c !! (AL.next_buffers c).1 = None
  /\ AL.buffers c !! (AL.next_buffers c).2 = None
  /\ (AL.next_buffers c).1 <> (AL.next_buffers c).2.
Proof.
  unfold AL.next_source, AL.next_buffers. cbn [fst snd].
  set (X := {[0%N]} ∪ dom (AL.buffers c)).
  pose proof (is_fresh ({[0%N]} ∪ dom (AL.sources c))) as Hsrc.
  pose proof (is_fresh X) as Hb0.
  pose proof (is_fresh ({[fresh X]} ∪ X)) as Hb1.
  repeat split.
  - apply not_elem_of_dom. set_solver.
  - apply not_elem_of_dom. set_solver.
  - apply not_elem_of_dom. set_solver.
  - set_solver.
Qed.

Lemma upload_valid (b : ALuint) (fmt rate bytes : Z) (pcm : list (option Z))
    (c : AL.context) :
  is_Some (AL.buffers c !! b) ->
  AL.alBufferData b fmt pcm bytes rate c
  = AL.MkContext (AL.sources c) (<[b := AL.Buffer fmt pcm bytes rate]> (AL.buffers c))
                 (AL.error c).
Proof.
  intros [x Hx]. unfold AL.alBufferData. rewrite Hx. reflexivity.
Qed.

(** The library's state once the two new buffers have received their
    chunks. *)
Lemma uploads (c : AL.context) (src b0 b1 : ALuint) (fmt rate : Z)
    (chunk0 chunk1 : list Z) :
  b0 <> b1 ->
  let c1 := AL.MkContext (<[src := AL.new_source]> (AL.sources c))
              (<[b0 := AL.new_buffer]> (<[b1 := AL.new_buffer]> (AL.buffers c)))
              (AL.error c) in
  let c2 := match chunk0 with
            | [] => c1
            | _ => AL.alBufferData b0 fmt (Some <$> chunk0)
                     (Z.of_nat (length chunk0) * 2) rate c1
            end in
  let c3 := match chunk1 with
            | [] => c2
            | _ => AL.alBufferData b1 fmt (Some <$> chunk1)
                     (Z.of_nat (length chunk1) * 2) rate c2
            end in
  AL.sources c3 = <[src := AL.new_source]> (AL.sources c)
  /\ AL.buffers c3 !! b0 = Some (uploaded fmt rate chunk0)
  /\ AL.buffers c3 !! b1 = Some (uploaded fmt rate chunk1).
Proof.
  intros Hne c1 c2 c3.
  assert (AL.sources c2 = <[src := AL.new_source]> (AL.sources c)
          /\ AL.buffers c2 !! b0 = Some (uploaded fmt rate chunk0)
          /\ AL.buffers c2 !! b1 = Some AL.new_buffer) as (Hs2 & Hb0 & Hb1).
  { subst c2. destruct chunk0 as [|x chunk0].
    - subst c1. cbn [AL.sources AL.buffers uploaded].
      rewrite lookup_insert_eq, lookup_insert_ne, lookup_insert_eq by exact Hne.
      repeat split.
    - rewrite upload_valid
        by (subst c1; cbn [AL.buffers]; rewrite lookup_insert_eq; eexists; reflexivity).
      subst c1. cbn [AL.sources AL.buffers uploaded].
      rewrite lookup_insert_eq, !lookup_insert_ne, lookup_insert_eq by exact Hne.
      repeat split. }
  subst c3. destruct chunk1 as [|x chunk1].
  - repeat split; assumption.
  - rewrite upload_valid by (rewrite Hb1; eexists; reflexivity).
    cbn [AL.sources AL.buffers uploaded].
    rewrite lookup_insert_eq, lookup_insert_ne by (apply not_eq_sym; exact Hne).
    repeat split; assumption.
Qed.

Lemma queue_and_play (c : AL.context) (src b0 b1 : ALuint) :
  AL.sources c !! src = Some AL.new_source ->
  is_Some (AL.buffers c !! b0) ->
  is_Some (AL.buffers c !! b1) ->
  let c' := AL.alSourcePlay src (AL.alSourceQueueBuffers src [b0; b1] c) in
  AL.sources c' !! src = Some (AL.Source AL.AL_PLAYING [] [b0; b1])
  /\ AL.buffers c' = AL.buffers c.
Proof.
  intros Hsrc H0' H1' c'. subst c'.
  unfold AL.alSourceQueueBuffers. rewrite Hsrc. cbn [forallb].
  rewrite !bool_decide_eq_true_2 by assumption. cbn [andb].
  unfold AL.alSourcePlay, AL.with_source. cbn [AL.sources].
  rewrite lookup_insert_eq. cbn.
  rewrite lookup_insert_eq. split; reflexivity.
Qed.

(** What [PlayMusicStream] does on a file whose extension is "ogg" and
    whose stream opens. *)
Lemma PlayMusicStream_run (Hroom : stores_within_room)
    (s : State V) (fileName : string) (bytes : list byte) (v : V) :
  GetExtension fileName = "ogg"%string ->
  files s !! fileName = Some bytes ->
  stb_vorbis_open bytes = Some v ->
  1 <= info_channels (stb_vorbis_get_info v) ->
  exists (s0 s' : State V) (chunk0 chunk1 : list Z) (v1 v2 : V),
    let nchan := info_channels (stb_vorbis_get_info v) in
    let rate := info_sample_rate (stb_vorbis_get_info v) in
    let fmt := if nchan =? 2 then AL.AL_FORMAT_STEREO16 else AL.AL_FORMAT_MONO16 in
    let src := AL.next_source (al s0) in
    let b0 := (AL.next_buffers (al s0)).1 in
    let b1 := (AL.next_buffers (al s0)).2 in
    StopMusicStream s = Ok (tt, s0)
    /\ PlayMusicStream fileName s = Ok (tt, s')
    /\ decode_loop decode_fuel v nchan pcm_uninit 0
       = Ok (Z.of_nat (length chunk0), pcm_after chunk0, v1)
    /\ decode_loop decode_fuel v1 nchan pcm_uninit 0
       = Ok (Z.of_nat (length chunk1), pcm_after chunk1, v2)
    /\ AL.sources (al s0) !! src = None
    /\ AL.buffers (al s0) !! b0 = None
    /\ AL.buffers (al s0) !! b1 = None
    /\ b0 <> b1
    /\ trace s'
       = trace s0
         ++ [EvVorbisOpen fileName true;
             EvTraceLog INFO "[%s] Ogg sample rate: %i";
             EvTraceLog INFO "[%s] Ogg channels: %i";
             EvTraceLog INFO "[%s] Temp memory required: %i";
             EvGenSources [src];
             EvSourcef src AL_PITCH 1; EvSourcef src AL_GAIN 1;
             EvSource3f src AL_POSITION 0 0 0; EvSource3f src AL_VELOCITY 0 0 0;
             EvGenBuffers [b0; b1]]
         ++ fill_events b0 fmt rate chunk0
         ++ fill_events b1 fmt rate chunk1
         ++ [EvSourceQueueBuffers src [b0; b1]; EvSourcePlay src]
    /\ musicEnabled s' = true
    /\ currentMusic s'
       = MkMusic (Some v2) (b0, b1) src fmt nchan rate (total_samples v2 nchan) true
    /\ AL.sources (al s') !! src = Some (AL.Source AL.AL_PLAYING [] [b0; b1])
    /\ AL.buffers (al s') !! b0 = Some (uploaded fmt rate chunk0)
    /\ AL.buffers (al s') !! b1 = Some (uploaded fmt rate chunk1).
Proof.
  intros Hext Hfile Hopen Hchan.
  destruct (StopMusicStream_ok s) as (s0 & Hstop & Hoff & Hmusic & Hfiles).
  set (nchan := info_channels (stb_vorbis_get_info v)) in *.
  destruct (decode_loop_total Hroom v nchan Hchan)
    as (chunk0 & v1 & Hrun0 & Hbound0 & _).
  destruct (decode_loop_total Hroom v1 nchan Hchan)
    as (chunk1 & v2 & Hrun1 & Hbound1 & _).
  destruct s0 as [en0 m0 al0 files0 tr0]. cbn in Hoff, Hmusic, Hfiles.
  clear Hmusic. destruct m0 as [p0 bufs0 src0 fmt0 ch0 rate0 left0 loop0].
  eexists. eexists. exists chunk0, chunk1, v1, v2.
  cbv zeta.
  split; [exact Hstop|].
  destruct (next_names_fresh al0) as (Hfsrc & Hfb0 & Hfb1 & Hne).
  cbn [al trace].
  match goal with |- ?A /\ ?B => assert (A /\ (A -> B)) as HAB; [|tauto] end.
  split.
  - unfold PlayMusicStream. rewrite Hext. cbn [String.eqb Ascii.eqb Bool.eqb].
    cbv beta iota delta [mbind M_bind]. rewrite Hstop.
    cbv beta iota delta [stb_vorbis_open_filename].
    cbn [files]. rewrite Hfiles, Hfile. cbn [mbind option_bind]. rewrite Hopen.
    clear Hfsrc Hfb0 Hfb1 Hne.
    cbv beta iota delta [mbind M_bind music gets assign modify TraceLog mret M_ret
                          alGenSources alGenBuffers alSourcef alSource3f].
    norm_state.
    rewrite gen_one_source.
    norm_state.
    rewrite !(check_source_valid _ (AL.MkContext _ _ _))
      by (cbn [AL.sources]; rewrite lookup_insert_eq; eexists; reflexivity).
    rewrite gen_two_buffers.
    change (AL.next_buffers
              (AL.MkContext (<[AL.next_source al0:=AL.new_source]> (AL.sources al0))
                 (AL.buffers al0) (AL.error al0)))
      with (AL.next_buffers al0).
    set (src := AL.next_source al0) in *.
    set (b0 := (AL.next_buffers al0).1) in *.
    set (b1 := (AL.next_buffers al0).2) in *.
    norm_state. cbn [AL.sources AL.buffers AL.error fst snd].
    match goal with
    | |- context [BufferMusicStream b0 ?sA] =>
        rewrite (BufferMusicStream_run b0 sA v v1 _ _ eq_refl eq_refl Hrun0 Hbound0)
    end.
    rewrite buffered_fields. norm_state. cbn [fst snd].
    match goal with
    | |- context [BufferMusicStream b1 ?sA] =>
        rewrite (BufferMusicStream_run b1 sA v1 v2 _ _ eq_refl eq_refl Hrun1 Hbound1)
    end.
    rewrite buffered_fields. norm_state. cbn [fst snd].
    cbv beta iota delta [alSourceQueueBuffers alSourcePlay modify deref mret M_ret].
    norm_state.
    reflexivity.
  - intros _.
    split; [exact Hrun0 | split; [exact Hrun1|]].
    split; [exact Hfsrc | split; [exact Hfb0 | split; [exact Hfb1 | split; [exact Hne|]]]].
    norm_state.
    split; [rewrite <- !app_assoc; reflexivity|].
    split; [reflexivity | split; [reflexivity|]].
    pose proof (uploads al0 (AL.next_source al0) _ _
                  (if nchan =? 2 then AL.AL_FORMAT_STEREO16 else AL.AL_FORMAT_MONO16)
                  (info_sample_rate (stb_vorbis_get_info v)) chunk0 chunk1 Hne)
      as (Hs3 & Hb0 & Hb1).
    cbv zeta in Hs3, Hb0, Hb1.
    match type of Hs3 with
    | AL.sources ?c = _ => set (c3 := c) in *
    end.
    destruct (queue_and_play c3 (AL.next_source al0)
                (AL.next_buffers al0).1 (AL.next_buffers al0).2)
      as [Hq Hkeep].
    { rewrite Hs3. apply lookup_insert_eq. }
    { rewrite Hb0. eexists. reflexivity. }
    { rewrite Hb1. eexists. reflexivity. }
    split; [exact Hq|].
    split.
    + exact (eq_trans (f_equal (fun m => m !! (AL.next_buffers al0).1) Hkeep) Hb0).
    + exact (eq_trans (f_equal (fun m => m !! (AL.next_buffers al0).2) Hkeep) Hb1).
Qed.

(** C2, amended.  On a file whose extension is "ogg" and whose stream
    opens, [PlayMusicStream] first runs [StopMusicStream]; it then
    creates one source and exactly two buffers (names the library did not
    know), hands each buffer to [BufferMusicStream] in turn, which gives
    it the next chunk of decoded samples when the decoder yields any and
    leaves it without data otherwise, queues both on the new source,
    starts playback, and sets the counter to the stream length in
    samples times the channels; the loop flag and the enabled flag are
    set. *)
Theorem PlayMusicStream_opens_stream (Hroom : stores_within_room)
    (s : State V) (fileName : string) (bytes : list byte) (v : V) :
  GetExtension fileName = "ogg"%string ->
  files s !! fileName = Some bytes ->
  stb_vorbis_open bytes = Some v ->
  1 <= info_channels (stb_vorbis_get_info v) ->
  exists (s0 s' : State V) (chunk0 chunk1 : list Z) (v1 v2 : V),
    let nchan := info_channels (stb_vorbis_get_info v) in
    let rate := info_sample_rate (stb_vorbis_get_info v) in
    let fmt := if nchan =? 2 then AL.AL_FORMAT_STEREO16 else AL.AL_FORMAT_MONO16 in
    let src := AL.next_source (al s0) in
    let b0 := (AL.next_buffers (al s0)).1 in
    let b1 := (AL.next_buffers (al s0)).2 in
    StopMusicStream s = Ok (tt, s0)
    /\ PlayMusicStream fileName s = Ok (tt, s')
    /\ decode_loop decode_fuel v nchan pcm_uninit 0
       = Ok (Z.of_nat (length chunk0), pcm_after chunk0, v1)
    /\ decode_loop decode_fuel v1 nchan pcm_uninit 0
       = Ok (Z.of_nat (length chunk1), pcm_after chunk1, v2)
    /\ AL.sources (al s0) !! src = None
    /\ AL.buffers (al s0) !! b0 = None
    /\ AL.buffers (al s0) !! b1 = None
    /\ b0 <> b1
    /\ trace s'
       = trace s0
         ++ [EvVorbisOpen fileName true;
             EvTraceLog INFO "[%s] Ogg sample rate: %i";
             EvTraceLog INFO "[%s] Ogg channels: %i";
             EvTraceLog INFO "[%s] Temp memory required: %i";
             EvGenSources [src];
             EvSourcef src AL_PITCH 1; EvSourcef src AL_GAIN 1;
             EvSource3f src AL_POSITION 0 0 0; EvSource3f src AL_VELOCITY 0 0 0;
             EvGenBuffers [b0; b1]]
         ++ fill_events b0 fmt rate chunk0
         ++ fill_events b1 fmt rate chunk1
         ++ [EvSourceQueueBuffers src [b0; b1]; EvSourcePlay src]
    /\ musicEnabled s' = true
    /\ currentMusic s'
       = MkMusic (Some v2) (b0, b1) src fmt nchan rate (total_samples v2 nchan) true
    /\ AL.sources (al s') !! src = Some (AL.Source AL.AL_PLAYING [] [b0; b1])
    /\ AL.buffers (al s') !! b0 = Some (uploaded fmt rate chunk0)
    /\ AL.buffers (al s') !! b1 = Some (uploaded fmt rate chunk1).
Proof. exact (PlayMusicStream_run Hroom s fileName bytes v). Qed.

End PlayMusicStreamProperties.

(** ** The refill told from the decoder *)

Section RefillTold.

Context {V : Type} `{StbVorbis V}.

Lemma uploads_of_app (evs1 evs2 : list event) (bufs : gmap N AL.buffer) :
  uploads_of (evs1 ++ evs2) bufs = uploads_of evs2 (uploads_of evs1 bufs).
Proof. unfold uploads_of. apply foldl_app. Qed.

Lemma uploads_of_known (b : ALuint) (evs : list event) :
  forall bufs : gmap N AL.buffer,
    is_Some (bufs !! b) -> is_Some (uploads_of evs bufs !! b).
Proof.
  induction evs as [|e evs IH]; intros bufs Hb; [exact Hb|].
  cbn [uploads_of foldl]. apply IH.
  destruct e; try exact Hb.
  apply lookup_insert_is_Some'. right. exact Hb.
Qed.

Lemma uploads_of_fill (b : ALuint) (fmt rate : Z) (chunk : list Z)
    (bufs : gmap N AL.buffer) :
  uploads_of (fill_events b fmt rate chunk) bufs
  = match chunk with
    | [] => bufs
    | _ => <[b := AL.Buffer fmt (Some <$> chunk) (Z.of_nat (length chunk) * 2) rate]> bufs
    end.
Proof. destruct chunk; reflexivity. Qed.

Lemma uploads_of_requeue (src b : ALuint) (err : Z) (bufs : gmap N AL.buffer) :
  uploads_of (requeue_events src b err) bufs = bufs.
Proof. unfold requeue_events. destruct (err =? AL.AL_NO_ERROR); reflexivity. Qed.

(** Two stretches of a refill make one. *)
Lemma refilled_state_twice (src : ALuint) (e1 e2 : AL.source) (err1 err2 : Z)
    (evs1 evs2 : list event) (v1 v2 : V) (l1 l2 : Z) (s : State V) :
  refilled_state src e2 err2 evs2 v2 l2 (refilled_state src e1 err1 evs1 v1 l1 s)
  = refilled_state src e2 err2 (evs1 ++ evs2) v2 l2 s.
Proof.
  unfold refilled_state. destruct s as [en m c fs tr]. destruct m.
  norm_state. cbn [AL.sources AL.buffers AL.error].
  rewrite insert_insert_eq, uploads_of_app, app_assoc. reflexivity.
Qed.

Lemma refilled_state_refilling (src : ALuint) (e e' : AL.source) (err err' : Z)
    (evs : list event) (v v' : V) (l l' : Z) (s : State V) :
  refilling src e v l err s ->
  refilling src e' v' l' err' (refilled_state src e' err' evs v' l' s).
Proof.
  intros (Hen & _ & _ & Hsrc & _ & _).
  unfold refilling, refilled_state. cbn.
  repeat split; try assumption. apply lookup_insert_eq.
Qed.

(** A step that leaves the decoder, the counter and the source alone. *)
Lemma refilled_state_same (src : ALuint) (e : AL.source) (v : V) (l err : Z)
    (s : State V) :
  refilling src e v l err s ->
  refilled_state src e err [] v l s = s.
Proof.
  intros (_ & Hv & Hl & _ & Hlook & Herr).
  unfold refilled_state. destruct s as [en m c fs tr]. destruct m.
  destruct c as [srcs bufs err0]. cbn in *. subst.
  rewrite insert_id by exact Hlook. rewrite app_nil_r. reflexivity.
Qed.

Lemma known_told (src : ALuint) (e : AL.source) (err : Z) (evs : list event)
    (v1 : V) (l1 : Z) (s : State V) (b : ALuint) :
  is_Some (AL.buffers (al s) !! b) ->
  is_Some (AL.buffers (al (refilled_state src e err evs v1 l1 s)) !! b).
Proof. intros Hb. cbn. apply uploads_of_known. exact Hb. Qed.

Lemma unqueued_told (src : ALuint) (st : Z) (b : ALuint) (bs pending : list ALuint)
    (v : V) (l err : Z) (c : AL.context) (r : option ALuint) (s : State V) :
  refilling src (AL.Source st (b :: bs) pending) v l err s ->
  AL.alSourceUnqueueBuffers1 src (al s) = (r, c) ->
  r = Some b
  /\ record (EvSourceUnqueueBuffers src b) (set_al c s)
     = refilled_state src (AL.Source st bs pending) err
         [EvSourceUnqueueBuffers src b] v l s.
Proof.
  intros (_ & Hv & Hl & _ & Hlook & Herr) Hunq.
  unfold AL.alSourceUnqueueBuffers1 in Hunq. rewrite Hlook in Hunq.
  cbn in Hunq. injection Hunq as <- <-. split; [reflexivity|].
  unfold refilled_state, AL.with_source.
  destruct s as [en m c fs tr]. destruct m. destruct c as [srcs bufs err0].
  cbn in *. subst. reflexivity.
Qed.

Lemma queried_told (src : ALuint) (e : AL.source) (v : V) (l err : Z) (s : State V)
    (name : ALuint) (p : ALparam) (z : Z) :
  refilling src e v l err s ->
  record (EvGetSourcei name p z) s
  = refilled_state src e err [EvGetSourcei name p z] v l s.
Proof.
  intros (_ & Hv & Hl & _ & Hlook & Herr).
  unfold refilled_state.
  destruct s as [en m c fs tr]. destruct m. destruct c as [srcs bufs err0].
  cbn in *. subst. rewrite (insert_id srcs src e) by exact Hlook. reflexivity.
Qed.

Lemma buffered_told (src : ALuint) (e : AL.source) (b : ALuint) (chunk : list Z)
    (v v1 : V) (l err : Z) (s : State V) :
  refilling src e v l err s ->
  is_Some (AL.buffers (al s) !! b) ->
  buffered b (Z.of_nat (length chunk)) (pcm_after chunk) v1 s
  = refilled_state src e err
      (fill_events b (format (currentMusic s)) (sampleRate (currentMusic s)) chunk)
      v1 (counted l chunk) s.
Proof.
  intros (_ & Hv & Hl & _ & Hlook & Herr) [old Hold].
  rewrite buffered_fields. unfold refilled_state.
  rewrite uploads_of_fill.
  destruct s as [en m c fs tr]. destruct m. destruct c as [srcs bufs err0].
  cbn in *. subst.
  rewrite (insert_id srcs src e) by exact Hlook.
  destruct chunk as [|x chunk]; [reflexivity|].
  unfold AL.alBufferData. cbn [AL.buffers AL.sources AL.error]. rewrite Hold.
  reflexivity.
Qed.

Lemma rewound_told (src : ALuint) (e : AL.source) (v v1 : V) (l err : Z)
    (s : State V) :
  refilling src e v l err s ->
  rewound v1 s
  = refilled_state src e err [EvVorbisSeekStart] (stb_vorbis_seek_start v1)
      (total_samples (stb_vorbis_seek_start v1) (channels (currentMusic s))) s.
Proof.
  intros (_ & _ & _ & _ & Hlook & Herr).
  unfold rewound, refilled_state.
  destruct s as [en m c fs tr]. destruct m. destruct c as [srcs bufs err0].
  cbn in *. subst. rewrite (insert_id srcs src e) by exact Hlook. reflexivity.
Qed.

(** Queueing the buffer again reads the error flag and clears it. *)
Lemma requeued_told (src : ALuint) (st : Z) (b : ALuint) (bs pending : list ALuint)
    (v : V) (l err : Z) (s : State V) :
  refilling src (AL.Source st bs pending) v l err s ->
  is_Some (AL.buffers (al s) !! b) ->
  requeued src b s
  = refilled_state src (AL.Source st bs (pending ++ [b])) AL.AL_NO_ERROR
      (requeue_events src b err) v l s.
Proof.
  intros (_ & Hv & Hl & _ & Hlook & Herr) Hknown.
  unfold requeued, refilled_state. rewrite uploads_of_requeue.
  destruct s as [en m c fs tr]. destruct m. destruct c as [srcs bufs err0].
  cbn in *. subst.
  unfold AL.alSourceQueueBuffers. cbn [AL.sources AL.buffers AL.error].
  rewrite Hlook. cbn [forallb].
  rewrite bool_decide_eq_true_2 by exact Hknown. cbn.
  unfold requeue_events.
  destruct (err =? AL.AL_NO_ERROR); unfold AL.with_source; norm_state;
    cbn [AL.sources AL.buffers AL.error]; rewrite <- ?app_assoc; reflexivity.
Qed.

Lemma requeued_after (src : ALuint) (st : Z) (b : ALuint) (bs pending : list ALuint)
    (e0 : AL.source) (evs : list event) (v v1 : V) (l l1 err : Z) (s : State V) :
  refilling src e0 v l err s ->
  is_Some (AL.buffers (al s) !! b) ->
  requeued src b (refilled_state src (AL.Source st bs pending) err evs v1 l1 s)
  = refilled_state src (AL.Source st bs (pending ++ [b])) AL.AL_NO_ERROR
      (evs ++ requeue_events src b err) v1 l1 s.
Proof.
  intros Hs Hb.
  rewrite (requeued_told src st b bs pending v1 l1 err).
  - apply refilled_state_twice.
  - eapply refilled_state_refilling. exact Hs.
  - apply known_told. exact Hb.
Qed.

Lemma rewound_after (src : ALuint) (e e0 : AL.source) (evs : list event)
    (v v0 v1 : V) (l l0 err : Z) (s : State V) :
  refilling src e0 v l err s ->
  rewound v1 (refilled_state src e err evs v0 l0 s)
  = refilled_state src e err (evs ++ [EvVorbisSeekStart]) (stb_vorbis_seek_start v1)
      (total_samples (stb_vorbis_seek_start v1) (channels (currentMusic s))) s.
Proof.
  intros Hs.
  rewrite (rewound_told src e v0 v1 l0 err).
  - apply refilled_state_twice.
  - eapply refilled_state_refilling. exact Hs.
Qed.

Lemma BufferMusicStream_after (Hroom : stores_within_room) (src : ALuint)
    (e e0 : AL.source) (evs : list event) (v v0 : V) (l l0 err : Z) (s : State V)
    (b : ALuint) :
  refilling src e0 v l err s ->
  1 <= channels (currentMusic s) ->
  is_Some (AL.buffers (al s) !! b) ->
  exists (chunk : list Z) (v1 : V),
    takes v0 (channels (currentMusic s)) chunk v1
    /\ BufferMusicStream b (refilled_state src e err evs v0 l0 s)
       = Ok (0 <? Z.of_nat (length chunk),
             refilled_state src e err
               (evs ++ fill_events b (format (currentMusic s))
                         (sampleRate (currentMusic s)) chunk)
               v1 (counted l0 chunk) s).
Proof.
  intros Hs Hchan Hb.
  pose proof (refilled_state_refilling src e0 e err err evs v v0 l l0 s Hs) as Hr.
  pose proof Hr as (Hen & Hv & _).
  destruct (BufferMusicStream_total Hroom b _ v0 Hen Hv Hchan)
    as (chunk & v1 & Htakes & _ & Hbuf & _).
  exists chunk, v1. split; [exact Htakes|].
  rewrite Hbuf.
  rewrite (buffered_told src e b chunk v0 v1 l0 err _ Hr
             (known_told _ _ _ _ _ _ _ _ Hb)).
  rewrite refilled_state_twice. reflexivity.
Qed.

Lemma takes_none (chunk : list Z) :
  (0 <? Z.of_nat (length chunk)) = false -> chunk = [].
Proof.
  intros Hz. apply Z.ltb_ge in Hz. apply length_zero_iff_nil. lia.
Qed.

Lemma takes_some (chunk : list Z) :
  (0 <? Z.of_nat (length chunk)) = bool_decide (chunk <> []).
Proof.
  destruct chunk as [|x chunk]; [reflexivity|].
  rewrite bool_decide_eq_true_2 by discriminate. reflexivity.
Qed.

(** The run of the loop, as [refill_all] has it, is the refill told from
    the decoder; the error flag is left clear once a buffer has been
    queued. *)
Lemma refill_all_told (Hroom : stores_within_room) (src : ALuint) (st : Z)
    (nchan : Z) (looping : bool) (fmt rate : Z) :
  1 <= nchan ->
  forall (bs : list ALuint) (s : State V) (flags : list bool) (s1 : State V),
    refill_all src bs s flags s1 ->
    forall (v : V) (pending : list ALuint) (l err : Z),
      refilling src (AL.Source st bs pending) v l err s ->
      channels (currentMusic s) = nchan ->
      loop (currentMusic s) = looping ->
      format (currentMusic s) = fmt ->
      sampleRate (currentMusic s) = rate ->
      Forall (fun b => is_Some (AL.buffers (al s) !! b)) bs ->
      exists (evs : list event) (v' : V) (l' : Z),
        refilled src fmt rate nchan looping bs v l err flags evs v' l'
        /\ s1 = refilled_state src (AL.Source st [] (pending ++ bs))
                  (match bs with [] => err | _ => AL.AL_NO_ERROR end)
                  evs v' l' s.
Proof.
  intros Hchan bs s flags s1 Hall.
  induction Hall as [s | b bs s c active s1 flags s' Hunq Hrefill Hall IH];
    intros v pending l err Hs Hnchan Hloop Hfmt Hrate Hknown.
  - exists [], v, l. split; [constructor|].
    rewrite app_nil_r. symmetry. eapply refilled_state_same. exact Hs.
  - destruct (unqueued_told _ _ _ _ _ _ _ _ _ _ _ Hs Hunq) as [_ HsU].
    rewrite HsU in Hrefill. clear HsU Hunq c.
    inversion Hknown as [|b' bs' Hb Hbs]; subst b' bs'.
    assert (forall (evs : list event) (v1 : V) (l1 : Z),
               requeued src b s1
               = refilled_state src (AL.Source st bs (pending ++ [b]))
                   AL.AL_NO_ERROR evs v1 l1 s ->
               exists (evs' : list event) (v' : V) (l' : Z),
                 refilled src fmt rate nchan looping bs v1 l1 AL.AL_NO_ERROR
                          flags evs' v' l'
                 /\ s' = refilled_state src (AL.Source st [] (pending ++ b :: bs))
                           AL.AL_NO_ERROR (evs ++ evs') v' l' s) as Hrest.
    { intros evs v1 l1 Hnext. rewrite Hnext in IH.
      destruct (IH v1 (pending ++ [b]) l1 AL.AL_NO_ERROR)
        as (evs' & v' & l' & Htold & ->); try assumption.
      - eapply refilled_state_refilling; exact Hs.
      - rewrite Forall_forall in Hbs |- *. intros b0 Hb0.
        apply known_told, Hbs, Hb0.
      - exists evs', v', l'. split; [exact Htold|].
        rewrite refilled_state_twice, <- app_assoc.
        destruct bs; reflexivity. }
    clear IH.
    assert (1 <= channels (currentMusic s)) as Hchan' by (rewrite Hnchan; exact Hchan).
    destruct (BufferMusicStream_after Hroom src (AL.Source st bs pending) _
                [EvSourceUnqueueBuffers src b] v v l l err s b Hs Hchan' Hb)
      as (chunk & v1 & Htakes & Hbuf).
    rewrite Hnchan in Htakes. rewrite Hfmt, Hrate in Hbuf.
    inversion Hrefill as [s1' Hcall Hact Hs1
                          | s1' v0 a' s2 Hcall Hloop1 Hstream1 Hcall2 Hact Hs1
                          | s1' Hcall Hloop1 Hact Hs1].
    + rewrite Hbuf in Hcall. injection Hcall as Hgot <-.
      destruct (Hrest _ v1 (counted l chunk)
                  (requeued_after src st b bs pending _ _ v v1 l _ err s Hs Hb))
        as (evs' & v' & l' & Htold & ->).
      eexists _, v', l'. split; [|reflexivity].
      rewrite <- !app_assoc. cbn [app].
      apply refilled_data with (v1 := v1); [exact Htakes | | exact Htold].
      intros ->. discriminate Hgot.
    + rewrite Hbuf in Hcall. injection Hcall as Hgot <-.
      apply takes_none in Hgot. subst chunk.
      assert (v0 = v1) as -> by (cbn in Hstream1; congruence).
      rewrite (rewound_after src _ _ _ v _ v1 l _ err s Hs) in Hcall2.
      match type of Hcall2 with
      | BufferMusicStream b (refilled_state _ _ _ ?evs _ ?l0 _) = _ =>
          destruct (BufferMusicStream_after Hroom src (AL.Source st bs pending) _
                      evs v (stb_vorbis_seek_start v1) l l0 err s b Hs Hchan' Hb)
            as (chunk2 & v2 & Htakes2 & Hbuf2)
      end.
      rewrite Hnchan in Htakes2. rewrite Hfmt, Hrate in Hbuf2.
      rewrite Hbuf2 in Hcall2. injection Hcall2 as <- <-.
      destruct (Hrest _ v2 _
                  (requeued_after src st b bs pending _ _ v v2 l _ err s Hs Hb))
        as (evs' & v' & l' & Htold & ->).
      eexists _, v', l'. split; [|reflexivity].
      rewrite <- !app_assoc. cbn [app]. rewrite takes_some.
      apply refilled_from_start with (v1 := v1) (v2 := v2);
        [ | exact Htakes | exact Htakes2 | rewrite <- Hnchan at 2; exact Htold].
      cbn in Hloop1. congruence.
    + rewrite Hbuf in Hcall. injection Hcall as Hgot <-.
      apply takes_none in Hgot. subst chunk.
      destruct (Hrest _ v1 l
                  (requeued_after src st b bs pending _ _ v v1 l _ err s Hs Hb))
        as (evs' & v' & l' & Htold & ->).
      eexists _, v', l'. split; [|reflexivity].
      rewrite <- !app_assoc. cbn [app].
      apply refilled_nothing with (v1 := v1); [ | exact Htakes | exact Htold].
      cbn in Hloop1. congruence.
Qed.

(** C1.  A call made while music is enabled, on a source and processed
    buffers the library knows, handles the buffers the library reports
    as processed one by one, in queue order: each is unqueued, receives the next chunk of
    the decoder through [BufferMusicStream] and is queued again; when
    the decoder yields nothing and the stream loops, the decoder is
    rewound, the counter is reset to the length of the stream and the
    buffer receives the chunk read from the start before it is queued
    ([refilled]).  The state [s1] the call is in once the source state
    has been read is that and nothing else: the decoder and the counter
    as the refill left them, every processed buffer at the end of the
    queue of the source, the chunks uploaded, the calls in the trace.
    The call then returns [s1] with playback restarted if the source was
    not playing, when the last refill obtained data; otherwise it stops
    the stream.  On a stream that does not loop, a refill that obtains
    nothing leaves the music stream stopped. *)
Theorem UpdateMusicStream_refills_processed
    (Hroom : stores_within_room) (Hfinal : end_is_final)
    (s : State V) (state : Z) (v : V) (st : Z) (processed pending : list ALuint) :
  musicEnabled s = true ->
  stream (currentMusic s) = Some v ->
  1 <= channels (currentMusic s) ->
  AL.sources (al s) !! source (currentMusic s) = Some (AL.Source st processed pending) ->
  Forall (fun b => is_Some (AL.buffers (al s) !! b)) processed ->
  let m := currentMusic s in
  let src := source m in
  exists (flags : list bool) (evs : list event) (v' : V) (left' : Z)
         (s1 s' : State V),
    refilled src (format m) (sampleRate m) (channels m) (loop m)
             processed v (totalSamplesLeft m) (AL.error (al s)) flags evs v' left'
    /\ s1 = refilled_state src (AL.Source st [] (pending ++ processed))
              (match processed with [] => AL.error (al s) | _ => AL.AL_NO_ERROR end)
              (EvGetSourcei src AL_BUFFERS_PROCESSED (Z.of_nat (length processed))
               :: evs ++ [EvGetSourcei src AL_SOURCE_STATE st])
              v' left' s
    /\ UpdateMusicStream state s = Ok (tt, s')
    /\ (default true (last flags) = true ->
        s' = (if st =? AL.AL_PLAYING then s1
              else record (EvSourcePlay src) (set_al (AL.alSourcePlay src (al s1)) s1))
        /\ AL.sources (al s') !! src
           = Some (AL.Source AL.AL_PLAYING [] (pending ++ processed)))
    /\ (default true (last flags) = false ->
        StopMusicStream s1 = Ok (tt, s') /\ musicEnabled s' = false)
    /\ (loop m = false -> false ∈ flags -> musicEnabled s' = false).
Proof.
  intros Hen Hstream Hchan Hlook Hknown m src.
  assert (streaming src st processed (channels m) (loop m) v s) as Hs.
  { repeat split; try assumption. exists pending. exact Hlook. }
  assert (refilling src (AL.Source st processed pending) v (totalSamplesLeft m)
                    (AL.error (al s)) s)
    as Hr by (repeat split; assumption).
  destruct (UpdateMusicStream_run Hroom _ _ _ _ _ _ _ state Hchan Hs)
    as (flags & s1 & v1 & Hall & Hlen & Hs1 & Hrun).
  pose proof Hall as Hall0.
  rewrite (queried_told src _ v _ _ s _ _ _ Hr) in Hall.
  destruct (refill_all_told Hroom src st (channels m) (loop m) (format m)
              (sampleRate m) Hchan _ _ _ _ Hall v pending (totalSamplesLeft m)
              (AL.error (al s)))
    as (evs & v' & left' & Htold & Hs1eq);
    try reflexivity.
  { eapply refilled_state_refilling. exact Hr. }
  { rewrite Forall_forall in Hknown |- *. intros b0 Hb0.
    apply known_told, Hknown, Hb0. }
  rewrite refilled_state_twice in Hs1eq. cbn [app] in Hs1eq.
  set (err' := match processed with [] => AL.error (al s) | _ => AL.AL_NO_ERROR end)
    in *.
  set (s2 := refilled_state src (AL.Source st [] (pending ++ processed)) err'
               (EvGetSourcei src AL_BUFFERS_PROCESSED (Z.of_nat (length processed))
                :: evs ++ [EvGetSourcei src AL_SOURCE_STATE st]) v' left' s).
  assert (record (EvGetSourcei src AL_SOURCE_STATE st) s1 = s2) as Hs2.
  { rewrite Hs1eq.
    rewrite (queried_told src (AL.Source st [] (pending ++ processed)) v' left' err').
    - rewrite refilled_state_twice. reflexivity.
    - eapply refilled_state_refilling. exact Hr. }
  assert (exists s', UpdateMusicStream state s = Ok (tt, s')
                     /\ musicEnabled s' = default true (last flags)
                     /\ (default true (last flags) = true ->
                         s' = (if st =? AL.AL_PLAYING then s2
                               else record (EvSourcePlay src)
                                      (set_al (AL.alSourcePlay src (al s2)) s2)))
                     /\ (default true (last flags) = false ->
                         StopMusicStream s2 = Ok (tt, s')))
    as (s' & Hrun' & Hflag & Hon & Hoff).
  { rewrite Hrun. unfold kept_playing. cbv zeta. rewrite Hs2.
    destruct (default true (last flags)).
    - eexists. split; [reflexivity|]. split; [|split; [intros _; reflexivity|discriminate]].
      destruct (st =? AL.AL_PLAYING); cbn; exact Hen.
    - destruct (StopMusicStream_ok s2) as (s' & Hstop & Hdis & _).
      exists s'. rewrite Hstop. split; [reflexivity|].
      split; [exact Hdis|]. split; [discriminate | intros _; reflexivity]. }
  exists flags, evs, v', left', s2, s'.
  split; [exact Htold|]. split; [reflexivity|]. split; [exact Hrun'|].
  split; [|split].
  - intros Hlast. split; [exact (Hon Hlast)|].
    rewrite (Hon Hlast). unfold s2.
    destruct (Z.eqb_spec st AL.AL_PLAYING) as [->|Hne].
    + cbn. apply lookup_insert_eq.
    + cbn. unfold AL.alSourcePlay. cbn [AL.sources].
      rewrite lookup_insert_eq. cbn [AL.src_state AL.src_processed AL.src_pending].
      unfold AL.with_source, AL.queue.
      destruct (st =? AL.AL_PAUSED); cbn; rewrite lookup_insert_eq; reflexivity.
  - intros Hlast. split; [exact (Hoff Hlast)|].
    rewrite Hflag. exact Hlast.
  - intros Hnoloop Hin. rewrite Hflag.
    rewrite Hnoloop in Hs.
    assert (streaming src st processed (channels m) false v
              (record (EvGetSourcei src AL_BUFFERS_PROCESSED
                                    (Z.of_nat (length processed))) s)) as Hs0.
    { destruct Hs as (? & ? & ? & ? & ? & ?). repeat split; assumption. }
    rewrite (refill_all_sticky Hroom Hfinal _ _ _ _ _ _ _ Hchan Hall0 _ _ Hs0 Hin).
    reflexivity.
Qed.

End RefillTold.

(** ** The loop flag *)


Section LoopingDefault.

Context {V : Type} `{StbVorbis V} `{Utils}.








End LoopingDefault.


Section LoopingStreams.

Context {V : Type} `{StbVorbis V} `{Utils}.










End LoopingStreams.

(** ** LoadSoundFromRES *)

Lemma byte_val_of_N (k : N) :
  (k < 256)%N -> byte_val (default Byte.x00 (Byte.of_N k)) = Z.of_N k.
Proof.
  intros Hk. unfold byte_val.
  destruct (Byte.of_N k) as [b|] eqn:Hb.
  - cbn. apply Byte.to_of_N in Hb. rewrite Hb. reflexivity.
  - apply Byte.of_N_None_iff in Hb. lia.
Qed.

Lemma short_bytes_count (n : Z) :
  0 <= n < 2^15 ->
  int16 (le_unsigned (short_bytes n)) = n.
Proof.
  intros Hn. unfold short_bytes. cbn [le_unsigned].
  rewrite Z.mod_small by lia.
  rewrite !byte_val_of_N.
  - rewrite N2Z.inj_mod, N2Z.inj_div, Z2N.id by lia.
    change (Z.of_N 256) with 256.
    unfold int16. rewrite (Z.mod_small (_ + 2^15)).
    + pose proof (Z.div_mod n 256 ltac:(lia)). lia.
    + pose proof (Z.div_mod n 256 ltac:(lia)).
      pose proof (Z.mod_pos_bound n 256 ltac:(lia)).
      assert (0 <= n / 256) by (apply Z.div_pos; lia). lia.
  - apply N.Div0.div_lt_upper_bound. lia.
  - apply N.mod_lt. lia.
Qed.

Section ResourceScan.

Context {V : Type} `{StbVorbis V} `{Utils} `{ResInfoHeaderLayout}.

Lemma fread_here (size : nat) (obj : list byte) (pre want post : list byte) :
  length want = size ->
  fread size obj (MkFILE (pre ++ want ++ post) (Z.of_nat (length pre)))
  = (want, MkFILE (pre ++ want ++ post) (Z.of_nat (length pre) + Z.of_nat size)).
Proof.
  intros Hlen. unfold fread. cbn [f_bytes f_pos].
  rewrite Nat2Z.id, drop_app_length.
  rewrite take_app_length' by (symmetry; exact Hlen).
  rewrite Hlen, Nat.sub_diag, take_0, app_nil_r. reflexivity.
Qed.

(** A record whose id is not the requested one is skipped whole: the
    turn of the scan that reads its header leaves the file at the next
    header, and changes nothing else. *)
Lemma scan_skips_record (u : Indeterminate) (resId : Z) (n : nat)
    (pre : list byte) (r : res_record) (post hdr0 : list byte)
    (found : bool) (sound : Sound) (s : State V) :
  well_formed r ->
  infoHeader_id (rec_header r) <> resId ->
  scan_resources (S n) u resId
    (MkFILE (pre ++ record_bytes r ++ post) (Z.of_nat (length pre)))
    hdr0 found sound s
  = scan_resources n u resId
      (MkFILE (pre ++ record_bytes r ++ post)
              (Z.of_nat (length pre) + Z.of_nat (length (record_bytes r))))
      (rec_header r) found sound s.
Proof.
  intros (Hhdr & Htype & Hparams & Hdata & Hsize) Hid.
  cbn [scan_resources]. unfold record_bytes at 1.
  rewrite <- !app_assoc. rewrite fread_here by exact Hhdr.
  cbv beta iota zeta.
  destruct (Z.eqb_spec (infoHeader_id (rec_header r)) resId) as [|_]; [contradiction|].
  cbv beta iota delta [mbind M_bind mret M_ret].
  f_equal. unfold record_bytes. rewrite !length_app.
  assert (0 <= infoHeader_size (rec_header r)) as Hpos by lia.
  rewrite int32_small by lia.
  unfold parameter_bytes in Hparams.
  assert (skipped_parameters (infoHeader_type (rec_header r))
            (MkFILE (pre ++ rec_header r ++ rec_params r ++ rec_data r ++ post)
                    (Z.of_nat (length pre) + Z.of_nat sizeof_ResInfoHeader))
          = MkFILE (pre ++ rec_header r ++ rec_params r ++ rec_data r ++ post)
                   (Z.of_nat (length pre) + Z.of_nat sizeof_ResInfoHeader
                    + Z.of_nat (length (rec_params r)))) as ->.
  { assert (infoHeader_type (rec_header r) = 0 \/ infoHeader_type (rec_header r) = 1
            \/ infoHeader_type (rec_header r) = 2 \/ infoHeader_type (rec_header r) = 3
            \/ infoHeader_type (rec_header r) = 4) as Hcases by lia.
    destruct Hcases as [E|[E|[E|[E|E]]]]; rewrite E in *; cbn in Hparams;
      cbn [skipped_parameters]; unfold fseek_cur; cbn [f_pos f_bytes];
      rewrite ?Hparams, ?Z.add_0_r;
      try (destruct (Z.leb_spec 0 (Z.of_nat (length pre)
                                   + Z.of_nat sizeof_ResInfoHeader + 6)); [|lia]);
      try (destruct (Z.leb_spec 0 (Z.of_nat (length pre)
                                   + Z.of_nat sizeof_ResInfoHeader + 5)); [|lia]);
      reflexivity. }
  unfold fseek_cur. cbn [f_pos f_bytes].
  match goal with
  | |- context [?a <=? ?b] => destruct (Z.leb_spec a b); [|lia]
  end.
  rewrite <- !app_assoc. f_equal. rewrite Hhdr, !Nat2Z.inj_add. lia.
Qed.

(** A run of records none of which has the requested id is skipped
    whole. *)
Lemma scan_skips_all (u : Indeterminate) (resId : Z) (post : list res_record) :
  Forall well_formed post ->
  Forall (fun r => infoHeader_id (rec_header r) <> resId) post ->
  forall (pre tail hdr0 : list byte) (found : bool) (sound : Sound) (s : State V),
    exists hdr',
      scan_resources (length post) u resId
        (MkFILE (pre ++ concat (record_bytes <$> post) ++ tail)
                (Z.of_nat (length pre)))
        hdr0 found sound s
      = Ok ((MkFILE (pre ++ concat (record_bytes <$> post) ++ tail)
                    (Z.of_nat (length pre)
                     + Z.of_nat (length (concat (record_bytes <$> post)))),
             hdr', found, sound), s).
Proof.
  intros Hwf Hids. induction post as [|r post IH];
    intros pre tail hdr0 found sound s.
  - exists hdr0. cbn. rewrite Z.add_0_r. reflexivity.
  - apply Forall_cons in Hwf as [Hr Hwf]. apply Forall_cons in Hids as [Hid Hids].
    cbn [length fmap list_fmap concat].
    rewrite <- (app_assoc (record_bytes r)).
    rewrite scan_skips_record by assumption.
    destruct (IH Hwf Hids (pre ++ record_bytes r) tail (rec_header r) found sound s)
      as (hdr' & Hrun).
    exists hdr'.
    rewrite <- !app_assoc, length_app, Nat2Z.inj_add in Hrun.
    rewrite Hrun. rewrite length_app, Nat2Z.inj_add, Z.add_assoc. reflexivity.
Qed.

Lemma archive_split (version reserved : byte) (pre : list res_record)
    (rest : list byte) (n : Z) :
  exists head : list byte,
    list_byte_of_string "rRES" ++ [version; reserved] ++ short_bytes n
    ++ concat (record_bytes <$> pre) ++ rest
    = head ++ rest
    /\ Z.of_nat (length head) = offset_after pre.
Proof.
  exists (list_byte_of_string "rRES" ++ [version; reserved] ++ short_bytes n
          ++ concat (record_bytes <$> pre)).
  split.
  - rewrite <- !app_assoc. reflexivity.
  - unfold offset_after. rewrite !length_app. cbn. lia.
Qed.

End ResourceScan.

(** C7.  The archive [texts] is well formed: a TEXT record (id 7, two
    bytes of data) with its header at offset 8, then an IMAGE record
    (id 1) with its header at offset 22.  Scanned for id 9, which neither
    record has, both records are skipped, the file ends at its end, offset
    41, and the not-found warning is logged.  Scanned for id 7: the first
    turn finds the id on a record that is not a SOUND, logs the warning and
    skips nothing, so it ends at offset 20, inside the data of that
    record; the second turn reads its header from there, not from offset
    22, takes what it reads for a SOUND record of id 26984 holding 65536
    bytes and seeks to offset 65574 of the 41 bytes of the file.  The
    IMAGE record, whose id does not match, is never skipped to its
    end. *)
Theorem LoadSoundFromRES_misreads_after_wrong_type :
  Samples.texts = archive_bytes Byte.x01 Byte.x00 [Samples.words; Samples.picture]
  /\ Forall well_formed [Samples.words; Samples.picture]
  /\ files Samples.boot !! "texts.rres"%string = Some Samples.texts
  /\ length Samples.texts = 41%nat
  /\ offset_after [] = 8
  /\ offset_after [Samples.words] = 22
  /\ LoadSoundFromRES_scan RawPcm.junk "texts.rres" 9 Samples.boot
     = Ok ((ind_sound RawPcm.junk, Some (MkFILE Samples.texts 41)),
           record (EvTraceLog WARNING "[%s] Required resource id [%i] could not be found in the raylib resource file")
                  Samples.boot)
  /\ scan_resources 1 RawPcm.junk 7 (MkFILE Samples.texts 8)
       (ind_infoHeader RawPcm.junk) false (ind_sound RawPcm.junk) Samples.boot
     = Ok ((MkFILE Samples.texts 20, rec_header Samples.words, true,
            ind_sound RawPcm.junk),
           record (EvTraceLog WARNING "[%s] Required resource do not seem to be a valid SOUND resource")
                  Samples.boot)
  /\ infoHeader_id (take 12 (drop 20 Samples.texts)) = 26984
  /\ infoHeader_type (take 12 (drop 20 Samples.texts)) = 1
  /\ infoHeader_size (take 12 (drop 20 Samples.texts)) = 65536
  /\ LoadSoundFromRES_scan RawPcm.junk "texts.rres" 7 Samples.boot
     = Ok ((ind_sound RawPcm.junk, Some (MkFILE Samples.texts 65574)),
           record (EvTraceLog WARNING "[%s] Required resource do not seem to be a valid SOUND resource")
                  Samples.boot).
Proof.
  split; [reflexivity|].
  split; [repeat constructor; vm_compute; first [reflexivity | discriminate]|].
  repeat split; vm_compute; reflexivity.
Qed.

(** ** The theorems at work on the reference decoder *)

Lemma UpdateMusicStream_refills_processed_witness :
  musicEnabled RawPcm.starved = true
  /\ stream (currentMusic RawPcm.starved) = Some RawPcm.tune_read
  /\ 1 <= channels (currentMusic RawPcm.starved)
  /\ AL.sources (al RawPcm.starved) !! source (currentMusic RawPcm.starved)
     = Some (AL.Source AL.AL_STOPPED [1%N; 2%N] [])
  /\ Forall (fun b => is_Some (AL.buffers (al RawPcm.starved) !! b)) [1%N; 2%N]
  /\ exists (flags : list bool) (evs : list event) (v' : RawPcm.decoder) (left' : Z)
            (s' : State RawPcm.decoder),
       refilled 1%N AL.AL_FORMAT_MONO16 44000 1 true [1%N; 2%N]
                RawPcm.tune_read 5 AL.AL_NO_ERROR flags evs v' left'
       /\ UpdateMusicStream 0 RawPcm.starved = Ok (tt, s')
       /\ musicEnabled s' = true
       /\ AL.sources (al s') !! 1%N = Some (AL.Source AL.AL_PLAYING [] [1%N; 2%N])
       /\ trace s'
          = trace RawPcm.starved
            ++ EvGetSourcei 1 AL_BUFFERS_PROCESSED 2
               :: evs ++ [EvGetSourcei 1 AL_SOURCE_STATE AL.AL_STOPPED; EvSourcePlay 1].
Proof.
  assert (musicEnabled RawPcm.starved = true) as Hen by reflexivity.
  assert (stream (currentMusic RawPcm.starved) = Some RawPcm.tune_read) as Hstream
    by reflexivity.
  assert (1 <= channels (currentMusic RawPcm.starved)) as Hchan
    by (vm_compute; discriminate).
  assert (AL.sources (al RawPcm.starved) !! source (currentMusic RawPcm.starved)
          = Some (AL.Source AL.AL_STOPPED [1%N; 2%N] [])) as Hlook by reflexivity.
  assert (Forall (fun b => is_Some (AL.buffers (al RawPcm.starved) !! b)) [1%N; 2%N])
    as Hknown.
  { constructor; [eexists; reflexivity|]. constructor; [eexists; reflexivity|].
    constructor. }
  repeat (split; [assumption|]).
  destruct (UpdateMusicStream_refills_processed
              RawPcm_stores_within_room RawPcm_end_is_final RawPcm.starved 0
              RawPcm.tune_read AL.AL_STOPPED [1%N; 2%N] [] Hen Hstream Hchan Hlook
              Hknown)
    as (flags & evs & v' & left' & s1 & s' & Htold & Hs1 & Hrun & Hon & Hoff & _).
  assert (musicEnabled s' = true) as Hstill.
  { assert (musicEnabled (RawPcm.state_of (UpdateMusicStream 0 RawPcm.starved)) = true)
      as Hc by (vm_compute; reflexivity).
    rewrite Hrun in Hc. exact Hc. }
  assert (default true (last flags) = true) as Hlast.
  { destruct (default true (last flags)); [reflexivity|].
    destruct (Hoff eq_refl) as [_ Hdis]. congruence. }
  destruct (Hon Hlast) as [Hs' Hqueue].
  exists flags, evs, v', left', s'.
  split; [exact Htold|]. split; [exact Hrun|]. split; [exact Hstill|].
  split; [exact Hqueue|].
  rewrite Hs', Hs1. cbn. rewrite <- !app_assoc. reflexivity.
Defined.

Lemma UpdateMusicStream_keeps_source_playing_witness :
  musicEnabled RawPcm.starved = true
  /\ stream (currentMusic RawPcm.starved) = Some RawPcm.tune_read
  /\ 1 <= channels (currentMusic RawPcm.starved)
  /\ AL.sources (al RawPcm.starved) !! source (currentMusic RawPcm.starved)
     = Some (AL.Source AL.AL_STOPPED [1%N; 2%N] [])
  /\ exists s' : State RawPcm.decoder,
       UpdateMusicStream 0 RawPcm.starved = Ok (tt, s')
       /\ (musicEnabled s' = true -> source_playing 1%N s').
Proof.
  assert (musicEnabled RawPcm.starved = true) as Hen by reflexivity.
  assert (stream (currentMusic RawPcm.starved) = Some RawPcm.tune_read) as Hstream
    by reflexivity.
  assert (1 <= channels (currentMusic RawPcm.starved)) as Hchan
    by (vm_compute; discriminate).
  assert (AL.sources (al RawPcm.starved) !! source (currentMusic RawPcm.starved)
          = Some (AL.Source AL.AL_STOPPED [1%N; 2%N] [])) as Hlook by reflexivity.
  repeat (split; [assumption|]).
  destruct (UpdateMusicStream_keeps_source_playing
              RawPcm_stores_within_room RawPcm.starved 0
              RawPcm.tune_read AL.AL_STOPPED [1%N; 2%N] [] Hen Hstream Hchan Hlook)
    as (flags & s1 & s' & _ & Hrun & _ & _ & Hplay & _).
  exists s'. split; [exact Hrun|]. intros Hon. exact (proj1 (Hplay Hon)).
Defined.

Lemma StopMusicStream_releases_witness :
  musicEnabled RawPcm.started = true
  /\ stream (currentMusic RawPcm.started) = Some RawPcm.tune_read
  /\ AL.sources (al RawPcm.started) !! source (currentMusic RawPcm.started)
     = Some (AL.Source AL.AL_PLAYING [] [1%N; 2%N])
  /\ AL.AL_PLAYING <> AL.AL_INITIAL
  /\ exists s' : State RawPcm.decoder,
       StopMusicStream RawPcm.started = Ok (tt, s')
       /\ AL.sources (al s') !! 1%N = None
       /\ musicEnabled s' = false.
Proof.
  assert (musicEnabled RawPcm.started = true) as Hen by reflexivity.
  assert (stream (currentMusic RawPcm.started) = Some RawPcm.tune_read) as Hstream
    by reflexivity.
  assert (AL.sources (al RawPcm.started) !! source (currentMusic RawPcm.started)
          = Some (AL.Source AL.AL_PLAYING [] [1%N; 2%N])) as Hlook by reflexivity.
  assert (AL.AL_PLAYING <> AL.AL_INITIAL) as Hstate by discriminate.
  repeat (split; [assumption|]).
  destruct (proj1 (StopMusicStream_releases RawPcm.started)
              RawPcm.tune_read AL.AL_PLAYING [] [1%N; 2%N] Hen Hstream Hlook Hstate)
    as (s' & Hrun & _ & Hgone & _ & Hoff).
  exists s'. split; [exact Hrun | split; [exact Hgone | exact Hoff]].
Defined.

Lemma PlayMusicStream_opens_stream_witness :
  GetExtension "tune.ogg" = "ogg"%string
  /\ files RawPcm.boot !! "tune.ogg"%string = Some RawPcm.tune
  /\ stb_vorbis_open RawPcm.tune
     = Some (RawPcm.Decoder 1 44000 [97; 98; 99; 100; 101] 0)
  /\ 1 <= info_channels
            (stb_vorbis_get_info (RawPcm.Decoder 1 44000 [97; 98; 99; 100; 101] 0))
  /\ exists s0 s' : State RawPcm.decoder,
       StopMusicStream RawPcm.boot = Ok (tt, s0)
       /\ PlayMusicStream "tune.ogg" RawPcm.boot = Ok (tt, s')
       /\ musicEnabled s' = true
       /\ AL.sources (al s') !! AL.next_source (al s0)
          = Some (AL.Source AL.AL_PLAYING []
                            [(AL.next_buffers (al s0)).1; (AL.next_buffers (al s0)).2]).
Proof.
  assert (GetExtension "tune.ogg" = "ogg"%string) as Hext by reflexivity.
  assert (files RawPcm.boot !! "tune.ogg"%string = Some RawPcm.tune) as Hfile
    by reflexivity.
  assert (stb_vorbis_open RawPcm.tune
          = Some (RawPcm.Decoder 1 44000 [97; 98; 99; 100; 101] 0)) as Hopen
    by reflexivity.
  assert (1 <= info_channels
                 (stb_vorbis_get_info (RawPcm.Decoder 1 44000 [97; 98; 99; 100; 101] 0)))
    as Hchan by (vm_compute; discriminate).
  repeat (split; [assumption|]).
  destruct (PlayMusicStream_opens_stream RawPcm_stores_within_room RawPcm.boot
              "tune.ogg" RawPcm.tune _ Hext Hfile Hopen Hchan)
    as (s0 & s' & chunk0 & chunk1 & v1 & v2 & Hstop & Hrun & _ & _ & _ & _ & _ & _
        & _ & Hon & _ & Hsrc & _).
  exists s0, s'.
  split; [exact Hstop | split; [exact Hrun | split; [exact Hon | exact Hsrc]]].
Defined.


(** * Further properties of the module *)

(** ** LoadWAV *)

Section LoadWAVProperties.

Context {V : Type} `{StbVorbis V} `{Utils} `{ResInfoHeaderLayout}.

(** Whatever the file, [LoadWAV] returns, and all it does to the state is
    log one message: the success message, with the data of the wave
    allocated, or one of the four warnings, with the wave left as the
    uninitialised local was; a file that cannot be opened gives the
    first of them. *)
Theorem LoadWAV_logs_one_message (u : Indeterminate) (fileName : string)
    (s : State V) :
  exists (wave : Wave) (lvl : TraceLogType) (msg : string),
    LoadWAV u fileName s = Ok (wave, record (EvTraceLog lvl msg) s)
    /\ ((lvl = INFO /\ msg = "[%s] Wave file loaded successfully"%string
         /\ exists block, wave_data wave = Heap block)
        \/ (lvl = WARNING /\ msg ∈ LoadWAV_warnings /\ wave = ind_wave u))
    /\ (files s !! fileName = None ->
        lvl = WARNING /\ msg = "[%s] Could not open WAV file"%string).
Proof.
  unfold LoadWAV, fopen. unfold_monad.
  destruct (files s !! fileName) as [bytes|]; cbn [fmap option_fmap option_map].
  - destruct (fread 12 _ _) as [riffHeader f1].
    destruct (negb _ || negb _).
    { eexists _, _, _. split; [reflexivity|]. split; [|discriminate].
      right. split; [reflexivity|]. split; [|reflexivity].
      unfold LoadWAV_warnings. set_solver. }
    destruct (fread 24 _ _) as [waveFormat f2].
    destruct (negb _).
    { eexists _, _, _. split; [reflexivity|]. split; [|discriminate].
      right. split; [reflexivity|]. split; [|reflexivity].
      unfold LoadWAV_warnings. set_solver. }
    destruct (fread 8 _ _) as [waveData f3].
    destruct (negb _).
    { eexists _, _, _. split; [reflexivity|]. split; [|discriminate].
      right. split; [reflexivity|]. split; [|reflexivity].
      unfold LoadWAV_warnings. set_solver. }
    destruct (fread (Z.to_nat _) _ _) as [block f4].
    eexists _, _, _. split; [reflexivity|]. split; [|discriminate].
    left. split; [reflexivity|]. split; [reflexivity|]. eexists. reflexivity.
  - eexists _, _, _. split; [reflexivity|]. split; [|intros _; split; reflexivity].
    right. split; [reflexivity|]. split; [|reflexivity].
    unfold LoadWAV_warnings. set_solver.
Qed.

End LoadWAVProperties.

(** ** Reading a file piece by piece *)

Lemma fread_at (size : nat) (obj pre want post : list byte) :
  length want = size ->
  fread size obj (file_at pre (want ++ post)) = (want, file_at (pre ++ want) post).
Proof.
  intros Hlen. unfold file_at, fread. cbn [f_bytes f_pos].
  rewrite Nat2Z.id, drop_app_length.
  rewrite take_app_length' by (symmetry; exact Hlen).
  rewrite Hlen, Nat.sub_diag, take_0, app_nil_r.
  rewrite <- app_assoc, length_app, Nat2Z.inj_add, Hlen. reflexivity.
Qed.

Lemma fseek_at (pre skip post : list byte) :
  fseek_cur (Z.of_nat (length skip)) (file_at pre (skip ++ post))
  = file_at (pre ++ skip) post.
Proof.
  unfold file_at, fseek_cur. cbn [f_bytes f_pos].
  destruct (Z.leb_spec 0 (Z.of_nat (length pre) + Z.of_nat (length skip))); [|lia].
  rewrite <- app_assoc, length_app, Nat2Z.inj_add. reflexivity.
Qed.

Lemma file_at_start (bytes : list byte) : MkFILE bytes 0 = file_at [] bytes.
Proof. reflexivity. Qed.

Lemma length_le_bytes (n : nat) : forall z, length (le_bytes n z) = n.
Proof. induction n as [|n IH]; intros z; cbn; [reflexivity | rewrite IH; reflexivity]. Qed.

Lemma le_unsigned_le_bytes (n : nat) :
  forall z, 0 <= z < 256 ^ Z.of_nat n -> le_unsigned (le_bytes n z) = z.
Proof.
  induction n as [|n IH]; intros z Hz.
  - cbn in *. lia.
  - cbn [le_bytes le_unsigned].
    rewrite Nat2Z.inj_succ, Z.pow_succ_r in Hz by lia.
    rewrite byte_val_of_N.
    + rewrite Z2N.id by (apply Z.mod_pos_bound; lia).
      rewrite IH.
      * pose proof (Z.div_mod z 256 ltac:(lia)). lia.
      * split; [apply Z.div_pos; lia | apply Z.div_lt_upper_bound; lia].
    + pose proof (Z.mod_pos_bound z 256 ltac:(lia)). lia.
Qed.

Lemma int16_small (z : Z) : - 2^15 <= z < 2^15 -> int16 z = z.
Proof. intros Hz. unfold int16. rewrite Z.mod_small by lia. lia. Qed.

Section LoadWAVFiles.

Context {V : Type} `{StbVorbis V} `{Utils} `{ResInfoHeaderLayout}.

(** The run of [LoadWAV] on a well-formed file. *)
Lemma LoadWAV_run (u : Indeterminate) (fileName : string)
    (s : State V) (w : wav_file) :
  files s !! fileName = Some (wav_bytes w) ->
  wav_well_formed w ->
  LoadWAV u fileName s
  = Ok (MkWave (Heap (wav_data w)) (Z.of_nat (length (wav_data w)))
               (wav_sampleRate w) (wav_bitsPerSample w) (wav_numChannels w),
        record (EvTraceLog INFO "[%s] Wave file loaded successfully") s).
Proof.
  intros Hfile (Hfmt & Hchan & Hrate & Hbits & Hsize & Hskip).
  unfold LoadWAV, fopen. unfold_monad.
  rewrite Hfile. cbn [fmap option_fmap option_map].
  rewrite file_at_start. unfold wav_bytes.
  rewrite fread_at by reflexivity.
  assert (is_tag "RIFF" (chars 0 4 (wav_riff w)) = true) as ->
    by (apply bool_decide_eq_true_2; reflexivity).
  assert (is_tag "WAVE" (chars 8 4 (wav_riff w)) = true) as ->
    by (apply bool_decide_eq_true_2; reflexivity).
  cbn [negb orb].
  rewrite fread_at by reflexivity.
  assert (is_tag "fmt " (chars 0 4 (wav_fmt w)) = true) as ->
    by (apply bool_decide_eq_true_2; reflexivity).
  cbn [negb].
  change (field 4 4 (wav_fmt w)) with (le_unsigned (le_bytes 4 (wav_fmtSize w))).
  change (field 12 4 (wav_fmt w)) with (le_unsigned (le_bytes 4 (wav_sampleRate w))).
  change (field 22 2 (wav_fmt w)) with (le_unsigned (le_bytes 2 (wav_bitsPerSample w))).
  change (field 10 2 (wav_fmt w)) with (le_unsigned (le_bytes 2 (wav_numChannels w))).
  rewrite !le_unsigned_le_bytes by (cbn; lia).
  rewrite (int32_small (wav_fmtSize w)) by lia.
  rewrite !int16_small by lia.
  assert ((if 16 <? wav_fmtSize w
           then fseek_cur 2
                  (file_at ([] ++ wav_riff w ++ wav_fmt w)
                     (wav_skipped w ++ wav_datahdr w ++ wav_data w ++ wav_trailer w))
           else file_at ([] ++ wav_riff w ++ wav_fmt w)
                  (wav_skipped w ++ wav_datahdr w ++ wav_data w ++ wav_trailer w))
          = file_at (([] ++ wav_riff w ++ wav_fmt w) ++ wav_skipped w)
                    (wav_datahdr w ++ wav_data w ++ wav_trailer w)) as Hseek.
  { destruct (16 <? wav_fmtSize w).
    - change 2 with (Z.of_nat 2). rewrite <- Hskip. apply fseek_at.
    - apply nil_length_inv in Hskip. rewrite Hskip, app_nil_r. reflexivity. }
  rewrite <- app_assoc in Hseek |- *.
  rewrite Hseek. clear Hseek.
  rewrite fread_at by reflexivity.
  assert (is_tag "data" (chars 0 4 (wav_datahdr w)) = true) as ->
    by (apply bool_decide_eq_true_2; reflexivity).
  cbn [negb].
  change (field 4 4 (wav_datahdr w))
    with (le_unsigned (le_bytes 4 (Z.of_nat (length (wav_data w))))).
  rewrite le_unsigned_le_bytes by (cbn; lia).
  rewrite Nat2Z.id, fread_at by reflexivity.
  reflexivity.
Qed.

(** A file laid out as a RIFF header, a format chunk, a data header and
    the data is loaded whole: the wave holds the data, its size, and the
    sample rate, channels and bits per sample of the format chunk.  The
    RIFF size, the audio format, the byte rate and the block align are
    not looked at; and when the format chunk says it is longer than 16
    bytes, the data header is taken two bytes further on, whatever the
    length it says. *)
Theorem LoadWAV_loads_wav_file (u : Indeterminate) (fileName : string)
    (s : State V) (w : wav_file) :
  files s !! fileName = Some (wav_bytes w) ->
  wav_well_formed w ->
  LoadWAV u fileName s
  = Ok (MkWave (Heap (wav_data w)) (Z.of_nat (length (wav_data w)))
               (wav_sampleRate w) (wav_bitsPerSample w) (wav_numChannels w),
        record (EvTraceLog INFO "[%s] Wave file loaded successfully") s).
Proof. exact (LoadWAV_run u fileName s w). Qed.

End LoadWAVFiles.

(** ** LoadOGG *)

Lemma length_short_bytes (samples : list Z) :
  length (concat (short_bytes <$> samples)) = (2 * length samples)%nat.
Proof.
  induction samples as [|z l IH]; [reflexivity|].
  cbn [fmap list_fmap concat length app]. rewrite length_app.
  change (list_fmap Z (list byte) short_bytes l) with (short_bytes <$> l).
  rewrite IH. cbn. lia.
Qed.

Section LoadOGGProperties.

Context {V : Type} `{StbVorbis V} `{Utils} `{ResInfoHeaderLayout}.

(** The run of [LoadOGG] on a file the decoder opens. *)
Lemma LoadOGG_run (Hroom : stores_within_room)
    (u : Indeterminate) (fileName : string) (s : State V)
    (bytes : list byte) (v : V) :
  files s !! fileName = Some bytes ->
  stb_vorbis_open bytes = Some v ->
  1 <= info_channels (stb_vorbis_get_info v) ->
  0 <= stb_vorbis_stream_length_in_samples v * info_channels (stb_vorbis_get_info v)
    < 2^30 ->
  (forall n, length (ind_malloc u n) = n) ->
  let nchan := info_channels (stb_vorbis_get_info v) in
  let total := stb_vorbis_stream_length_in_samples v * nchan in
  let samples := read_samples v nchan total in
  let block := ind_malloc u (Z.to_nat (2 * total)) in
  Z.of_nat (length samples) <= total
  /\ Z.of_nat (length (shorts_in_block samples block)) = 2 * total
  /\ LoadOGG u fileName s
     = Ok (MkWave (Heap (shorts_in_block samples block)) (2 * total)
                  (info_sample_rate (stb_vorbis_get_info v) mod 2^32) 16
                  (int16 nchan),
           MkState (musicEnabled s) (currentMusic s) (al s) (files s)
             (trace s
              ++ [EvVorbisOpen fileName true;
                  EvTraceLog DEBUG "[%s] Ogg sample rate: %i";
                  EvTraceLog DEBUG "[%s] Ogg channels: %i";
                  EvTraceLog DEBUG "[%s] Samples length: %i";
                  EvTraceLog DEBUG "[%s] Total seconds: %f"]
              ++ (if Qlt_le_dec 10 (stb_vorbis_stream_length_in_seconds v)
                  then [EvTraceLog WARNING "[%s] Ogg audio lenght is larger than 10 seconds (%f), that's a big file in memory, consider music streaming"]
                  else [])
              ++ [EvTraceLog DEBUG "[%s] Total samples calculated: %i";
                  EvTraceLog DEBUG "[%s] Samples obtained: %i";
                  EvVorbisClose])).
Proof.
  intros Hfile Hopen Hchan Htotal Hmalloc nchan total samples block.
  destruct (Hroom v nchan total Hchan ltac:(lia)) as (Hcount & Hlen & Hfit).
  fold samples in Hlen.
  assert (Z.of_nat (length samples) <= total) as Hsamples by lia.
  assert (length (concat (short_bytes <$> samples)) <= length block)%nat as Hwithin.
  { rewrite length_short_bytes. unfold block. rewrite Hmalloc. lia. }
  split; [exact Hsamples|]. split.
  { unfold shorts_in_block. rewrite length_app, length_short_bytes, length_drop.
    unfold block. rewrite Hmalloc. lia. }
  unfold LoadOGG, stb_vorbis_open_filename.
  cbv beta iota zeta delta [mbind M_bind].
  rewrite Hfile. cbn [mbind option_bind]. rewrite Hopen.
  cbv beta iota zeta delta [deref mret M_ret TraceLog modify].
  fold nchan. fold total.
  rewrite (int32_small total) by lia.
  rewrite (Z.mod_small (total * 2)) by lia.
  replace (total * 2) with (2 * total) by lia.
  fold block.
  unfold samples, read_samples in *.
  destruct (stb_vorbis_get_samples_short_interleaved v nchan total)
    as [[obtained got] v'].
  cbn [fst snd] in *.
  rewrite (bool_decide_eq_true_2 (length _ <= length _)%nat) by exact Hwithin.
  cbv beta iota zeta delta [when negb mbind M_bind mret M_ret TraceLog modify
                            stb_vorbis_close].
  unfold shorts_in_block. rewrite <- length_short_bytes.
  assert (bool_decide (is_Some (Some v)) = true) as -> by reflexivity.
  destruct (Qlt_le_dec 10 (stb_vorbis_stream_length_in_seconds v));
    cbv beta iota zeta delta [mbind M_bind mret M_ret TraceLog modify];
    destruct s; norm_state; rewrite <- !app_assoc; reflexivity.
Qed.

(** On a file the decoder opens, [LoadOGG] allocates two bytes per short
    of the stream (length in samples times channels), asks the decoder
    once for that many shorts, and never stores outside the block: the
    wave holds the shorts obtained, low byte first, followed by what the
    block held, with the stream's rate and channels and 16 bits per
    sample; the decoder is closed last, and nothing but the trace
    changes. *)
Theorem LoadOGG_fills_its_block (Hroom : stores_within_room)
    (u : Indeterminate) (fileName : string) (s : State V)
    (bytes : list byte) (v : V) :
  files s !! fileName = Some bytes ->
  stb_vorbis_open bytes = Some v ->
  1 <= info_channels (stb_vorbis_get_info v) ->
  0 <= stb_vorbis_stream_length_in_samples v * info_channels (stb_vorbis_get_info v)
    < 2^30 ->
  (forall n, length (ind_malloc u n) = n) ->
  let nchan := info_channels (stb_vorbis_get_info v) in
  let total := stb_vorbis_stream_length_in_samples v * nchan in
  let samples := read_samples v nchan total in
  let block := ind_malloc u (Z.to_nat (2 * total)) in
  Z.of_nat (length samples) <= total
  /\ Z.of_nat (length (shorts_in_block samples block)) = 2 * total
  /\ LoadOGG u fileName s
     = Ok (MkWave (Heap (shorts_in_block samples block)) (2 * total)
                  (info_sample_rate (stb_vorbis_get_info v) mod 2^32) 16
                  (int16 nchan),
           MkState (musicEnabled s) (currentMusic s) (al s) (files s)
             (trace s
              ++ [EvVorbisOpen fileName true;
                  EvTraceLog DEBUG "[%s] Ogg sample rate: %i";
                  EvTraceLog DEBUG "[%s] Ogg channels: %i";
                  EvTraceLog DEBUG "[%s] Samples length: %i";
                  EvTraceLog DEBUG "[%s] Total seconds: %f"]
              ++ (if Qlt_le_dec 10 (stb_vorbis_stream_length_in_seconds v)
                  then [EvTraceLog WARNING "[%s] Ogg audio lenght is larger than 10 seconds (%f), that's a big file in memory, consider music streaming"]
                  else [])
              ++ [EvTraceLog DEBUG "[%s] Total samples calculated: %i";
                  EvTraceLog DEBUG "[%s] Samples obtained: %i";
                  EvVorbisClose])).
Proof. exact (LoadOGG_run Hroom u fileName s bytes v). Qed.

End LoadOGGProperties.

(** ** LoadSound *)

Lemma fresh_not_null (X : gset N) : fresh ({[0%N]} ∪ X) <> 0%N.
Proof.
  intros H0. apply (is_fresh ({[0%N]} ∪ X)). rewrite H0. set_solver.
Qed.

Lemma fresh_not_known {A} (m : gmap N A) : m !! fresh ({[0%N]} ∪ dom m) = None.
Proof.
  apply not_elem_of_dom. intros Hin.
  apply (is_fresh ({[0%N]} ∪ dom m)). set_solver.
Qed.

Section LoadSoundProperties.

Context {V : Type} `{StbVorbis V} `{Utils} `{ResInfoHeaderLayout}.

(** The block that makes a sound of a wave whose data pointer is null or
    the address of a block. *)
Lemma wave_to_sound_run (wave : Wave) (s : State V) :
  wave_data wave <> Wild ->
  wave_to_sound wave s = Ok (sound_of (al s), with_sound (sound_of (al s)) wave s).
Proof.
  intros Hdata.
  assert (UnloadWave (V := V) wave = mret tt) as Hfree.
  { unfold UnloadWave. destruct (wave_data wave); [reflexivity.. | contradiction]. }
  unfold wave_to_sound, sound_of, with_sound, sound_events.
  rewrite Hfree. rewrite bool_decide_eq_false_2 by exact Hdata. cbn [andb when].
  cbv beta iota zeta delta [mbind M_bind alGenSources alGenBuffers].
  rewrite gen_one_source. cbn [head default from_option id].
  cbv beta iota zeta delta [alSourcef alSource3f alSourcei alBufferData modify
                            mret M_ret].
  destruct s as [en m c fs tr]. destruct c as [srcs bufs err].
  norm_state. cbn [sound_source sound_buffer fst snd].
  set (src := AL.next_source (AL.MkContext srcs bufs err)).
  set (buf := (AL.next_buffers (AL.MkContext srcs bufs err)).1).
  rewrite !(check_source_valid src (AL.MkContext _ _ _))
    by (cbn [AL.sources]; rewrite lookup_insert_eq; eexists; reflexivity).
  cbn [AL.sources AL.buffers AL.error].
  assert (AL.alSourcei src AL_LOOPING 0
            (AL.MkContext (<[src := AL.new_source]> srcs) bufs err)
          = AL.MkContext (<[src := AL.new_source]> srcs) bufs err) as ->.
  { unfold AL.alSourcei. cbn [AL.sources]. rewrite lookup_insert_eq. reflexivity. }
  assert (AL.alGenBuffers 1 (AL.MkContext (<[src := AL.new_source]> srcs) bufs err)
          = ([buf], AL.MkContext (<[src := AL.new_source]> srcs)
                      (<[buf := AL.new_buffer]> bufs) err)) as -> by reflexivity.
  norm_state. cbn [head default from_option id fst snd].
  assert (AL.alBufferData buf (wave_format wave) (wave_samples wave)
            (int32 (wave_dataSize wave)) (int32 (wave_sampleRate wave))
            (AL.MkContext (<[src := AL.new_source]> srcs)
               (<[buf := AL.new_buffer]> bufs) err)
          = AL.MkContext (<[src := AL.new_source]> srcs)
              (<[buf := wave_buffer wave]> bufs) err) as ->.
  { unfold AL.alBufferData. cbn [AL.buffers AL.sources AL.error].
    rewrite lookup_insert_eq, insert_insert_eq. reflexivity. }
  assert (AL.alSourcei src AL_BUFFER (Z.of_N buf)
            (AL.MkContext (<[src := AL.new_source]> srcs)
               (<[buf := wave_buffer wave]> bufs) err)
          = AL.MkContext (<[src := AL.Source AL.AL_INITIAL [] [buf]]> srcs)
              (<[buf := wave_buffer wave]> bufs) err) as ->.
  { unfold AL.alSourcei. cbn [AL.buffers AL.sources AL.error].
    rewrite lookup_insert_eq.
    assert (Z.of_N buf <> 0) as Hbuf.
    { pose proof (fresh_not_null (dom bufs)) as Hnn. unfold buf. cbn. lia. }
    destruct (Z.eqb_spec (Z.of_N buf) 0) as [|_]; [contradiction|].
    rewrite N2Z.id, lookup_insert_eq.
    rewrite bool_decide_eq_true_2 by (eexists; reflexivity).
    unfold AL.with_source. cbn [AL.buffers AL.sources AL.error AL.src_state AL.new_source].
    rewrite insert_insert_eq. reflexivity. }
  rewrite <- !app_assoc. reflexivity.
Qed.

(** On a wave whose data pointer is wild the block does not return: the
    library is asked to read through the pointer, or, when no byte is
    asked for, the pointer is handed to [free]. *)
Lemma wave_to_sound_wild (wave : Wave) (s : State V) :
  wave_data wave = Wild ->
  wave_to_sound wave s = Fault InvalidPointer.
Proof.
  intros Hdata.
  unfold wave_to_sound, UnloadWave. rewrite Hdata.
  rewrite bool_decide_eq_true_2 by reflexivity. cbn [andb].
  cbv beta iota zeta delta [mbind M_bind alGenSources alGenBuffers].
  destruct (AL.alGenSources 1 (al s)) as [names c1].
  cbv beta iota zeta delta [alSourcef alSource3f alSourcei alBufferData modify
                            mret M_ret when raise_fault].
  cbn [al set_al record].
  match goal with
  | |- context [AL.alGenBuffers 1 ?c] => destruct (AL.alGenBuffers 1 c) as [names' c2]
  end.
  destruct (0 <? int32 (wave_dataSize wave)); reflexivity.
Qed.

End LoadSoundProperties.

Section LoadSoundFiles.

Context {V : Type} `{StbVorbis V} `{Utils} `{ResInfoHeaderLayout}.

(** The run of [LoadSound] on a well-formed .wav file. *)
Lemma LoadSound_wav_run (u : Indeterminate) (fileName : string)
    (s : State V) (w : wav_file) :
  GetExtension fileName = "wav"%string ->
  files s !! fileName = Some (wav_bytes w) ->
  wav_well_formed w ->
  LoadSound u fileName s
  = Ok (sound_of (al s),
        record (EvTraceLog INFO "[%s] Sample rate: %i - Channels: %i")
          (record (EvTraceLog INFO "[%s] Sound file loaded successfully")
             (with_sound (sound_of (al s)) (wav_wave w)
                (record (EvTraceLog INFO "[%s] Wave file loaded successfully") s)))).
Proof.
  intros Hext Hfile Hwf.
  unfold LoadSound. rewrite Hext. cbn [String.eqb Ascii.eqb Bool.eqb].
  cbv beta iota zeta delta [mbind M_bind].
  rewrite (LoadWAV_run u fileName s w Hfile Hwf).
  cbn [wave_data]. rewrite bool_decide_eq_false_2 by discriminate. cbn [negb].
  cbv beta iota zeta delta [mbind M_bind].
  rewrite wave_to_sound_run by discriminate.
  cbv beta iota zeta delta [TraceLog modify mret M_ret].
  reflexivity.
Qed.

(** [LoadSound] on a well-formed .wav file of a kind the library takes:
    the sound returned is a new source and a new buffer (names the
    library did not know, neither of them the null name); the buffer
    holds the data of the file in the format its channels and bits per
    sample give, the source is in its initial state with that one buffer
    attached; the music stream is not touched. *)
Theorem LoadSound_makes_sound_of_wav_file (u : Indeterminate) (fileName : string)
    (s : State V) (w : wav_file) :
  GetExtension fileName = "wav"%string ->
  files s !! fileName = Some (wav_bytes w) ->
  wav_well_formed w ->
  wav_playable w ->
  let sound := sound_of (al s) in
  exists s' : State V,
    LoadSound u fileName s = Ok (sound, s')
    /\ sound_source sound <> 0%N
    /\ sound_buffer sound <> 0%N
    /\ AL.sources (al s) !! sound_source sound = None
    /\ AL.buffers (al s) !! sound_buffer sound = None
    /\ AL.sources (al s')
       = <[sound_source sound := AL.Source AL.AL_INITIAL [] [sound_buffer sound]]>
           (AL.sources (al s))
    /\ AL.buffers (al s')
       = <[sound_buffer sound :=
             AL.Buffer (if wav_numChannels w =? 1
                        then if wav_bitsPerSample w =? 8
                             then AL.AL_FORMAT_MONO8 else AL.AL_FORMAT_MONO16
                        else if wav_bitsPerSample w =? 8
                             then AL.AL_FORMAT_STEREO8 else AL.AL_FORMAT_STEREO16)
                       ((fun b => Some (byte_val b)) <$> wav_data w)
                       (Z.of_nat (length (wav_data w))) (wav_sampleRate w)]>
           (AL.buffers (al s))
    /\ AL.error (al s') = AL.error (al s)
    /\ trace s'
       = trace s
         ++ [EvTraceLog INFO "[%s] Wave file loaded successfully"]
         ++ sound_events sound (wav_wave w)
         ++ [EvTraceLog INFO "[%s] Sound file loaded successfully";
             EvTraceLog INFO "[%s] Sample rate: %i - Channels: %i"]
    /\ musicEnabled s' = musicEnabled s
    /\ currentMusic s' = currentMusic s.
Proof.
  intros Hext Hfile Hwf (Hchan & Hbits & Hrate & _) sound.
  eexists. split; [exact (LoadSound_wav_run u fileName s w Hext Hfile Hwf)|].
  split; [apply fresh_not_null|]. split; [apply fresh_not_null|].
  split; [apply fresh_not_known|]. split; [apply fresh_not_known|].
  pose proof Hwf as (_ & _ & _ & _ & Hsize & _).
  destruct s as [en m c fs tr]. norm_state.
  cbn [with_sound al trace musicEnabled currentMusic AL.sources AL.buffers AL.error].
  norm_state.
  split; [reflexivity|]. split.
  { unfold wave_buffer, wave_format, wave_samples, wav_wave.
    cbn [wave_channels wave_bitsPerSample wave_data wave_dataSize wave_sampleRate].
    rewrite !int32_small by lia.
    destruct Hchan as [-> | ->], Hbits as [-> | ->]; reflexivity. }
  split; [reflexivity|]. split; [|split; reflexivity].
  rewrite <- !app_assoc. reflexivity.
Qed.

(** When nothing is loaded (an extension that is neither "wav" nor
    "ogg", or a .wav file that cannot be opened) [LoadSound] logs the one
    warning and then tests the data pointer of a wave it never assigned.
    If that happens to be null, the uninitialised sound is returned and
    nothing else is done.  If it is a wild pointer, neither null nor the
    address of a block, the call goes on to make a sound of the wave and
    leaves defined behaviour: the library is asked to read through the
    pointer, or the pointer is handed to [free]. *)
Theorem LoadSound_nothing_loaded (u : Indeterminate) (fileName : string)
    (s : State V) :
  GetExtension fileName <> "ogg"%string ->
  (GetExtension fileName = "wav"%string -> files s !! fileName = None) ->
  let warned :=
    record (EvTraceLog WARNING
              (if String.eqb (GetExtension fileName) "wav"
               then "[%s] Could not open WAV file"
               else "[%s] Sound extension not recognized, it can't be loaded")) s in
  (wave_data (ind_wave u) = NULL ->
   LoadSound u fileName s = Ok (ind_sound u, warned))
  /\ (wave_data (ind_wave u) = Wild ->
      LoadSound u fileName s = Fault InvalidPointer).
Proof.
  intros Hogg Hwav warned. unfold warned, LoadSound.
  destruct (String.eqb (GetExtension fileName) "wav") eqn:Hw.
  - apply String.eqb_eq in Hw.
    unfold LoadWAV, fopen.
    cbv beta iota zeta delta [mbind M_bind gets TraceLog modify mret M_ret].
    rewrite (Hwav Hw). cbn [fmap option_fmap option_map].
    split.
    + intros Hnull. rewrite Hnull. reflexivity.
    + intros Hwild. rewrite Hwild.
      rewrite bool_decide_eq_false_2 by discriminate. cbn [negb].
      rewrite wave_to_sound_wild by exact Hwild. reflexivity.
  - destruct (String.eqb_spec (GetExtension fileName) "ogg") as [Ho|_];
      [contradiction|].
    cbv beta iota zeta delta [mbind M_bind gets TraceLog modify mret M_ret].
    split.
    + intros Hnull. rewrite Hnull. reflexivity.
    + intros Hwild. rewrite Hwild.
      rewrite bool_decide_eq_false_2 by discriminate. cbn [negb].
      rewrite wave_to_sound_wild by exact Hwild. reflexivity.
Qed.

(** [LoadSound] on an .ogg file the decoder opens, mono or stereo: the
    sound returned is a new source with a new buffer attached; the buffer
    holds the block [LoadOGG] filled, as 16-bit mono or stereo data at
    the rate of the stream; the music stream is not touched. *)
Theorem LoadSound_makes_sound_of_ogg_file (Hroom : stores_within_room)
    (u : Indeterminate) (fileName : string) (s : State V)
    (bytes : list byte) (v : V) :
  GetExtension fileName = "ogg"%string ->
  files s !! fileName = Some bytes ->
  stb_vorbis_open bytes = Some v ->
  info_channels (stb_vorbis_get_info v) = 1
  \/ info_channels (stb_vorbis_get_info v) = 2 ->
  0 < stb_vorbis_stream_length_in_samples v * info_channels (stb_vorbis_get_info v)
    < 2^30 ->
  0 < info_sample_rate (stb_vorbis_get_info v) < 2^31 ->
  (forall n, length (ind_malloc u n) = n) ->
  let nchan := info_channels (stb_vorbis_get_info v) in
  let total := stb_vorbis_stream_length_in_samples v * nchan in
  let samples := read_samples v nchan total in
  let block := ind_malloc u (Z.to_nat (2 * total)) in
  let sound := sound_of (al s) in
  exists s' : State V,
    LoadSound u fileName s = Ok (sound, s')
    /\ AL.sources (al s) !! sound_source sound = None
    /\ AL.buffers (al s) !! sound_buffer sound = None
    /\ AL.sources (al s')
       = <[sound_source sound := AL.Source AL.AL_INITIAL [] [sound_buffer sound]]>
           (AL.sources (al s))
    /\ AL.buffers (al s')
       = <[sound_buffer sound :=
             AL.Buffer (if nchan =? 1 then AL.AL_FORMAT_MONO16
                        else AL.AL_FORMAT_STEREO16)
                       ((fun b => Some (byte_val b)) <$> shorts_in_block samples block)
                       (2 * total) (info_sample_rate (stb_vorbis_get_info v))]>
           (AL.buffers (al s))
    /\ AL.error (al s') = AL.error (al s)
    /\ last (trace s')
       = Some (EvTraceLog INFO "[%s] Sample rate: %i - Channels: %i")
    /\ musicEnabled s' = musicEnabled s
    /\ currentMusic s' = currentMusic s.
Proof.
  intros Hext Hfile Hopen Hchan Htotal Hrate Hmalloc nchan total samples block sound.
  destruct (LoadOGG_run Hroom u fileName s bytes v Hfile Hopen
              ltac:(lia) ltac:(lia) Hmalloc) as (_ & _ & Hload).
  fold nchan total samples block in Hload.
  eexists. split.
  { unfold LoadSound. rewrite Hext. cbn [String.eqb Ascii.eqb Bool.eqb].
    cbv beta iota zeta delta [mbind M_bind].
    rewrite Hload. cbn [wave_data].
    rewrite bool_decide_eq_false_2 by discriminate. cbn [negb].
    cbv beta iota zeta delta [mbind M_bind].
    rewrite wave_to_sound_run by discriminate.
    cbv beta iota zeta delta [TraceLog modify mret M_ret].
    reflexivity. }
  split; [apply fresh_not_known|]. split; [apply fresh_not_known|].
  destruct s as [en m c fs tr].
  cbv beta iota zeta delta [record set_al musicEnabled currentMusic al files trace
                            with_sound].
  cbn [AL.sources AL.buffers AL.error].
  split; [reflexivity|]. split.
  { unfold wave_buffer, wave_format, wave_samples.
    cbn [wave_channels wave_bitsPerSample wave_data wave_dataSize wave_sampleRate
         default from_option id].
    rewrite (Z.mod_small (info_sample_rate _)) by lia.
    rewrite !int32_small by (unfold total, nchan; lia).
    fold nchan in Hchan. destruct Hchan as [Hc | Hc]; rewrite Hc; reflexivity. }
  split; [reflexivity|]. split; [|split; reflexivity].
  rewrite !last_snoc. reflexivity.
Qed.

End LoadSoundFiles.

(** ** UnloadSound, PlaySound, PauseSound, StopSound, SoundIsPlaying *)

Section SoundPlayingProperties.

Context {V : Type} `{StbVorbis V} `{Utils} `{ResInfoHeaderLayout}.

(** Deleting a source the library knows, then a buffer it knows that no
    remaining source holds. *)
Lemma UnloadSound_run (sound : Sound) (s : State V) :
  is_Some (AL.sources (al s) !! sound_source sound) ->
  is_Some (AL.buffers (al s) !! sound_buffer sound) ->
  (forall k other,
     k <> sound_source sound -> AL.sources (al s) !! k = Some other ->
     sound_buffer sound ∉ AL.queue other) ->
  UnloadSound sound s
  = Ok (tt,
        MkState (musicEnabled s) (currentMusic s)
          (AL.MkContext (delete (sound_source sound) (AL.sources (al s)))
                        (delete (sound_buffer sound) (AL.buffers (al s)))
                        (AL.error (al s)))
          (files s)
          (trace s ++ [EvDeleteSources [sound_source sound];
                       EvDeleteBuffers [sound_buffer sound]])).
Proof.
  intros Hsrc Hbuf Hfree.
  unfold UnloadSound.
  cbv beta iota zeta delta [mbind M_bind alDeleteSources alDeleteBuffers modify].
  destruct s as [en m c fs tr]. destruct c as [srcs bufs err].
  norm_state. cbn [AL.sources AL.buffers AL.error] in *.
  assert (AL.alDeleteSources [sound_source sound] (AL.MkContext srcs bufs err)
          = AL.MkContext (delete (sound_source sound) srcs) bufs err) as ->.
  { unfold AL.alDeleteSources. cbn [forallb AL.sources AL.buffers AL.error foldr].
    rewrite bool_decide_eq_true_2 by exact Hsrc. reflexivity. }
  assert (AL.alDeleteBuffers [sound_buffer sound]
            (AL.MkContext (delete (sound_source sound) srcs) bufs err)
          = AL.MkContext (delete (sound_source sound) srcs)
                         (delete (sound_buffer sound) bufs) err) as ->.
  { unfold AL.alDeleteBuffers. cbn [forallb existsb AL.sources AL.buffers AL.error foldr].
    rewrite bool_decide_eq_true_2 by exact Hbuf. cbn [andb].
    rewrite in_use_false; [reflexivity|].
    cbn [AL.sources]. intros k other Hk.
    apply lookup_delete_Some in Hk as [Hne Hk].
    apply (Hfree k other); [congruence | exact Hk]. }
  rewrite <- !app_assoc. reflexivity.
Qed.

(** Loading a .wav file and unloading the sound leaves the library as it
    was: the source and the buffer made for the sound are both deleted
    (the source first, so that the buffer is free to go), and no error is
    raised. *)
Theorem UnloadSound_undoes_LoadSound (u : Indeterminate) (fileName : string)
    (s : State V) (w : wav_file) :
  GetExtension fileName = "wav"%string ->
  files s !! fileName = Some (wav_bytes w) ->
  wav_well_formed w ->
  wav_playable w ->
  queues_known (al s) ->
  exists (sound : Sound) (s1 s2 : State V),
    LoadSound u fileName s = Ok (sound, s1)
    /\ UnloadSound sound s1 = Ok (tt, s2)
    /\ al s2 = al s
    /\ musicEnabled s2 = musicEnabled s
    /\ currentMusic s2 = currentMusic s.
Proof.
  intros Hext Hfile Hwf _ Hknown.
  eexists _, _, _.
  split; [exact (LoadSound_wav_run u fileName s w Hext Hfile Hwf)|].
  pose proof (fresh_not_known (AL.sources (al s))) as Hsrc.
  pose proof (fresh_not_known (AL.buffers (al s))) as Hbuf.
  split.
  - apply UnloadSound_run.
    + destruct s as [en m c fs tr]. norm_state. cbn [with_sound al AL.sources].
      rewrite lookup_insert_eq. eexists. reflexivity.
    + destruct s as [en m c fs tr]. norm_state. cbn [with_sound al AL.buffers].
      rewrite lookup_insert_eq. eexists. reflexivity.
    + destruct s as [en m c fs tr]. norm_state. cbn [with_sound al AL.sources].
      intros k other Hne Hk Hin.
      rewrite lookup_insert_ne in Hk by congruence.
      destruct (Hknown k other _ Hk Hin) as [b Hb].
      cbn [al sound_of sound_buffer AL.next_buffers fst] in Hb, Hbuf.
      congruence.
  - destruct s as [en m c fs tr]. destruct c as [srcs bufs err]. norm_state.
    cbn [with_sound al musicEnabled currentMusic AL.sources AL.buffers AL.error
         sound_of sound_source sound_buffer AL.next_source AL.next_buffers fst] in *.
    rewrite !delete_insert_id by assumption.
    split; [reflexivity | split; reflexivity].
Qed.

(** The state of a source after each of the three calls. *)
Lemma play_lookup (c : AL.context) (n : ALuint) (x : AL.source) :
  AL.sources c !! n = Some x ->
  exists p q, AL.sources (AL.alSourcePlay n c) !! n
              = Some (AL.Source AL.AL_PLAYING p q).
Proof.
  intros Hx. unfold AL.alSourcePlay. rewrite Hx.
  destruct (_ =? _); eexists _, _; apply lookup_insert_eq.
Qed.

Lemma pause_lookup (c : AL.context) (n : ALuint) (p q : list ALuint) :
  AL.sources c !! n = Some (AL.Source AL.AL_PLAYING p q) ->
  AL.sources (AL.alSourcePause n c) !! n = Some (AL.Source AL.AL_PAUSED p q).
Proof.
  intros Hx. unfold AL.alSourcePause. rewrite Hx. apply lookup_insert_eq.
Qed.

Lemma stop_lookup (c : AL.context) (n : ALuint) (p q : list ALuint) :
  AL.sources c !! n = Some (AL.Source AL.AL_PLAYING p q) ->
  AL.sources (AL.alSourceStop n c) !! n = Some (AL.Source AL.AL_STOPPED (p ++ q) []).
Proof.
  intros Hx. unfold AL.alSourceStop. rewrite Hx. apply lookup_insert_eq.
Qed.

Lemma SoundIsPlaying_known (state : Z) (sound : Sound) (s : State V) (x : AL.source) :
  AL.sources (al s) !! sound_source sound = Some x ->
  SoundIsPlaying state sound s
  = Ok (AL.src_state x =? AL.AL_PLAYING,
        record (EvGetSourcei (sound_source sound) AL_SOURCE_STATE (AL.src_state x)) s).
Proof.
  intros Hx. unfold SoundIsPlaying.
  cbv beta iota zeta delta [mbind M_bind alGetSourcei mret M_ret].
  unfold AL.alGetSourcei. rewrite Hx. cbn [default from_option id].
  destruct (AL.src_state x =? AL.AL_PLAYING); destruct s; reflexivity.
Qed.

(** For a sound whose source the library knows, [SoundIsPlaying] follows
    the last of [PlaySound], [PauseSound] and [StopSound], whatever its
    uninitialised local holds: true after a play, false after a pause or
    a stop, true again once a paused sound is played. *)
Theorem SoundIsPlaying_follows_last_call (sound : Sound) (state : Z) (s : State V) :
  is_Some (AL.sources (al s) !! sound_source sound) ->
  (exists s', (PlaySound sound;; SoundIsPlaying state sound) s = Ok (true, s'))
  /\ (exists s', (PlaySound sound;; PauseSound sound;;
                  SoundIsPlaying state sound) s = Ok (false, s'))
  /\ (exists s', (PlaySound sound;; StopSound sound;;
                  SoundIsPlaying state sound) s = Ok (false, s'))
  /\ (exists s', (PlaySound sound;; PauseSound sound;; PlaySound sound;;
                  SoundIsPlaying state sound) s = Ok (true, s')).
Proof.
  intros [x Hx].
  destruct (play_lookup (al s) _ x Hx) as (p & q & Hplay).
  pose proof (pause_lookup _ _ _ _ Hplay) as Hpause.
  pose proof (stop_lookup _ _ _ _ Hplay) as Hstop.
  destruct (play_lookup _ _ _ Hpause) as (p' & q' & Hagain).
  unfold PlaySound, PauseSound, StopSound.
  cbv beta iota zeta delta [mbind M_bind alSourcePlay alSourcePause alSourceStop
                            TraceLog modify].
  destruct s as [en m c fs tr]. norm_state. cbn [al] in *.
  split; [|split; [|split]]; eexists.
  - erewrite SoundIsPlaying_known by exact Hplay. reflexivity.
  - erewrite SoundIsPlaying_known by exact Hpause. reflexivity.
  - erewrite SoundIsPlaying_known by exact Hstop. reflexivity.
  - erewrite SoundIsPlaying_known by exact Hagain. reflexivity.
Qed.

(** Once a sound is unloaded the library no longer knows its source, and
    [SoundIsPlaying] answers from the local it never initialised: true
    exactly when that local happens to hold [AL_PLAYING]. *)
Theorem SoundIsPlaying_after_UnloadSound (sound : Sound) (state : Z) (s : State V) :
  is_Some (AL.sources (al s) !! sound_source sound) ->
  exists s',
    (UnloadSound sound;; SoundIsPlaying state sound) s
    = Ok (state =? AL.AL_PLAYING, s')
    /\ AL.sources (al s') !! sound_source sound = None.
Proof.
  intros Hx.
  unfold UnloadSound, SoundIsPlaying.
  cbv beta iota zeta delta [mbind M_bind alDeleteSources alDeleteBuffers modify
                            alGetSourcei mret M_ret].
  destruct s as [en m c fs tr]. norm_state. cbn [al] in *.
  assert (AL.sources (AL.alDeleteBuffers [sound_buffer sound]
                        (AL.alDeleteSources [sound_source sound] c))
          !! sound_source sound = None) as Hgone.
  { assert (AL.sources (AL.alDeleteSources [sound_source sound] c)
            !! sound_source sound = None) as Hdel.
    { unfold AL.alDeleteSources. cbn [forallb foldr].
      rewrite bool_decide_eq_true_2 by exact Hx. cbn [andb AL.sources].
      apply lookup_delete_eq. }
    unfold AL.alDeleteBuffers.
    destruct (forallb _ _); [destruct (existsb _ _)|]; exact Hdel. }
  unfold AL.alGetSourcei. rewrite Hgone. cbn [default from_option id].
  eexists. split.
  - destruct (state =? AL.AL_PLAYING); reflexivity.
  - exact Hgone.
Qed.

End SoundPlayingProperties.

(** ** The music stream: failed opens, polls with nothing to do *)

Section MusicStreamEdges.

Context {V : Type} `{StbVorbis V} `{Utils}.

(** A file name whose extension is not "ogg" is refused with a warning
    and nothing else happens: music that was playing keeps playing.  A
    .ogg file that does not open is found out only after the current
    music has been stopped and released: the call ends with music
    disabled and a null stream. *)
Theorem PlayMusicStream_refuses_or_stops (fileName : string) (s : State V) :
  (GetExtension fileName <> "ogg"%string ->
   PlayMusicStream fileName s
   = Ok (tt, record (EvTraceLog WARNING
                       "[%s] Music extension not recognized, it can't be loaded") s))
  /\ (GetExtension fileName = "ogg"%string ->
      files s !! fileName ≫= stb_vorbis_open = None ->
      exists s0 s' : State V,
        StopMusicStream s = Ok (tt, s0)
        /\ PlayMusicStream fileName s = Ok (tt, s')
        /\ s' = record (EvTraceLog WARNING "[%s] Could not open ogg audio file")
                  (set_currentMusic (set_stream None (currentMusic s0))
                     (record (EvVorbisOpen fileName false) s0))
        /\ musicEnabled s' = false
        /\ stream (currentMusic s') = None).
Proof.
  split.
  - intros Hext. unfold PlayMusicStream.
    destruct (String.eqb_spec (GetExtension fileName) "ogg"); [contradiction|].
    reflexivity.
  - intros Hext Hopen.
    destruct (StopMusicStream_ok s) as (s0 & Hstop & Hoff & Hmusic & Hfiles).
    exists s0. eexists. split; [exact Hstop|].
    unfold PlayMusicStream. rewrite Hext. cbn [String.eqb Ascii.eqb Bool.eqb].
    cbv beta iota zeta delta [mbind M_bind]. rewrite Hstop.
    unfold stb_vorbis_open_filename. rewrite Hfiles, Hopen.
    cbv beta iota zeta delta [assign modify TraceLog].
    split; [reflexivity|]. split; [reflexivity|].
    split; [exact Hoff | reflexivity].
Qed.

(** Neither time query looks at [musicEnabled] or tests the stream: with
    a null stream (before any stream was opened, or after a .ogg file
    failed to open) both hand the null handle to the decoder. *)
Theorem GetMusicTime_on_null_stream (fileName : string) (s : State V) :
  (stream (currentMusic s) = None ->
   GetMusicTimeLength s = Fault NullDereference
   /\ GetMusicTimePlayed s = Fault NullDereference)
  /\ (GetExtension fileName = "ogg"%string ->
      files s !! fileName ≫= stb_vorbis_open = None ->
      (PlayMusicStream fileName;; GetMusicTimeLength) s = Fault NullDereference
      /\ (PlayMusicStream fileName;; GetMusicTimePlayed) s = Fault NullDereference).
Proof.
  assert (forall t : State V, stream (currentMusic t) = None ->
            GetMusicTimeLength t = Fault NullDereference
            /\ GetMusicTimePlayed t = Fault NullDereference) as Hnull.
  { intros t Ht. unfold GetMusicTimeLength, GetMusicTimePlayed, samplesPlayed.
    cbv beta iota zeta delta [mbind M_bind music gets].
    rewrite Ht. split; reflexivity. }
  split; [apply Hnull|].
  intros Hext Hopen.
  destruct (StopMusicStream_ok s) as (s0 & Hstop & Hoff & Hmusic & Hfiles).
  assert (exists s', PlayMusicStream fileName s = Ok (tt, s')
                     /\ stream (currentMusic s') = None) as (s' & Hrun & Hstream).
  { eexists. unfold PlayMusicStream. rewrite Hext. cbn [String.eqb Ascii.eqb Bool.eqb].
    cbv beta iota zeta delta [mbind M_bind]. rewrite Hstop.
    unfold stb_vorbis_open_filename. rewrite Hfiles, Hopen.
    cbv beta iota zeta delta [assign modify TraceLog].
    split; reflexivity. }
  change ((PlayMusicStream fileName;; GetMusicTimeLength) s)
    with (match PlayMusicStream fileName s with
          | Ok (_, s1) => GetMusicTimeLength s1
          | Fault e => Fault e
          end).
  change ((PlayMusicStream fileName;; GetMusicTimePlayed) s)
    with (match PlayMusicStream fileName s with
          | Ok (_, s1) => GetMusicTimePlayed s1
          | Fault e => Fault e
          end).
  rewrite Hrun. apply Hnull. exact Hstream.
Qed.

(** A poll that finds music disabled does nothing at all; one that finds
    the source playing with no processed buffer asks the library its two
    questions and changes nothing: no decoder read, no buffer touched,
    the music record as it was. *)
Theorem UpdateMusicStream_with_nothing_to_do (state : Z) (s : State V) :
  (musicEnabled s = false -> UpdateMusicStream state s = Ok (tt, s))
  /\ (forall pending : list ALuint,
        musicEnabled s = true ->
        AL.sources (al s) !! source (currentMusic s)
        = Some (AL.Source AL.AL_PLAYING [] pending) ->
        UpdateMusicStream state s
        = Ok (tt, record (EvGetSourcei (source (currentMusic s)) AL_SOURCE_STATE
                                       AL.AL_PLAYING)
                    (record (EvGetSourcei (source (currentMusic s))
                                          AL_BUFFERS_PROCESSED 0) s))).
Proof.
  split.
  - intros Hoff. unfold UpdateMusicStream.
    cbv beta iota zeta delta [mbind M_bind gets when]. rewrite Hoff. reflexivity.
  - intros pending Hon Hlook. unfold UpdateMusicStream.
    cbv beta iota zeta delta [mbind M_bind gets when music alGetSourcei].
    rewrite Hon.
    destruct (get_source_state _ _ _ _ _ Hlook) as [Hstate Hprocessed].
    rewrite Hprocessed.
    cbv beta iota zeta. cbn [default from_option id length Z.of_nat Z.to_nat].
    cbn [refill_loop]. cbv beta iota zeta delta [mret M_ret].
    destruct s as [en m c fs tr]. cbn [al currentMusic] in *.
    cbv beta iota zeta delta [record set_al musicEnabled currentMusic al files trace].
    change (Z.to_nat (Z.of_nat 0)) with 0%nat. cbn [refill_loop].
    cbv beta iota zeta delta [mret M_ret].
    rewrite Hstate.
    cbv beta iota zeta. cbn [default from_option id].
    reflexivity.
Qed.

End MusicStreamEdges.

(** ** Pausing, and asking whether music plays *)

Section MusicStreamPolling.

Context {V : Type} `{StbVorbis V} `{Utils}.

(** [StopMusicStream] on a running stream deletes the source and leaves
    the music record as it was. *)
Lemma StopMusicStream_forgets_source (s : State V) (v : V) (state : Z)
    (processed pending : list ALuint) :
  musicEnabled s = true ->
  stream (currentMusic s) = Some v ->
  AL.sources (al s) !! source (currentMusic s)
  = Some (AL.Source state processed pending) ->
  state <> AL.AL_INITIAL ->
  exists s',
    StopMusicStream s = Ok (tt, s')
    /\ AL.sources (al s') !! source (currentMusic s) = None
    /\ currentMusic s' = currentMusic s
    /\ musicEnabled s' = false.
Proof.
  intros Hen Hstream Hlook Hstate.
  set (src := source (currentMusic s)) in *.
  set (queue := processed ++ pending).
  unfold StopMusicStream.
  cbv beta iota delta [mbind M_bind gets when].
  rewrite Hen.
  cbv beta iota delta [mbind M_bind music gets modify alSourceStop EmptyMusicStream
                        alGetSourcei alDeleteSources alDeleteBuffers mret M_ret].
  cbn [al set_al record currentMusic].
  fold src.
  assert (AL.alSourceStop src (al s)
          = AL.with_source src (AL.Source AL.AL_STOPPED queue []) (al s)) as ->.
  { unfold AL.alSourceStop. rewrite Hlook. cbn.
    destruct (Z.eqb_spec state AL.AL_INITIAL); [contradiction | reflexivity]. }
  assert (AL.alGetSourcei src AL_BUFFERS_QUEUED
            (AL.with_source src (AL.Source AL.AL_STOPPED queue []) (al s))
          = (Some (Z.of_nat (length queue)),
             AL.with_source src (AL.Source AL.AL_STOPPED queue []) (al s))) as ->.
  { unfold AL.alGetSourcei. cbn. rewrite lookup_insert_eq.
    unfold AL.queue. cbn. rewrite app_nil_r. reflexivity. }
  cbv beta iota zeta. cbn [default from_option id]. rewrite Nat2Z.id.
  match goal with
  | |- context [unqueue_loop _ ?b ?s0] =>
      destruct (unqueue_loop_drains src AL.AL_STOPPED [] queue b s0)
        as (s1 & -> & _ & Hsources & _ & _ & _ & Hmusic & _)
  end.
  { reflexivity. }
  { cbn. apply lookup_insert_eq. }
  cbn in Hsources, Hmusic.
  rewrite insert_insert_eq in Hsources.
  rewrite !Hmusic. fold src. rewrite Hstream.
  cbn [stb_vorbis_close modify].
  eexists. split; [reflexivity|].
  cbn [trace al musicEnabled currentMusic set_musicEnabled record set_al].
  split; [|split; [exact Hmusic | reflexivity]].
  assert (AL.sources (AL.alDeleteSources [src] (al s1))
          = delete src (AL.sources (al s))) as Hgone.
  { unfold AL.alDeleteSources. cbn [forallb]. rewrite Hsources.
    rewrite lookup_insert_eq. cbn. apply delete_insert_eq. }
  match goal with
  | |- AL.sources (AL.alDeleteBuffers ?bs ?c) !! _ = _ =>
      assert (AL.sources (AL.alDeleteBuffers bs c) = delete src (AL.sources (al s)))
        as ->
  end.
  { rewrite <- Hgone. unfold AL.alDeleteBuffers.
    destruct (forallb _ _); [destruct (existsb _ _)|]; reflexivity. }
  apply lookup_delete_eq.
Qed.

(** [MusicIsPlaying] does not look at [musicEnabled].  While the library
    knows the music source the answer is whether its state is
    [AL_PLAYING]; once [StopMusicStream] has deleted the source (as
    before any stream was opened, the source name then being one the
    library does not know) the answer is read from a local that was never
    written: true exactly when it happens to hold [AL_PLAYING]. *)
Theorem MusicIsPlaying_after_StopMusicStream (s : State V) (local : Z) :
  (forall x : AL.source,
     AL.sources (al s) !! source (currentMusic s) = Some x ->
     exists s', MusicIsPlaying local s = Ok (AL.src_state x =? AL.AL_PLAYING, s'))
  /\ (AL.sources (al s) !! source (currentMusic s) = None ->
      exists s', MusicIsPlaying local s = Ok (local =? AL.AL_PLAYING, s'))
  /\ (forall (v : V) (state : Z) (processed pending : list ALuint),
        musicEnabled s = true ->
        stream (currentMusic s) = Some v ->
        AL.sources (al s) !! source (currentMusic s)
        = Some (AL.Source state processed pending) ->
        state <> AL.AL_INITIAL ->
        exists s',
          (StopMusicStream;; MusicIsPlaying local) s
          = Ok (local =? AL.AL_PLAYING, s')).
Proof.
  assert (forall t : State V,
            AL.sources (al t) !! source (currentMusic t) = None ->
            exists t', MusicIsPlaying local t = Ok (local =? AL.AL_PLAYING, t'))
    as Hunknown.
  { intros t Ht. unfold MusicIsPlaying.
    cbv beta iota zeta delta [mbind M_bind music gets alGetSourcei mret M_ret].
    unfold AL.alGetSourcei. rewrite Ht. cbn [default from_option id].
    eexists. reflexivity. }
  split; [|split; [apply Hunknown|]].
  - intros x Hx. unfold MusicIsPlaying.
    cbv beta iota zeta delta [mbind M_bind music gets alGetSourcei mret M_ret].
    unfold AL.alGetSourcei. rewrite Hx. cbn [default from_option id].
    eexists. reflexivity.
  - intros v state processed pending Hen Hstream Hlook Hstate.
    destruct (StopMusicStream_forgets_source s v state processed pending
                Hen Hstream Hlook Hstate) as (s1 & Hstop & Hgone & Hmusic & _).
    change ((StopMusicStream;; MusicIsPlaying local) s)
      with (match StopMusicStream s with
            | Ok (_, s1) => MusicIsPlaying local s1
            | Fault e => Fault e
            end).
    rewrite Hstop. apply Hunknown. rewrite Hmusic. exact Hgone.
Qed.

(** [PauseMusicStream] does not record that music is paused, and the next
    poll undoes it: [UpdateMusicStream] finds the source not playing and,
    the stream being still active, plays it again. *)
Theorem UpdateMusicStream_resumes_paused_stream
    (s : State V) (local : Z) (pending : list ALuint) :
  musicEnabled s = true ->
  AL.sources (al s) !! source (currentMusic s)
  = Some (AL.Source AL.AL_PLAYING [] pending) ->
  let src := source (currentMusic s) in
  exists s1 s' : State V,
    PauseMusicStream s = Ok (tt, s1)
    /\ AL.sources (al s1) !! src = Some (AL.Source AL.AL_PAUSED [] pending)
    /\ musicEnabled s1 = true
    /\ UpdateMusicStream local s1 = Ok (tt, s')
    /\ AL.sources (al s') !! src = Some (AL.Source AL.AL_PLAYING [] pending)
    /\ trace s'
       = trace s
         ++ [EvSourcePause src;
             EvGetSourcei src AL_BUFFERS_PROCESSED 0;
             EvGetSourcei src AL_SOURCE_STATE AL.AL_PAUSED;
             EvSourcePlay src].
Proof.
  intros Hen Hlook src.
  assert (AL.alSourcePause src (al s)
          = AL.with_source src (AL.Source AL.AL_PAUSED [] pending) (al s)) as Hpause.
  { unfold AL.alSourcePause. fold src in Hlook. rewrite Hlook. reflexivity. }
  destruct s as [en m c fs tr].
  cbv beta iota zeta delta [musicEnabled currentMusic al files trace] in *.
  subst en.
  eexists. eexists.
  split.
  { unfold PauseMusicStream.
    cbv beta iota zeta delta [mbind M_bind music gets alSourcePause modify].
    reflexivity. }
  cbv beta iota zeta delta [record set_al musicEnabled currentMusic al files trace].
  fold src. rewrite Hpause.
  split; [apply lookup_insert_eq|]. split; [reflexivity|].
  unfold UpdateMusicStream.
  cbv beta iota zeta delta [mbind M_bind gets when music alGetSourcei
                            musicEnabled currentMusic al].
  fold src.
  set (paused := AL.with_source src (AL.Source AL.AL_PAUSED [] pending) c).
  assert (AL.sources paused !! src = Some (AL.Source AL.AL_PAUSED [] pending))
    as Hpaused by apply lookup_insert_eq.
  destruct (get_source_state _ _ _ _ _ Hpaused) as [Hstate Hprocessed].
  rewrite Hprocessed.
  cbv beta iota zeta delta [record set_al musicEnabled currentMusic al files trace].
  cbn [length default from_option id].
  change (Z.to_nat (Z.of_nat 0)) with 0%nat. cbn [refill_loop].
  cbv beta iota zeta delta [mret M_ret].
  fold src. rewrite Hstate.
  cbv beta iota zeta delta [record set_al musicEnabled currentMusic al files trace].
  cbn [default from_option id].
  change (negb (AL.AL_PAUSED =? AL.AL_PLAYING) && true) with true.
  cbv beta iota zeta delta [alSourcePlay modify mbind M_bind gets music negb
                            record set_al musicEnabled currentMusic al files trace].
  fold src.
  split; [reflexivity|].
  cbv beta iota zeta delta [record set_al musicEnabled currentMusic al files trace].
  split.
  - fold paused. unfold AL.alSourcePlay. rewrite Hpaused.
    cbn. apply lookup_insert_eq.
  - rewrite <- !app_assoc. reflexivity.
Qed.

(** Right after a stream is opened [MusicIsPlaying] says true, whatever
    its local holds; and [StopMusicStream] then deletes the source the
    stream was given and disables music. *)
Theorem MusicIsPlaying_after_PlayMusicStream (Hroom : stores_within_room)
    (s : State V) (fileName : string) (bytes : list byte) (v : V) (local : Z) :
  GetExtension fileName = "ogg"%string ->
  files s !! fileName = Some bytes ->
  stb_vorbis_open bytes = Some v ->
  1 <= info_channels (stb_vorbis_get_info v) ->
  exists s1 s2 s3 : State V,
    PlayMusicStream fileName s = Ok (tt, s1)
    /\ MusicIsPlaying local s1 = Ok (true, s2)
    /\ StopMusicStream s1 = Ok (tt, s3)
    /\ AL.sources (al s3) !! source (currentMusic s1) = None
    /\ musicEnabled s3 = false.
Proof.
  intros Hext Hfile Hopen Hchan.
  destruct (PlayMusicStream_run Hroom s fileName bytes v Hext Hfile Hopen Hchan)
    as (s0 & s1 & chunk0 & chunk1 & v1 & v2 & _ & Hrun & _ & _ & _ & _ & _ & _
        & _ & Hon & Hmusic & Hsrc & _).
  cbv zeta in Hmusic, Hsrc.
  assert (source (currentMusic s1) = AL.next_source (al s0)) as Hname
    by (rewrite Hmusic; reflexivity).
  rewrite <- Hname in Hsrc.
  destruct (StopMusicStream_forgets_source s1 v2 AL.AL_PLAYING []
              [(AL.next_buffers (al s0)).1; (AL.next_buffers (al s0)).2]
              Hon ltac:(rewrite Hmusic; reflexivity) Hsrc ltac:(discriminate))
    as (s3 & Hstop & Hgone & _ & Hoff).
  exists s1. eexists. exists s3.
  split; [exact Hrun|]. split; [|split; [exact Hstop | split; assumption]].
  unfold MusicIsPlaying.
  cbv beta iota zeta delta [mbind M_bind music gets alGetSourcei mret M_ret].
  unfold AL.alGetSourcei. rewrite Hsrc. reflexivity.
Qed.

End MusicStreamPolling.

(** ** BufferMusicStream: whole frames, and the counter *)

Lemma shorts_buffered_app (a b : list event) :
  shorts_buffered (a ++ b) = shorts_buffered a + shorts_buffered b.
Proof.
  unfold shorts_buffered. induction a as [|e a IH]; [reflexivity|].
  cbn [app foldr]. rewrite IH. destruct e; lia.
Qed.

Section BufferedFrames.

Context {V : Type} `{StbVorbis V} `{Utils}.

(** The shorts the decode loop adds are whole sample frames. *)
Lemma decode_loop_frames (Hroom : stores_within_room) (nchan : Z) :
  1 <= nchan ->
  forall (fuel : nat) (v : V) (written : list Z) (size : Z)
         (pcm : list (option Z)) (v' : V),
    Z.of_nat (length written) <= MUSIC_BUFFER_SIZE ->
    decode_loop fuel v nchan (pcm_after written) (Z.of_nat (length written))
    = Ok (size, pcm, v') ->
    (nchan | size - Z.of_nat (length written)).
Proof.
  intros Hchan fuel.
  induction fuel as [|fuel IH]; intros v written size pcm v' Hsize Hrun.
  - simpl in Hrun. destruct (_ <? _); [discriminate|].
    injection Hrun as <- _ _. rewrite Z.sub_diag. apply Z.divide_0_r.
  - simpl decode_loop in Hrun.
    destruct (Z.ltb_spec (Z.of_nat (length written)) MUSIC_BUFFER_SIZE) as [Hlt|Hge].
    + pose proof (Hroom v nchan (MUSIC_BUFFER_SIZE - Z.of_nat (length written))
                    Hchan ltac:(lia)) as (Hk & Hlen & Hfit).
      unfold read_count, read_samples in *.
      destruct (stb_vorbis_get_samples_short_interleaved v nchan
                  (MUSIC_BUFFER_SIZE - Z.of_nat (length written)))
        as [[k samples] v1] eqn:Hread.
      cbn [fst snd] in *.
      rewrite pcm_store_after in Hrun by lia.
      destruct (Z.ltb_spec 0 k) as [Hpos|Hzero].
      * assert (int32 (Z.of_nat (length written) + int32 (k * nchan))
                = Z.of_nat (length (written ++ samples))) as Hnext.
        { rewrite length_app, Nat2Z.inj_add, Hlen.
          unfold MUSIC_BUFFER_SIZE in *.
          rewrite (int32_small (k * nchan)) by lia.
          apply int32_small. lia. }
        rewrite Hnext in Hrun.
        apply IH in Hrun; [|rewrite length_app, Nat2Z.inj_add; lia].
        rewrite length_app, Nat2Z.inj_add, Hlen in Hrun.
        replace (size - Z.of_nat (length written))
          with ((size - (Z.of_nat (length written) + k * nchan)) + k * nchan) by lia.
        apply Z.divide_add_r; [exact Hrun|]. apply Z.divide_factor_r.
      * injection Hrun as <- _ _. rewrite Z.sub_diag. apply Z.divide_0_r.
    + injection Hrun as <- _ _. rewrite Z.sub_diag. apply Z.divide_0_r.
Qed.

(** One call on an open stream hands the buffer a whole number of sample
    frames, at most [MUSIC_BUFFER_SIZE] shorts, and lowers
    [totalSamplesLeft] by exactly the number of shorts it handed over: by
    nothing, with no upload and the answer false, when the decoder had
    none to give. *)
Theorem BufferMusicStream_counts_whole_frames (Hroom : stores_within_room)
    (buffer : ALuint) (s : State V) (v : V) :
  musicEnabled s = true ->
  stream (currentMusic s) = Some v ->
  1 <= channels (currentMusic s) ->
  exists (chunk : list Z) (v' : V) (s' : State V),
    BufferMusicStream buffer s = Ok (0 <? Z.of_nat (length chunk), s')
    /\ (channels (currentMusic s) | Z.of_nat (length chunk))
    /\ Z.of_nat (length chunk) <= MUSIC_BUFFER_SIZE
    /\ trace s'
       = trace s ++ fill_events buffer (format (currentMusic s))
                      (sampleRate (currentMusic s)) chunk
    /\ shorts_buffered (trace s')
       = shorts_buffered (trace s) + Z.of_nat (length chunk)
    /\ totalSamplesLeft (currentMusic s')
       = match chunk with
         | [] => totalSamplesLeft (currentMusic s)
         | _ => int32 (totalSamplesLeft (currentMusic s) - Z.of_nat (length chunk))
         end
    /\ stream (currentMusic s') = Some v'
    /\ (chunk = []
        <-> read_count v (channels (currentMusic s)) MUSIC_BUFFER_SIZE <= 0).
Proof.
  intros Hen Hstream Hchan.
  destruct (BufferMusicStream_total Hroom buffer s v Hen Hstream Hchan)
    as (chunk & v' & Hloop & Hbound & Hrun & Hnone & Hsome & _).
  exists chunk, v'. eexists. split; [exact Hrun|].
  assert (chunk = []
          <-> read_count v (channels (currentMusic s)) MUSIC_BUFFER_SIZE <= 0)
    as Hanswer.
  { split.
    - intros Hnil.
      destruct (Z.le_gt_cases
                  (read_count v (channels (currentMusic s)) MUSIC_BUFFER_SIZE) 0)
        as [Hle|Hgt]; [exact Hle|].
      exfalso. apply (Hsome ltac:(lia)). exact Hnil.
    - intros Hle. apply (Hnone Hle). }
  split.
  { pose proof (decode_loop_frames Hroom _ Hchan decode_fuel v []
                  (Z.of_nat (length chunk)) (pcm_after chunk) v'
                  ltac:(unfold MUSIC_BUFFER_SIZE; cbn; lia)) as Hframes.
    rewrite pcm_after_nil in Hframes. specialize (Hframes Hloop).
    cbn [length] in Hframes. change (Z.of_nat 0) with 0 in Hframes.
    rewrite Z.sub_0_r in Hframes. exact Hframes. }
  split; [exact Hbound|].
  rewrite buffered_fields. cbn [trace currentMusic totalSamplesLeft stream].
  split; [reflexivity|]. split; [|split; [reflexivity | split; [reflexivity|]]].
  - rewrite shorts_buffered_app. f_equal.
    unfold fill_events. destruct chunk as [|x chunk]; [reflexivity|].
    cbn [shorts_buffered foldr]. rewrite length_fmap. lia.
  - exact Hanswer.
Qed.

End BufferedFrames.

(** ** LoadSoundFromRES *)

Section ResourceSounds.

Context {V : Type} `{StbVorbis V} `{Utils} `{ResInfoHeaderLayout}.

(** On an archive the call comes down to the scan of its records, from
    the byte after the record count. *)
Lemma LoadSoundFromRES_scan_archive (u : Indeterminate) (rresName : string)
    (resId : Z) (s : State V) (version reserved : byte) (recs : list res_record) :
  files s !! rresName = Some (archive_bytes version reserved recs) ->
  Z.of_nat (length recs) < 2^15 ->
  LoadSoundFromRES_scan u rresName resId s
  = match
      scan_resources (length recs) u resId
        (file_at (list_byte_of_string "rRES" ++ [version; reserved]
                  ++ short_bytes (Z.of_nat (length recs)))
                 (concat (record_bytes <$> recs)))
        (ind_infoHeader u) false (ind_sound u) s
    with
    | Ok ((f, _, found, sound), s') =>
        (when (negb found)
           (TraceLog WARNING "[%s] Required resource id [%i] could not be found in the raylib resource file");;
         mret (sound, Some f)) s'
    | Fault e => Fault e
    end.
Proof.
  intros Hfile Hcount.
  assert (Z.to_nat (int16 (le_unsigned (short_bytes (Z.of_nat (length recs)))))
          = length recs) as Hn.
  { rewrite short_bytes_count by lia. apply Nat2Z.id. }
  unfold archive_bytes in Hfile.
  destruct (short_bytes (Z.of_nat (length recs))) as [|lo [|hi [|]]] eqn:Hsb;
    try (unfold short_bytes in Hsb; discriminate Hsb).
  set (body := concat (record_bytes <$> recs)) in *. clearbody body.
  unfold LoadSoundFromRES_scan, fopen. unfold_monad.
  rewrite Hfile.
  generalize dependent (length recs). intros count _ _ Hn.
  cbv -[scan_resources record int16 le_unsigned] in Hn |- *.
  rewrite Hn.
  match goal with
  | |- context [scan_resources ?a1 ?a2 ?a3 ?a4 ?a5 ?a6 ?a7 ?a8] =>
      destruct (scan_resources a1 a2 a3 a4 a5 a6 a7 a8)
        as [[[[[f0 h0] found] sound] s']|e]
  end; [destruct found|]; reflexivity.
Qed.

(** A run of records none of which has the requested id is skipped, and
    the scan goes on with the records that follow. *)
Lemma scan_skips_run (u : Indeterminate) (resId : Z) (skipped : list res_record) :
  Forall well_formed skipped ->
  Forall (fun r => infoHeader_id (rec_header r) <> resId) skipped ->
  forall (k : nat) (pre tail hdr0 : list byte) (found : bool) (sound : Sound)
         (s : State V),
    exists hdr',
      scan_resources (length skipped + k) u resId
        (file_at pre (concat (record_bytes <$> skipped) ++ tail))
        hdr0 found sound s
      = scan_resources k u resId
          (file_at (pre ++ concat (record_bytes <$> skipped)) tail)
          hdr' found sound s.
Proof.
  intros Hwf Hids. induction skipped as [|r rest IH];
    intros k pre tail hdr0 found sound s.
  - exists hdr0. cbn [length Nat.add fmap list_fmap concat app].
    rewrite app_nil_r. reflexivity.
  - apply Forall_cons in Hwf as [Hr Hwf]. apply Forall_cons in Hids as [Hid Hids].
    destruct (IH Hwf Hids k (pre ++ record_bytes r) tail (rec_header r) found sound s)
      as (hdr' & Hrun).
    exists hdr'.
    cbn [length Nat.add]. rewrite fmap_cons, concat_cons.
    unfold file_at in *.
    rewrite <- !app_assoc in *.
    rewrite scan_skips_record by assumption.
    rewrite length_app, Nat2Z.inj_add in Hrun. rewrite Hrun.
    rewrite !length_app, !Nat2Z.inj_add. reflexivity.
Qed.




(** When the requested id belongs to the last record of the archive and
    that record is not a SOUND, the one message is the warning that it
    does not seem to be a valid SOUND resource; nothing is made, the
    uninitialised sound is returned, and the record's parameters and
    data are left unread: the file stays just after the record's
    header. *)
Theorem LoadSoundFromRES_wrong_type (u : Indeterminate)
    (rresName : string) (resId : Z) (s : State V) (version reserved : byte)
    (pre : list res_record) (r : res_record) :
  files s !! rresName = Some (archive_bytes version reserved (pre ++ [r])) ->
  Forall well_formed pre ->
  length (rec_header r) = sizeof_ResInfoHeader ->
  Z.of_nat (length (pre ++ [r])) < 2^15 ->
  infoHeader_id (rec_header r) = resId ->
  infoHeader_type (rec_header r) <> 1 ->
  Forall (fun r' => infoHeader_id (rec_header r') <> resId) pre ->
  LoadSoundFromRES_scan u rresName resId s
  = Ok ((ind_sound u,
         Some (MkFILE (archive_bytes version reserved (pre ++ [r]))
                      (offset_after pre + Z.of_nat sizeof_ResInfoHeader))),
        record (EvTraceLog WARNING "[%s] Required resource do not seem to be a valid SOUND resource") s).
Proof.
  intros Hfile Hwf_pre Hhdr Hcount Hid Htype Hpre.
  rewrite (LoadSoundFromRES_scan_archive u rresName resId s version reserved _
             Hfile Hcount).
  unfold archive_bytes.
  rewrite fmap_app, concat_app. cbn [fmap list_fmap concat].
  rewrite app_nil_r.
  rewrite length_app. cbn [length].
  destruct (scan_skips_run u resId pre Hwf_pre Hpre 1
              (list_byte_of_string "rRES" ++ [version; reserved]
               ++ short_bytes (Z.of_nat (length pre + 1)))
              (record_bytes r)
              (ind_infoHeader u) false (ind_sound u) s) as (hdr1 & ->).
  cbn [scan_resources]. unfold record_bytes.
  rewrite fread_at by exact Hhdr.
  rewrite Hid, Z.eqb_refl.
  destruct (Z.eqb_spec (infoHeader_type (rec_header r)) 1) as [|_]; [contradiction|].
  cbv beta iota zeta delta [mbind M_bind TraceLog modify mret M_ret when negb].
  unfold file_at, offset_after.
  rewrite <- !app_assoc.
  do 3 f_equal. rewrite !length_app.
  change (length (list_byte_of_string "rRES")) with 4%nat.
  change (length (short_bytes (Z.of_nat (length pre + 1)))) with 2%nat.
  cbn [length]. unfold record_bytes. do 2 f_equal. rewrite Hhdr. lia.
Qed.

(** A resource file that cannot be opened, and a file none of whose
    first four bytes is the one expected: in both cases two warnings are
    logged (the reason, then that the resource could not be found), no
    record is read, nothing is made, and the uninitialised sound is
    returned. *)
Theorem LoadSoundFromRES_rejects (u : Indeterminate) (rresName : string)
    (resId : Z) (s : State V) :
  (files s !! rresName = None ->
   LoadSoundFromRES u rresName resId s
   = Ok (ind_sound u,
         record (EvTraceLog WARNING "[%s] Required resource id [%i] could not be found in the raylib resource file")
           (record (EvTraceLog WARNING "[%s] Could not open raylib resource file") s)))
  /\ (forall (b0 b1 b2 b3 : byte) (rest : list byte),
        files s !! rresName = Some (b0 :: b1 :: b2 :: b3 :: rest) ->
        b0 <> "r"%byte -> b1 <> "R"%byte -> b2 <> "E"%byte -> b3 <> "S"%byte ->
        LoadSoundFromRES u rresName resId s
        = Ok (ind_sound u,
              record (EvTraceLog WARNING "[%s] Required resource id [%i] could not be found in the raylib resource file")
                (record (EvTraceLog WARNING "[%s] This is not a valid raylib resource file") s))).
Proof.
  split.
  - intros Hfile. unfold LoadSoundFromRES, LoadSoundFromRES_scan, fopen.
    unfold_monad. rewrite Hfile. reflexivity.
  - intros b0 b1 b2 b3 rest Hfile H0' H1' H2' H3'.
    unfold LoadSoundFromRES, LoadSoundFromRES_scan, fopen.
    unfold_monad. rewrite Hfile. cbn [fmap option_fmap option_map].
    rewrite file_at_start.
    change (b0 :: b1 :: b2 :: b3 :: rest)
      with ([b0] ++ [b1] ++ [b2] ++ [b3] ++ rest).
    rewrite fread_at by reflexivity.
    rewrite fread_at by reflexivity.
    rewrite fread_at by reflexivity.
    rewrite fread_at by reflexivity.
    destruct (fread 1 (ind_version u) _) as [version f5].
    destruct (fread 1 (ind_useless u) _) as [useless f6].
    assert (id_rejected ([b0] ++ [b1] ++ [b2] ++ [b3]) = true) as ->.
    { unfold id_rejected. cbn [app lookup list_lookup].
      rewrite !bool_decide_eq_false_2 by congruence. reflexivity. }
    reflexivity.
Qed.

(** The record count is read into a [short]: when it is zero, or when its
    sixteen bits make a negative number, the loop over the records does
    not run; whatever follows in the file is not read, and the one
    message is that the resource could not be found. *)
Theorem LoadSoundFromRES_scans_no_record (u : Indeterminate) (rresName : string)
    (resId : Z) (s : State V) (version reserved : byte) (n : Z) (rest : list byte) :
  files s !! rresName
  = Some (list_byte_of_string "rRES" ++ [version; reserved] ++ le_bytes 2 n ++ rest) ->
  0 <= n < 2^16 ->
  n = 0 \/ 2^15 <= n ->
  LoadSoundFromRES_scan u rresName resId s
  = Ok ((ind_sound u,
         Some (MkFILE (list_byte_of_string "rRES" ++ [version; reserved]
                       ++ le_bytes 2 n ++ rest) 8)),
        record (EvTraceLog WARNING "[%s] Required resource id [%i] could not be found in the raylib resource file") s).
Proof.
  intros Hfile Hn Hneg.
  assert (Z.to_nat (int16 (le_unsigned (le_bytes 2 n))) = 0%nat) as Hcount.
  { rewrite le_unsigned_le_bytes by (cbn; lia).
    unfold int16. destruct Hneg as [-> | Hbig]; [reflexivity|].
    replace (n + 2^15) with ((n - 2^15) + 1 * 2^16) by lia.
    rewrite Z.mod_add by lia. rewrite Z.mod_small by lia. lia. }
  destruct (le_bytes 2 n) as [|lo [|hi [|]]] eqn:Hle; try discriminate Hle.
  unfold LoadSoundFromRES_scan, fopen. unfold_monad.
  rewrite Hfile.
  cbv -[scan_resources record int16 le_unsigned] in Hcount |- *.
  rewrite Hcount. reflexivity.
Qed.

End ResourceSounds.

(** ** The sound API and the music stream *)

Ltac leaves_prim :=
  let Hrun := fresh "Hrun" in
  intros ? ? ? Hrun;
  cbv beta delta [TraceLog alGenSources alGenBuffers alSourcef alSource3f alSourcei
                  alBufferData alGetSourcei alSourceQueueBuffers
                  alSourceUnqueueBuffers alSourcePlay alSourcePause alSourceStop
                  alDeleteSources alDeleteBuffers alGetError
                  stb_vorbis_open_filename stb_vorbis_close deref raise_fault
                  UnloadWave fopen modify gets mret M_ret] in Hrun;
  repeat match type of Hrun with
         | context [match ?x with _ => _ end] => destruct x
         end;
  first [discriminate Hrun | inversion Hrun; subst; repeat split; reflexivity].

Section SoundCallsFrame.

Context {V : Type} `{StbVorbis V} `{Utils} `{ResInfoHeaderLayout}.

Lemma leaves_ret {A} (a : A) : leaves_music (mret a : M V A).
Proof. leaves_prim. Qed.

Lemma leaves_bind {A B} (m : M V A) (k : A -> M V B) :
  leaves_music m -> (forall a, leaves_music (k a)) -> leaves_music (m ≫= k).
Proof.
  intros Hm Hk s r s' Hrun. unfold mbind, M_bind in Hrun.
  destruct (m s) as [[a s1]|] eqn:E; [|discriminate].
  destruct (Hm _ _ _ E) as (? & ? & ?), (Hk a _ _ _ Hrun) as (? & ? & ?).
  repeat split; congruence.
Qed.

Lemma leaves_when (b : bool) (m : M V unit) :
  leaves_music m -> leaves_music (when b m).
Proof. intros Hm. destruct b; [exact Hm | apply leaves_ret]. Qed.

End SoundCallsFrame.

Ltac leaves_step :=
  match goal with
  | |- leaves_music (mbind _ _) => apply leaves_bind; [|intros]
  | |- leaves_music (mret _) => apply leaves_ret
  | |- leaves_music (when _ _) => apply leaves_when
  | H : forall _, _ |- leaves_music _ => apply H
  | H : leaves_music ?m |- leaves_music ?m => exact H
  | |- leaves_music ?m =>
      match m with
      | context [match ?x with _ => _ end] => destruct x
      end
  | |- leaves_music _ => leaves_prim
  end.

Section SoundCallsLeaveMusic.

Context {V : Type} `{StbVorbis V} `{Utils} `{ResInfoHeaderLayout}.

Lemma wave_to_sound_leaves (wave : Wave) : leaves_music (wave_to_sound wave : M V Sound).
Proof. unfold wave_to_sound. repeat leaves_step. Qed.

Lemma LoadWAV_leaves (u : Indeterminate) (fileName : string) :
  leaves_music (LoadWAV u fileName : M V Wave).
Proof. unfold LoadWAV. repeat leaves_step. Qed.

Lemma LoadOGG_leaves (u : Indeterminate) (fileName : string) :
  leaves_music (LoadOGG u fileName : M V Wave).
Proof. unfold LoadOGG. repeat leaves_step. Qed.

Lemma LoadSound_leaves (u : Indeterminate) (fileName : string) :
  leaves_music (LoadSound u fileName : M V Sound).
Proof.
  pose proof (wave_to_sound_leaves) as Hsound.
  pose proof (LoadWAV_leaves u fileName) as Hwav.
  pose proof (LoadOGG_leaves u fileName) as Hogg.
  unfold LoadSound.
  repeat first [exact Hwav | exact Hogg | apply Hsound | leaves_step].
Qed.

Lemma scan_resources_leaves (u : Indeterminate) (resId : Z) (count : nat) :
  forall (rresFile : FILE) (infoHeader : list byte) (found : bool) (sound : Sound),
    leaves_music (scan_resources count u resId rresFile infoHeader found sound
                  : M V (FILE * list byte * bool * Sound)).
Proof.
  pose proof (wave_to_sound_leaves) as Hsound.
  induction count as [|count IH]; intros rresFile infoHeader found sound;
    cbn [scan_resources].
  - apply leaves_ret.
  - unfold load_sound_record.
    repeat first [apply IH | apply Hsound | leaves_step].
Qed.

Lemma LoadSoundFromRES_leaves (u : Indeterminate) (rresName : string) (resId : Z) :
  leaves_music (LoadSoundFromRES u rresName resId : M V Sound).
Proof.
  pose proof (scan_resources_leaves u resId) as Hscan.
  unfold LoadSoundFromRES, LoadSoundFromRES_scan.
  repeat first [apply Hscan | leaves_step].
Qed.

(** No call of the sound API, and no sequence of them, changes the flag
    [musicEnabled], the record of the current music (stream, buffers,
    source, counter, loop flag) or a file: sounds are loaded, played and
    unloaded without the bookkeeping of the music stream being
    touched. *)
Theorem sound_calls_leave_music_alone (calls : list sound_call)
    (s s' : State V) :
  run_sound_calls calls s = Ok (tt, s') ->
  musicEnabled s' = musicEnabled s
  /\ currentMusic s' = currentMusic s
  /\ files s' = files s.
Proof.
  assert (forall c, leaves_music (run_sound_call c : M V unit)) as Hcall.
  { pose proof (LoadSound_leaves) as Hload.
    pose proof (LoadSoundFromRES_leaves) as Hres.
    intros c. destruct c; cbn [run_sound_call];
      unfold UnloadSound, PlaySound, PauseSound, StopSound, SoundIsPlaying,
             SetSoundVolume, SetSoundPitch;
      repeat first [apply Hload | apply Hres | leaves_step]. }
  assert (leaves_music (run_sound_calls calls)) as Hall.
  { induction calls as [|c cs IH]; cbn [run_sound_calls].
    - apply leaves_ret.
    - apply leaves_bind; [apply Hcall | intros _; exact IH]. }
  intros Hrun. exact (Hall s tt s' Hrun).
Qed.

End SoundCallsLeaveMusic.

(** ** The counter after a rewind *)

Section RewoundCounter.

Context {V : Type} `{StbVorbis V} `{Utils}.

(** Queueing the buffer again and restarting the source leave the music
    record alone and only add to the trace. *)
Lemma requeued_kept_playing (src b : ALuint) (st : Z) (s : State V) :
  let s' := kept_playing src st (requeued src b s) in
  currentMusic s' = currentMusic s
  /\ (forall e, e ∈ trace s -> e ∈ trace s').
Proof.
  unfold kept_playing, requeued.
  destruct (_ =? AL.AL_NO_ERROR), (st =? AL.AL_PLAYING);
    (split; [reflexivity|]); intros e He; cbn; set_solver.
Qed.

(** When the one processed buffer is refilled at the end of a looping
    stream, the decoder is rewound, [totalSamplesLeft] is reset to the
    length of the stream before the refill, and the refill lowers it: on
    return it is the length of the stream (in shorts) minus the shorts
    uploaded to the buffer since the rewind. *)
Theorem UpdateMusicStream_counts_from_rewind (Hroom : stores_within_room)
    (s : State V) (local : Z) (v : V) (st : Z) (b : ALuint)
    (pending : list ALuint) :
  musicEnabled s = true ->
  stream (currentMusic s) = Some v ->
  1 <= channels (currentMusic s) ->
  loop (currentMusic s) = true ->
  AL.sources (al s) !! source (currentMusic s) = Some (AL.Source st [b] pending) ->
  let nchan := channels (currentMusic s) in
  let v0 := stb_vorbis_seek_start (read_next v nchan MUSIC_BUFFER_SIZE) in
  read_count v nchan MUSIC_BUFFER_SIZE <= 0 ->
  0 < read_count v0 nchan MUSIC_BUFFER_SIZE ->
  exists (chunk : list Z) (s' : State V),
    UpdateMusicStream local s = Ok (tt, s')
    /\ chunk <> []
    /\ EvVorbisSeekStart ∈ trace s'
    /\ EvBufferData b (format (currentMusic s)) (Some <$> chunk)
                    (Z.of_nat (length chunk) * 2) (sampleRate (currentMusic s))
       ∈ trace s'
    /\ totalSamplesLeft (currentMusic s')
       = int32 (total_samples v0 nchan - Z.of_nat (length chunk)).
Proof.
  intros Hen Hstream Hchan Hloop Hlook nchan v0 Hend Hdata.
  set (src := source (currentMusic s)) in *.
  assert (streaming src st [b] nchan true v s) as Hs.
  { repeat split; try assumption. exists pending. exact Hlook. }
  destruct (UpdateMusicStream_run Hroom _ _ _ _ _ _ _ local Hchan Hs)
    as (flags & s1 & v1 & Hall & _ & _ & Hrun).
  inversion Hall as [|b' bs' s0' c active sA flags' s1' Hunq Hrefill Hrest]; subst.
  inversion Hrest; subst. clear Hrest Hall.
  set (sU := record (EvSourceUnqueueBuffers src b)
               (set_al c (record (EvGetSourcei src AL_BUFFERS_PROCESSED
                                               (Z.of_nat (length [b]))) s))) in *.
  assert (musicEnabled sU = true) as HenU by exact Hen.
  assert (stream (currentMusic sU) = Some v) as HstreamU by exact Hstream.
  assert (currentMusic sU = currentMusic s) as HmusicU by reflexivity.
  destruct (BufferMusicStream_total Hroom b sU v HenU HstreamU Hchan)
    as (written & v' & _ & _ & Hfirst & Hnone & _).
  destruct (Hnone Hend) as [-> ->]. clear Hnone.
  change (0 <? Z.of_nat (length (@nil Z))) with false in Hfirst.
  set (sE := buffered b (Z.of_nat (length (@nil Z))) (pcm_after [])
               (read_next v (channels (currentMusic sU)) MUSIC_BUFFER_SIZE) sU) in *.
  destruct (buffered_frame b (Z.of_nat (length (@nil Z))) (pcm_after [])
              (read_next v (channels (currentMusic sU)) MUSIC_BUFFER_SIZE) sU)
    as (HenE & HstreamE & HchanE & HloopE & _ & _ & HfmtE & HrateE & _).
  fold sE in HenE, HstreamE, HchanE, HloopE, HfmtE, HrateE.
  inversion Hrefill as [s1a Hbuf | s1a v'' active' s2 Hbuf HloopA HstreamA Hagain
                        | s1a Hbuf HloopA]; subst.
  - rewrite Hfirst in Hbuf. discriminate Hbuf.
  - rewrite Hfirst in Hbuf. injection Hbuf as <-.
    rewrite HstreamE in HstreamA. injection HstreamA as <-.
    set (sR := rewound (read_next v (channels (currentMusic sU)) MUSIC_BUFFER_SIZE)
                 sE) in *.
    assert (musicEnabled sR = true) as HenR by (cbn; rewrite HenE; exact HenU).
    assert (stream (currentMusic sR) = Some v0) as HstreamR by reflexivity.
    assert (channels (currentMusic sR) = nchan) as HchanR by (cbn; exact HchanE).
    destruct (BufferMusicStream_total Hroom b sR v0 HenR HstreamR
                ltac:(rewrite HchanR; exact Hchan))
      as (chunk & v2 & _ & _ & Hsecond & _ & Hsome & _).
    rewrite HchanR in Hsome. specialize (Hsome Hdata).
    change (BufferMusicStream b sR = Ok (active, sA)) in Hagain.
    rewrite Hsecond in Hagain. injection Hagain as <- <-.
    assert ((0 <? Z.of_nat (length chunk)) = true) as Hpos.
    { apply Z.ltb_lt. destruct chunk; [contradiction | cbn; lia]. }
    rewrite Hpos in Hrun. cbn [last default from_option id] in Hrun.
    exists chunk. eexists. split; [exact Hrun|]. split; [exact Hsome|].
    match goal with
    | |- context [kept_playing ?a ?t (requeued ?a ?x ?y)] =>
        destruct (requeued_kept_playing a x t y) as [Hmusic Htrace]
    end.
    rewrite Hmusic. clear Hmusic.
    split; [|split].
    + apply Htrace. rewrite buffered_fields. cbn [trace].
      apply elem_of_app. left. unfold sR, rewound.
      cbn. set_solver.
    + apply Htrace. rewrite buffered_fields. cbn [trace].
      apply elem_of_app. right. unfold fill_events.
      assert (format (currentMusic sR) = format (currentMusic s)) as ->
        by (cbn; rewrite HfmtE; reflexivity).
      assert (sampleRate (currentMusic sR) = sampleRate (currentMusic s)) as ->
        by (cbn; rewrite HrateE; reflexivity).
      destruct chunk; [contradiction|]. set_solver.
    + rewrite buffered_fields. cbn [currentMusic totalSamplesLeft].
      destruct chunk; [contradiction|].
      unfold sR, rewound. cbn. rewrite HchanE. reflexivity.
  - rewrite Hfirst in Hbuf. injection Hbuf as <-.
    rewrite HloopE in HloopA. cbn in HloopA. congruence.
Qed.

End RewoundCounter.

(** ** The further properties at work on the sample files *)

Lemma beep_well_formed : wav_well_formed Samples.beep.
Proof. unfold wav_well_formed. cbn. repeat split; lia. Qed.

Lemma beep_playable : wav_playable Samples.beep.
Proof.
  unfold wav_playable. cbn.
  split; [left; reflexivity|]. split; [left; reflexivity|]. split; [lia|].
  exists 4. reflexivity.
Qed.

Lemma junk_malloc (n : nat) : length (ind_malloc RawPcm.junk n) = n.
Proof. cbn. apply length_replicate. Qed.

Lemma LoadWAV_loads_wav_file_witness :
  files Samples.boot !! "beep.wav"%string = Some (wav_bytes Samples.beep)
  /\ wav_well_formed Samples.beep
  /\ LoadWAV RawPcm.junk "beep.wav" Samples.boot
     = Ok (MkWave (Heap ["a"; "b"; "c"; "d"]%byte) 4 8000 8 1,
           record (EvTraceLog INFO "[%s] Wave file loaded successfully") Samples.boot).
Proof.
  assert (files Samples.boot !! "beep.wav"%string = Some (wav_bytes Samples.beep))
    as Hfile by reflexivity.
  split; [exact Hfile|]. split; [exact beep_well_formed|].
  exact (LoadWAV_loads_wav_file RawPcm.junk "beep.wav" Samples.boot Samples.beep
           Hfile beep_well_formed).
Defined.

Lemma LoadOGG_fills_its_block_witness :
  files RawPcm.boot !! "tune.ogg"%string = Some RawPcm.tune
  /\ stb_vorbis_open RawPcm.tune
     = Some (RawPcm.Decoder 1 44000 [97; 98; 99; 100; 101] 0)
  /\ (forall n, length (ind_malloc RawPcm.junk n) = n)
  /\ Z.of_nat (length (shorts_in_block
                         (read_samples (RawPcm.Decoder 1 44000 [97; 98; 99; 100; 101] 0)
                                       1 5)
                         (ind_malloc RawPcm.junk 10))) = 10.
Proof.
  assert (files RawPcm.boot !! "tune.ogg"%string = Some RawPcm.tune) as Hfile
    by reflexivity.
  assert (stb_vorbis_open RawPcm.tune
          = Some (RawPcm.Decoder 1 44000 [97; 98; 99; 100; 101] 0)) as Hopen
    by reflexivity.
  split; [exact Hfile|]. split; [exact Hopen|]. split; [exact junk_malloc|].
  exact (proj1 (proj2 (LoadOGG_fills_its_block RawPcm_stores_within_room RawPcm.junk
                         "tune.ogg" RawPcm.boot RawPcm.tune _ Hfile Hopen
                         ltac:(vm_compute; discriminate)
                         ltac:(vm_compute; split; [discriminate | reflexivity])
                         junk_malloc))).
Defined.

Lemma LoadSound_makes_sound_of_wav_file_witness :
  GetExtension "beep.wav" = "wav"%string
  /\ files Samples.boot !! "beep.wav"%string = Some (wav_bytes Samples.beep)
  /\ wav_well_formed Samples.beep
  /\ wav_playable Samples.beep
  /\ exists s' : State RawPcm.decoder,
       LoadSound RawPcm.junk "beep.wav" Samples.boot
       = Ok (sound_of (al Samples.boot), s')
       /\ AL.sources (al s')
          = <[sound_source (sound_of (al Samples.boot)) :=
                AL.Source AL.AL_INITIAL [] [sound_buffer (sound_of (al Samples.boot))]]>
              (AL.sources (al Samples.boot)).
Proof.
  assert (GetExtension "beep.wav" = "wav"%string) as Hext by reflexivity.
  assert (files Samples.boot !! "beep.wav"%string = Some (wav_bytes Samples.beep))
    as Hfile by reflexivity.
  repeat (split; [first [assumption | exact beep_well_formed | exact beep_playable]|]).
  destruct (LoadSound_makes_sound_of_wav_file RawPcm.junk "beep.wav" Samples.boot
              Samples.beep Hext Hfile beep_well_formed beep_playable)
    as (s' & Hrun & _ & _ & _ & _ & Hsources & _).
  exists s'. split; [exact Hrun | exact Hsources].
Defined.

Lemma LoadSound_nothing_loaded_witness :
  GetExtension "notes.txt" <> "ogg"%string
  /\ (GetExtension "notes.txt" = "wav"%string ->
      files RawPcm.boot !! "notes.txt"%string = None)
  /\ wave_data (ind_wave RawPcm.junk) = NULL
  /\ LoadSound RawPcm.junk "notes.txt" RawPcm.boot
     = Ok (ind_sound RawPcm.junk,
           record (EvTraceLog WARNING
                     "[%s] Sound extension not recognized, it can't be loaded")
                  RawPcm.boot)
  /\ wave_data (ind_wave Samples.garbage) = Wild
  /\ LoadSound Samples.garbage "notes.txt" RawPcm.boot = Fault InvalidPointer.
Proof.
  assert (GetExtension "notes.txt" <> "ogg"%string) as Hogg
    by (vm_compute; discriminate).
  assert (GetExtension "notes.txt" = "wav"%string ->
          files RawPcm.boot !! "notes.txt"%string = None) as Hwav
    by (intros _; reflexivity).
  assert (wave_data (ind_wave RawPcm.junk) = NULL) as Hnull by reflexivity.
  assert (wave_data (ind_wave Samples.garbage) = Wild) as Hwild by reflexivity.
  split; [exact Hogg|]. split; [exact Hwav|]. split; [exact Hnull|].
  split.
  - exact (proj1 (LoadSound_nothing_loaded RawPcm.junk "notes.txt" RawPcm.boot
                    Hogg Hwav) Hnull).
  - split; [exact Hwild|].
    exact (proj2 (LoadSound_nothing_loaded Samples.garbage "notes.txt" RawPcm.boot
                    Hogg Hwav) Hwild).
Defined.

Lemma UnloadSound_undoes_LoadSound_witness :
  GetExtension "beep.wav" = "wav"%string
  /\ files Samples.boot !! "beep.wav"%string = Some (wav_bytes Samples.beep)
  /\ wav_well_formed Samples.beep
  /\ wav_playable Samples.beep
  /\ queues_known (al Samples.boot)
  /\ exists (sound : Sound) (s1 s2 : State RawPcm.decoder),
       LoadSound RawPcm.junk "beep.wav" Samples.boot = Ok (sound, s1)
       /\ UnloadSound sound s1 = Ok (tt, s2)
       /\ al s2 = al Samples.boot.
Proof.
  assert (GetExtension "beep.wav" = "wav"%string) as Hext by reflexivity.
  assert (files Samples.boot !! "beep.wav"%string = Some (wav_bytes Samples.beep))
    as Hfile by reflexivity.
  assert (queues_known (al Samples.boot)) as Hknown.
  { intros k src b Hk. vm_compute in Hk. discriminate Hk. }
  repeat (split; [first [assumption | exact beep_well_formed | exact beep_playable]|]).
  destruct (UnloadSound_undoes_LoadSound RawPcm.junk "beep.wav" Samples.boot
              Samples.beep Hext Hfile beep_well_formed beep_playable Hknown)
    as (sound & s1 & s2 & Hload & Hunload & Hal & _).
  exists sound, s1, s2. repeat split; assumption.
Defined.

Lemma SoundIsPlaying_follows_last_call_witness :
  is_Some (AL.sources (al Samples.loaded) !! sound_source (MkSound 1 1))
  /\ (exists s', (PlaySound (MkSound 1 1);; SoundIsPlaying 0 (MkSound 1 1)) Samples.loaded
                 = Ok (true, s'))
  /\ (exists s', (PlaySound (MkSound 1 1);; PauseSound (MkSound 1 1);;
                  SoundIsPlaying 0 (MkSound 1 1)) Samples.loaded = Ok (false, s')).
Proof.
  assert (is_Some (AL.sources (al Samples.loaded) !! sound_source (MkSound 1 1)))
    as Hknown by (eexists; reflexivity).
  split; [exact Hknown|].
  destruct (SoundIsPlaying_follows_last_call (MkSound 1 1) 0 Samples.loaded Hknown)
    as (Hplay & Hpause & _).
  split; assumption.
Defined.

Lemma SoundIsPlaying_after_UnloadSound_witness :
  is_Some (AL.sources (al Samples.loaded) !! sound_source (MkSound 1 1))
  /\ exists s',
       (UnloadSound (MkSound 1 1);; SoundIsPlaying AL.AL_PLAYING (MkSound 1 1))
         Samples.loaded
       = Ok (true, s').
Proof.
  assert (is_Some (AL.sources (al Samples.loaded) !! sound_source (MkSound 1 1)))
    as Hknown by (eexists; reflexivity).
  split; [exact Hknown|].
  destruct (SoundIsPlaying_after_UnloadSound (MkSound 1 1) AL.AL_PLAYING
              Samples.loaded Hknown) as (s' & Hrun & _).
  exists s'. exact Hrun.
Defined.

Lemma PlayMusicStream_refuses_or_stops_witness :
  (GetExtension "beep.wav" <> "ogg"%string
   /\ PlayMusicStream "beep.wav" RawPcm.started
      = Ok (tt, record (EvTraceLog WARNING
                          "[%s] Music extension not recognized, it can't be loaded")
                       RawPcm.started))
  /\ (GetExtension "missing.ogg" = "ogg"%string
      /\ files RawPcm.started !! "missing.ogg"%string ≫= stb_vorbis_open = None
      /\ exists s' : State RawPcm.decoder,
           PlayMusicStream "missing.ogg" RawPcm.started = Ok (tt, s')
           /\ musicEnabled s' = false
           /\ stream (currentMusic s') = None).
Proof.
  destruct (PlayMusicStream_refuses_or_stops "beep.wav" RawPcm.started) as [Hrefuse _].
  destruct (PlayMusicStream_refuses_or_stops "missing.ogg" RawPcm.started)
    as [_ Hstops].
  assert (GetExtension "beep.wav" <> "ogg"%string) as Hwav by (vm_compute; discriminate).
  assert (GetExtension "missing.ogg" = "ogg"%string) as Hogg by reflexivity.
  assert (files RawPcm.started !! "missing.ogg"%string ≫= stb_vorbis_open = None)
    as Hopen by reflexivity.
  split; [split; [exact Hwav | exact (Hrefuse Hwav)]|].
  split; [exact Hogg|]. split; [exact Hopen|].
  destruct (Hstops Hogg Hopen) as (s0 & s' & _ & Hrun & _ & Hoff & Hnull).
  exists s'. repeat split; assumption.
Defined.

Lemma GetMusicTime_on_null_stream_witness :
  stream (currentMusic RawPcm.boot) = None
  /\ GetMusicTimeLength RawPcm.boot = Fault NullDereference
  /\ GetExtension "missing.ogg" = "ogg"%string
  /\ files RawPcm.started !! "missing.ogg"%string ≫= stb_vorbis_open = None
  /\ (PlayMusicStream "missing.ogg";; GetMusicTimePlayed) RawPcm.started
     = Fault NullDereference.
Proof.
  destruct (GetMusicTime_on_null_stream "missing.ogg" RawPcm.boot) as [Hnull _].
  destruct (GetMusicTime_on_null_stream "missing.ogg" RawPcm.started) as [_ Hfailed].
  assert (stream (currentMusic RawPcm.boot) = None) as Hstream by reflexivity.
  assert (GetExtension "missing.ogg" = "ogg"%string) as Hogg by reflexivity.
  assert (files RawPcm.started !! "missing.ogg"%string ≫= stb_vorbis_open = None)
    as Hopen by reflexivity.
  split; [exact Hstream|]. split; [exact (proj1 (Hnull Hstream))|].
  split; [exact Hogg|]. split; [exact Hopen|].
  exact (proj2 (Hfailed Hogg Hopen)).
Defined.

Lemma UpdateMusicStream_with_nothing_to_do_witness :
  (musicEnabled RawPcm.boot = false
   /\ UpdateMusicStream 0 RawPcm.boot = Ok (tt, RawPcm.boot))
  /\ (musicEnabled RawPcm.started = true
      /\ AL.sources (al RawPcm.started) !! source (currentMusic RawPcm.started)
         = Some (AL.Source AL.AL_PLAYING [] [1%N; 2%N])
      /\ UpdateMusicStream 0 RawPcm.started
         = Ok (tt, record (EvGetSourcei 1%N AL_SOURCE_STATE AL.AL_PLAYING)
                     (record (EvGetSourcei 1%N AL_BUFFERS_PROCESSED 0)
                             RawPcm.started))).
Proof.
  destruct (UpdateMusicStream_with_nothing_to_do 0 RawPcm.boot) as [Hidle _].
  destruct (UpdateMusicStream_with_nothing_to_do 0 RawPcm.started) as [_ Hpoll].
  assert (musicEnabled RawPcm.boot = false) as Hoff by reflexivity.
  assert (musicEnabled RawPcm.started = true) as Hon by reflexivity.
  assert (AL.sources (al RawPcm.started) !! source (currentMusic RawPcm.started)
          = Some (AL.Source AL.AL_PLAYING [] [1%N; 2%N])) as Hlook by reflexivity.
  split; [split; [exact Hoff | exact (Hidle Hoff)]|].
  split; [exact Hon|]. split; [exact Hlook|].
  exact (Hpoll [1%N; 2%N] Hon Hlook).
Defined.

Lemma MusicIsPlaying_after_StopMusicStream_witness :
  musicEnabled RawPcm.started = true
  /\ stream (currentMusic RawPcm.started) = Some RawPcm.tune_read
  /\ AL.sources (al RawPcm.started) !! source (currentMusic RawPcm.started)
     = Some (AL.Source AL.AL_PLAYING [] [1%N; 2%N])
  /\ AL.AL_PLAYING <> AL.AL_INITIAL
  /\ exists s',
       (StopMusicStream;; MusicIsPlaying AL.AL_PLAYING) RawPcm.started
       = Ok (true, s').
Proof.
  assert (musicEnabled RawPcm.started = true) as Hon by reflexivity.
  assert (stream (currentMusic RawPcm.started) = Some RawPcm.tune_read) as Hstream
    by reflexivity.
  assert (AL.sources (al RawPcm.started) !! source (currentMusic RawPcm.started)
          = Some (AL.Source AL.AL_PLAYING [] [1%N; 2%N])) as Hlook by reflexivity.
  assert (AL.AL_PLAYING <> AL.AL_INITIAL) as Hstate by discriminate.
  repeat (split; [assumption|]).
  exact (proj2 (proj2 (MusicIsPlaying_after_StopMusicStream RawPcm.started
                         AL.AL_PLAYING))
           RawPcm.tune_read AL.AL_PLAYING [] [1%N; 2%N] Hon Hstream Hlook Hstate).
Defined.

Lemma UpdateMusicStream_resumes_paused_stream_witness :
  musicEnabled RawPcm.started = true
  /\ AL.sources (al RawPcm.started) !! source (currentMusic RawPcm.started)
     = Some (AL.Source AL.AL_PLAYING [] [1%N; 2%N])
  /\ exists s1 s' : State RawPcm.decoder,
       PauseMusicStream RawPcm.started = Ok (tt, s1)
       /\ AL.sources (al s1) !! 1%N = Some (AL.Source AL.AL_PAUSED [] [1%N; 2%N])
       /\ UpdateMusicStream 0 s1 = Ok (tt, s')
       /\ AL.sources (al s') !! 1%N = Some (AL.Source AL.AL_PLAYING [] [1%N; 2%N]).
Proof.
  assert (musicEnabled RawPcm.started = true) as Hon by reflexivity.
  assert (AL.sources (al RawPcm.started) !! source (currentMusic RawPcm.started)
          = Some (AL.Source AL.AL_PLAYING [] [1%N; 2%N])) as Hlook by reflexivity.
  repeat (split; [assumption|]).
  destruct (UpdateMusicStream_resumes_paused_stream RawPcm.started 0 [1%N; 2%N]
              Hon Hlook) as (s1 & s' & Hpause & Hpaused & _ & Hpoll & Hplaying & _).
  exists s1, s'. repeat split; assumption.
Defined.

(** One call on the mono stream rewound to its start: ten shorts have
    been uploaded by the end of it. *)
Lemma replayed_buffered :
  match BufferMusicStream 1%N Samples.replayed with
  | Ok (active, s) => (active, shorts_buffered (trace s))
  | Fault _ => (false, 0)
  end = (true, 10).
Proof. vm_compute. reflexivity. Qed.

Lemma BufferMusicStream_counts_whole_frames_witness :
  musicEnabled Samples.replayed = true
  /\ stream (currentMusic Samples.replayed)
     = Some (stb_vorbis_seek_start RawPcm.tune_read)
  /\ 1 <= channels (currentMusic Samples.replayed)
  /\ totalSamplesLeft (currentMusic Samples.replayed) = 5
  /\ shorts_buffered (trace Samples.replayed) = 5
  /\ exists (chunk : list Z) (s' : State RawPcm.decoder),
       BufferMusicStream 1%N Samples.replayed = Ok (true, s')
       /\ Z.of_nat (length chunk) = 5
       /\ shorts_buffered (trace s') = 10
       /\ trace s'
          = trace Samples.replayed
            ++ fill_events 1%N AL.AL_FORMAT_MONO16 44000 chunk
       /\ totalSamplesLeft (currentMusic s') = 0.
Proof.
  assert (musicEnabled Samples.replayed = true) as Hon by reflexivity.
  assert (stream (currentMusic Samples.replayed)
          = Some (stb_vorbis_seek_start RawPcm.tune_read)) as Hstream
    by (vm_compute; reflexivity).
  assert (1 <= channels (currentMusic Samples.replayed)) as Hchan
    by (vm_compute; discriminate).
  assert (totalSamplesLeft (currentMusic Samples.replayed) = 5) as Hleft
    by reflexivity.
  assert (shorts_buffered (trace Samples.replayed) = 5) as Hbefore by reflexivity.
  repeat (split; [assumption|]).
  destruct (BufferMusicStream_counts_whole_frames RawPcm_stores_within_room 1%N
              Samples.replayed (stb_vorbis_seek_start RawPcm.tune_read)
              Hon Hstream Hchan)
    as (chunk & v' & s' & Hrun & _ & _ & Htrace & Hcount & Hcounter & _).
  pose proof replayed_buffered as Hten. rewrite Hrun in Hten.
  injection Hten as Hactive Hshorts.
  assert (Z.of_nat (length chunk) = 5) as Hlen by lia.
  exists chunk, s'.
  split; [rewrite Hrun, Hactive; reflexivity|].
  split; [exact Hlen|]. split; [exact Hshorts|]. split; [exact Htrace|].
  rewrite Hcounter, Hleft. destruct chunk as [|x chunk]; [discriminate Hlen|].
  rewrite Hlen. reflexivity.
Defined.

Lemma MusicIsPlaying_after_PlayMusicStream_witness :
  GetExtension "tune.ogg" = "ogg"%string
  /\ files RawPcm.boot !! "tune.ogg"%string = Some RawPcm.tune
  /\ stb_vorbis_open RawPcm.tune
     = Some (RawPcm.Decoder 1 44000 [97; 98; 99; 100; 101] 0)
  /\ 1 <= info_channels
            (stb_vorbis_get_info (RawPcm.Decoder 1 44000 [97; 98; 99; 100; 101] 0))
  /\ exists s1 s2 : State RawPcm.decoder,
       PlayMusicStream "tune.ogg" RawPcm.boot = Ok (tt, s1)
       /\ MusicIsPlaying 0 s1 = Ok (true, s2).
Proof.
  assert (GetExtension "tune.ogg" = "ogg"%string) as Hext by reflexivity.
  assert (files RawPcm.boot !! "tune.ogg"%string = Some RawPcm.tune) as Hfile
    by reflexivity.
  assert (stb_vorbis_open RawPcm.tune
          = Some (RawPcm.Decoder 1 44000 [97; 98; 99; 100; 101] 0)) as Hopen
    by reflexivity.
  assert (1 <= info_channels
                 (stb_vorbis_get_info (RawPcm.Decoder 1 44000 [97; 98; 99; 100; 101] 0)))
    as Hchan by (vm_compute; discriminate).
  repeat (split; [assumption|]).
  destruct (MusicIsPlaying_after_PlayMusicStream RawPcm_stores_within_room RawPcm.boot
              "tune.ogg" RawPcm.tune _ 0 Hext Hfile Hopen Hchan)
    as (s1 & s2 & s3 & Hplay & Hask & _).
  exists s1, s2. split; assumption.
Defined.

Lemma picture_well_formed : well_formed Samples.picture.
Proof. repeat split; vm_compute; first [reflexivity | discriminate]. Qed.





Lemma LoadSoundFromRES_wrong_type_witness :
  files RawPcm.boot !! "pack.rres"%string
  = Some (archive_bytes Byte.x01 Byte.x00 ([Samples.picture] ++ [Samples.model]))
  /\ Forall well_formed [Samples.picture]
  /\ length (rec_header Samples.model) = sizeof_ResInfoHeader
  /\ infoHeader_id (rec_header Samples.model) = 2
  /\ infoHeader_type (rec_header Samples.model) <> 1
  /\ Forall (fun r' => infoHeader_id (rec_header r') <> 2) [Samples.picture]
  /\ LoadSoundFromRES_scan RawPcm.junk "pack.rres" 2 RawPcm.boot
     = Ok ((ind_sound RawPcm.junk,
            Some (MkFILE (archive_bytes Byte.x01 Byte.x00
                            ([Samples.picture] ++ [Samples.model]))
                         (offset_after [Samples.picture]
                          + Z.of_nat sizeof_ResInfoHeader))),
           record (EvTraceLog WARNING "[%s] Required resource do not seem to be a valid SOUND resource")
                  RawPcm.boot).
Proof.
  assert (files RawPcm.boot !! "pack.rres"%string
          = Some (archive_bytes Byte.x01 Byte.x00 ([Samples.picture] ++ [Samples.model])))
    as Hfile by reflexivity.
  assert (Forall well_formed [Samples.picture]) as Hwf
    by (constructor; [exact picture_well_formed | constructor]).
  assert (length (rec_header Samples.model) = sizeof_ResInfoHeader) as Hhdr
    by reflexivity.
  assert (infoHeader_id (rec_header Samples.model) = 2) as Hid by reflexivity.
  assert (infoHeader_type (rec_header Samples.model) <> 1) as Htype
    by (vm_compute; discriminate).
  assert (Forall (fun r' => infoHeader_id (rec_header r') <> 2) [Samples.picture])
    as Hpre by (constructor; [vm_compute; discriminate | constructor]).
  repeat (split; [assumption|]).
  exact (LoadSoundFromRES_wrong_type RawPcm.junk "pack.rres" 2 RawPcm.boot
           Byte.x01 Byte.x00 [Samples.picture] Samples.model
           Hfile Hwf Hhdr ltac:(reflexivity) Hid Htype Hpre).
Defined.

Lemma LoadSoundFromRES_rejects_witness :
  (files Samples.boot !! "nothing.rres"%string = None
   /\ LoadSoundFromRES RawPcm.junk "nothing.rres" 2 Samples.boot
      = Ok (ind_sound RawPcm.junk,
            record (EvTraceLog WARNING "[%s] Required resource id [%i] could not be found in the raylib resource file")
              (record (EvTraceLog WARNING "[%s] Could not open raylib resource file")
                      Samples.boot)))
  /\ (files Samples.boot !! "bad.rres"%string
      = Some ("X" :: "Y" :: "Z" :: "W" :: [Byte.x01; Byte.x00; Byte.x01; Byte.x00])%byte
      /\ LoadSoundFromRES RawPcm.junk "bad.rres" 2 Samples.boot
         = Ok (ind_sound RawPcm.junk,
               record (EvTraceLog WARNING "[%s] Required resource id [%i] could not be found in the raylib resource file")
                 (record (EvTraceLog WARNING "[%s] This is not a valid raylib resource file")
                         Samples.boot))).
Proof.
  destruct (LoadSoundFromRES_rejects RawPcm.junk "nothing.rres" 2 Samples.boot)
    as [Hmissing _].
  destruct (LoadSoundFromRES_rejects RawPcm.junk "bad.rres" 2 Samples.boot)
    as [_ Hbad].
  assert (files Samples.boot !! "nothing.rres"%string = None) as Hnone by reflexivity.
  assert (files Samples.boot !! "bad.rres"%string
          = Some ("X" :: "Y" :: "Z" :: "W"
                  :: [Byte.x01; Byte.x00; Byte.x01; Byte.x00])%byte) as Hfile
    by reflexivity.
  split; [split; [exact Hnone | exact (Hmissing Hnone)]|].
  split; [exact Hfile|].
  apply (Hbad _ _ _ _ _ Hfile); discriminate.
Defined.

Lemma LoadSoundFromRES_scans_no_record_witness :
  files Samples.boot !! "odd.rres"%string
  = Some (list_byte_of_string "rRES" ++ [Byte.x01; Byte.x00] ++ le_bytes 2 65535
          ++ record_bytes Samples.chime)
  /\ 0 <= 65535 < 2^16
  /\ (65535 = 0 \/ 2^15 <= 65535)
  /\ LoadSoundFromRES_scan RawPcm.junk "odd.rres" 2 Samples.boot
     = Ok ((ind_sound RawPcm.junk,
            Some (MkFILE (list_byte_of_string "rRES" ++ [Byte.x01; Byte.x00]
                          ++ le_bytes 2 65535 ++ record_bytes Samples.chime) 8)),
           record (EvTraceLog WARNING "[%s] Required resource id [%i] could not be found in the raylib resource file")
                  Samples.boot).
Proof.
  assert (files Samples.boot !! "odd.rres"%string
          = Some (list_byte_of_string "rRES" ++ [Byte.x01; Byte.x00]
                  ++ le_bytes 2 65535 ++ record_bytes Samples.chime)) as Hfile
    by reflexivity.
  assert (0 <= 65535 < 2^16) as Hn by lia.
  assert (65535 = 0 \/ 2^15 <= 65535) as Hneg by (right; lia).
  repeat (split; [assumption|]).
  exact (LoadSoundFromRES_scans_no_record RawPcm.junk "odd.rres" 2 Samples.boot
           Byte.x01 Byte.x00 65535 (record_bytes Samples.chime) Hfile Hn Hneg).
Defined.

Lemma sound_calls_leave_music_alone_witness :
  run_sound_calls [CallLoadSound RawPcm.junk "beep.wav"; CallPlaySound (MkSound 1 1);
                   CallSoundIsPlaying 0 (MkSound 1 1); CallUnloadSound (MkSound 1 1)]
                  Samples.boot
  = Ok (tt, RawPcm.state_of
              (run_sound_calls
                 [CallLoadSound RawPcm.junk "beep.wav"; CallPlaySound (MkSound 1 1);
                  CallSoundIsPlaying 0 (MkSound 1 1); CallUnloadSound (MkSound 1 1)]
                 Samples.boot))
  /\ currentMusic
       (RawPcm.state_of
          (run_sound_calls
             [CallLoadSound RawPcm.junk "beep.wav"; CallPlaySound (MkSound 1 1);
              CallSoundIsPlaying 0 (MkSound 1 1); CallUnloadSound (MkSound 1 1)]
             Samples.boot))
     = currentMusic Samples.boot.
Proof.
  assert (run_sound_calls
            [CallLoadSound RawPcm.junk "beep.wav"; CallPlaySound (MkSound 1 1);
             CallSoundIsPlaying 0 (MkSound 1 1); CallUnloadSound (MkSound 1 1)]
            Samples.boot
          = Ok (tt, RawPcm.state_of
                      (run_sound_calls
                         [CallLoadSound RawPcm.junk "beep.wav";
                          CallPlaySound (MkSound 1 1);
                          CallSoundIsPlaying 0 (MkSound 1 1);
                          CallUnloadSound (MkSound 1 1)]
                         Samples.boot))) as Hrun
    by (vm_compute; reflexivity).
  split; [exact Hrun|].
  exact (proj1 (proj2 (sound_calls_leave_music_alone _ _ _ Hrun))).
Defined.

Lemma LoadSound_makes_sound_of_ogg_file_witness :
  GetExtension "tune.ogg" = "ogg"%string
  /\ files RawPcm.boot !! "tune.ogg"%string = Some RawPcm.tune
  /\ stb_vorbis_open RawPcm.tune
     = Some (RawPcm.Decoder 1 44000 [97; 98; 99; 100; 101] 0)
  /\ (forall n, length (ind_malloc RawPcm.junk n) = n)
  /\ exists s' : State RawPcm.decoder,
       LoadSound RawPcm.junk "tune.ogg" RawPcm.boot
       = Ok (sound_of (al RawPcm.boot), s')
       /\ AL.error (al s') = AL.error (al RawPcm.boot).
Proof.
  assert (GetExtension "tune.ogg" = "ogg"%string) as Hext by reflexivity.
  assert (files RawPcm.boot !! "tune.ogg"%string = Some RawPcm.tune) as Hfile
    by reflexivity.
  assert (stb_vorbis_open RawPcm.tune
          = Some (RawPcm.Decoder 1 44000 [97; 98; 99; 100; 101] 0)) as Hopen
    by reflexivity.
  split; [exact Hext|]. split; [exact Hfile|]. split; [exact Hopen|].
  split; [exact junk_malloc|].
  destruct (LoadSound_makes_sound_of_ogg_file RawPcm_stores_within_room RawPcm.junk
              "tune.ogg" RawPcm.boot RawPcm.tune _ Hext Hfile Hopen
              (or_introl eq_refl)
              ltac:(vm_compute; split; reflexivity)
              ltac:(vm_compute; split; reflexivity)
              junk_malloc)
    as (s' & Hrun & _ & _ & _ & _ & Herror & _).
  exists s'. split; assumption.
Defined.

Lemma UpdateMusicStream_counts_from_rewind_witness :
  musicEnabled Samples.half_played = true
  /\ stream (currentMusic Samples.half_played) = Some RawPcm.tune_read
  /\ 1 <= channels (currentMusic Samples.half_played)
  /\ loop (currentMusic Samples.half_played) = true
  /\ AL.sources (al Samples.half_played) !! source (currentMusic Samples.half_played)
     = Some (AL.Source AL.AL_PLAYING [1%N] [2%N])
  /\ read_count RawPcm.tune_read 1 MUSIC_BUFFER_SIZE <= 0
  /\ 0 < read_count (stb_vorbis_seek_start RawPcm.tune_read) 1 MUSIC_BUFFER_SIZE
  /\ exists (chunk : list Z) (s' : State RawPcm.decoder),
       UpdateMusicStream 0 Samples.half_played = Ok (tt, s')
       /\ chunk <> []
       /\ totalSamplesLeft (currentMusic s') = int32 (5 - Z.of_nat (length chunk)).
Proof.
  assert (musicEnabled Samples.half_played = true) as Hen by reflexivity.
  assert (stream (currentMusic Samples.half_played) = Some RawPcm.tune_read) as Hstream
    by reflexivity.
  assert (1 <= channels (currentMusic Samples.half_played)) as Hchan
    by (vm_compute; discriminate).
  assert (loop (currentMusic Samples.half_played) = true) as Hloop by reflexivity.
  assert (AL.sources (al Samples.half_played) !! source (currentMusic Samples.half_played)
          = Some (AL.Source AL.AL_PLAYING [1%N] [2%N])) as Hlook by reflexivity.
  assert (read_count RawPcm.tune_read 1 MUSIC_BUFFER_SIZE <= 0) as Hend
    by (vm_compute; discriminate).
  assert (0 < read_count (stb_vorbis_seek_start RawPcm.tune_read) 1 MUSIC_BUFFER_SIZE)
    as Hdata by reflexivity.
  repeat (split; [assumption|]).
  destruct (UpdateMusicStream_counts_from_rewind RawPcm_stores_within_room
              Samples.half_played 0 RawPcm.tune_read AL.AL_PLAYING 1%N [2%N]
              Hen Hstream Hchan Hloop Hlook Hend Hdata)
    as (chunk & s' & Hrun & Hsome & _ & _ & Hleft).
  exists chunk, s'. split; [exact Hrun|]. split; [exact Hsome|]. exact Hleft.
Defined.
